(** * JMX MCP Server conformance harness: [comprehensive-test.py]

    A shallow embedding of the Python harness and the properties of its
    specification.

    - The values [json.loads] hands to the test steps are the type [json];
      the Python operations the steps apply to them (truth value, [in],
      subscript, [.get], [len], iteration) are the functions of [Py], with
      the exceptions Python raises as results.
    - The harness ([MCPTester] and [main]) is code in a state and exception
      monad over a [World]: the attribute [self.server_process], the child
      process as the operating system has it, and the log of what the
      harness does to the outside (prints, the process it spawns, the
      signals and requests it sends).
    - Everything the harness cannot decide is an [Env]: the command line,
      whether the JAR is there, how the child behaves, what comes back on
      the pipe for each request, and where the interrupt signal arrives.
      [json.loads] and [str.strip] are parameters.
    - [subprocess.Popen] is modelled as CPython has it: [poll], [wait],
      [terminate] and [kill] act on a handle that learns the return code
      of the child when it collects it. *)

From Stdlib Require Import ZArith List String Ascii Bool Lia PrimFloat.
Import ListNotations.
Local Open Scope string_scope.
Local Open Scope list_scope.
Set Warnings "-register-all".

(** ** Python values produced by [json.loads] *)

(** A JSON object becomes a [dict]; it is kept as an association list in
    which the first binding of a key is the one that counts. *)
Inductive json : Type :=
| JNull
| JBool (b : bool)
| JInt (z : Z)
| JFloat (f : float)
| JStr (s : string)
| JList (l : list json)
| JDict (d : list (string * json)).

(** ** Exceptions and results *)

Inductive exn : Type :=
| TypeError
| KeyError
| AttributeError
| OSError          (* BrokenPipeError, FileNotFoundError, ... *)
| JSONDecodeError
| TimeoutExpired
| SystemExit (code : Z).

(** [SystemExit] derives from [BaseException] only: [except Exception]
    does not catch it. *)
Definition is_Exception (e : exn) : bool :=
  match e with
  | SystemExit _ => false
  | _ => true
  end.

Inductive result (A : Type) : Type :=
| Ok (a : A)
| Raise (e : exn).
Arguments Ok {A} a.
Arguments Raise {A} e.

Module Py.

(** [dict] lookup. *)
Fixpoint lookup (key : string) (d : list (string * json)) : option json :=
  match d with
  | [] => None
  | (k, v) :: d' => if String.eqb key k then Some v else lookup key d'
  end.

(** The keys of a [dict], each once, in order of first occurrence. *)
Fixpoint keys (d : list (string * json)) : list string :=
  match d with
  | [] => []
  | (k, _) :: d' =>
      k :: filter (fun k' => negb (String.eqb k k')) (keys d')
  end.

(** [prefix p s]: [s.startswith(p)]. *)
Fixpoint prefix (p s : string) : bool :=
  match p, s with
  | EmptyString, _ => true
  | String a p', String b s' => Ascii.eqb a b && prefix p' s'
  | String _ _, EmptyString => false
  end.

(** [substring p s]: [p in s] for two [str]. Text is held as UTF-8 code
    units, on which substring search agrees with search on characters. *)
Fixpoint substring (p s : string) : bool :=
  prefix p s ||
  match s with
  | EmptyString => false
  | String _ s' => substring p s'
  end.

(** A UTF-8 continuation byte, of the form 10xxxxxx. *)
Definition continuation (a : ascii) : bool :=
  let n := N_of_ascii a in (128 <=? n)%N && (n <? 192)%N.

(** The characters of a [str]: the text is cut before every byte that is
    not a continuation byte. *)
Fixpoint chars_from (cur : string) (s : string) : list string :=
  match s with
  | EmptyString => [cur]
  | String a s' =>
      if continuation a then chars_from (cur ++ String a EmptyString)%string s'
      else cur :: chars_from (String a EmptyString) s'
  end.

Definition chars (s : string) : list string :=
  match s with
  | EmptyString => []
  | String a s' => chars_from (String a EmptyString) s'
  end.

(** Truth value of an object: [None], [False], zero, and the empty
    string, list and dict are false. *)
Definition truthy (v : json) : bool :=
  match v with
  | JNull => false
  | JBool b => b
  | JInt z => negb (z =? 0)%Z
  | JFloat f => negb (PrimFloat.eqb f 0%float)
  | JStr s => negb (String.eqb s "")
  | JList l => match l with [] => false | _ => true end
  | JDict d => match d with [] => false | _ => true end
  end.

(** [s == v] for a [str] [s]. *)
Definition eq_str (s : string) (v : json) : bool :=
  match v with
  | JStr t => String.eqb s t
  | _ => false
  end.

(** [key in v] for a [str] [key]. *)
Definition contains (key : string) (v : json) : result bool :=
  match v with
  | JDict d => Ok (match lookup key d with Some _ => true | None => false end)
  | JList l => Ok (existsb (eq_str key) l)
  | JStr s => Ok (substring key s)
  | _ => Raise TypeError
  end.

(** [v[key]] for a [str] [key]. *)
Definition getitem (v : json) (key : string) : result json :=
  match v with
  | JDict d => match lookup key d with Some x => Ok x | None => Raise KeyError end
  | _ => Raise TypeError
  end.

(** [v.get(key, default)]: only a [dict] has the method. *)
Definition get (v : json) (key : string) (default : json) : result json :=
  match v with
  | JDict d => Ok (match lookup key d with Some x => x | None => default end)
  | _ => Raise AttributeError
  end.

(** [len(v)]. *)
Definition len (v : json) : result nat :=
  match v with
  | JList l => Ok (List.length l)
  | JDict d => Ok (List.length (keys d))
  | JStr s => Ok (List.length (chars s))
  | _ => Raise TypeError
  end.

(** The items [for x in v] goes through. *)
Definition iter (v : json) : result (list json) :=
  match v with
  | JList l => Ok l
  | JDict d => Ok (map JStr (keys d))
  | JStr s => Ok (map JStr (chars s))
  | _ => Raise TypeError
  end.

End Py.

(** ** What the harness prints *)

(** One constructor for each [print] of the script; the fields are the
    values its f-string interpolates. *)
Inductive message : Type :=
| JarNotFound                       (* "JAR file not found: {jar_path}" *)
| RunMvnFirst                       (* "   Run 'mvn clean package' first" *)
| ServerFailedToStart (stderr : string)  (* "Server failed to start: {stderr}" *)
| ServerStarted                     (* "JMX MCP Server started successfully" *)
| FailedToStartServer (e : exn)     (* "Failed to start server: {e}" *)
| ServerStopped                     (* "Server stopped" *)
| RequestFailed (e : exn)           (* "Request failed: {e}" *)
| TestingInitialization             (* "Testing MCP Initialization..." *)
| NoResponseToInitialize            (* "No response to initialize" *)
| InitializeFailed (response : json)     (* "Initialize failed: {response}" *)
| NoCapabilities                    (* "No capabilities in initialize response" *)
| InitializationSuccessful          (* "MCP initialization successful" *)
| TestingToolsListing               (* "Testing Tools Listing..." *)
| FailedToListTools                 (* "Failed to list tools" *)
| MissingTools (missing_tools : list string)  (* "Missing tools: {missing_tools}" *)
| FoundTools (n : nat) (found_tools : list json)  (* "Found {len(tools)} tools: {found_tools}" *)
| TestingResourcesListing           (* "Testing Resources Listing..." *)
| FailedToListResources             (* "Failed to list resources" *)
| NoResourcesFound                  (* "No resources found" *)
| FoundResources (n : nat)          (* "Found {len(resources)} resources" *)
| TestingToolExecution              (* "Testing Tool Execution..." *)
| FailedToExecuteTool               (* "Failed to execute listDomains tool" *)
| NoContent                         (* "No content in tool response" *)
| ToolExecutionSuccessful           (* "Tool execution successful" *)
| StartingTests                     (* "Starting JMX MCP Server Comprehensive Tests" *)
| Rule                              (* "=" * 50 *)
| ResultsRule                       (* "\n" + "=" * 50 *)
| TestResults (passed total : nat)  (* "Test Results: {passed}/{total} tests passed" *)
| AllTestsPassed                    (* "All tests passed! JMX MCP Server is ready for deployment." *)
| SomeTestsFailed                   (* "Some tests failed. Please check the issues above." *)
| Usage (line : string)             (* the lines of the help text *)
| TestInterrupted.                  (* "Test interrupted" *)

(** ** The child process, its handle and the world *)

Inductive signal : Type := SIGTERM | SIGKILL.

(** What the harness does to the outside. *)
Inductive event : Type :=
| Print (m : message)
| Spawn (cmd : list string)         (* subprocess.Popen(cmd, ...) *)
| Kill (s : signal)                 (* os.kill(pid, s) on the child *)
| SendLine (request : json)         (* stdin.write(json.dumps(request) + "\n"); flush *)
| ReadStderr.                       (* stderr.read() *)

(** The child process as the operating system has it. *)
Inductive child_state : Type :=
| NoChild
| Running
| Exited (code : Z).

(** A [subprocess.Popen] object: the harness only ever observes its
    [returncode], which is [None] until the exit has been collected. *)
Record Popen : Type := { returncode : option Z }.

(** The harness state [self.server_process] together with the part of the
    outside it acts on. [log] is in reverse order of time; [stop_calls]
    counts the entries into [stop_server]. *)
Record World : Type := {
  server_process : option Popen;
  child : child_state;
  calls : nat;
  log : list event;
  stop_calls : nat
}.

(** [MCPTester.__init__]. *)
Definition init_world : World :=
  {| server_process := None; child := NoChild; calls := 0; log := [];
     stop_calls := 0 |}.

(** The events in order of time. *)
Definition trace (w : World) : list event := rev (log w).

(** ** The environment of one run *)

(** One [send_request] exchange on the pipes: the write may hit a closed
    pipe; otherwise [readline] returns a line, the empty string at end of
    stream. *)
Inductive exchange : Type :=
| BrokenPipe
| Readline (response_line : string).

(** Where the interrupt signal is delivered, once the handler of [main]
    is installed. *)
Inductive ipoint : Type :=
| AtEntry                 (* before start_server does anything *)
| AtSpawn                 (* inside Popen(...): the child exists, the handle
                             is not yet assigned to self.server_process *)
| AtSettle                (* during time.sleep(3) *)
| AtReadline (n : nat)    (* while the n-th exchange waits in readline *)
| AtCleanup               (* during the wait of the final stop_server *)
| AtReturn.               (* after run_all_tests has returned *)

Definition ipoint_eqb (p q : ipoint) : bool :=
  match p, q with
  | AtEntry, AtEntry | AtSpawn, AtSpawn | AtSettle, AtSettle
  | AtCleanup, AtCleanup | AtReturn, AtReturn => true
  | AtReadline n, AtReadline m => Nat.eqb n m
  | _, _ => false
  end.

Record Env : Type := {
  argv : list string;             (* sys.argv *)
  jar_exists : bool;              (* os.path.exists(jar_path) *)
  popen_fails : bool;             (* Popen raises: no java on the path *)
  early_exit : option Z;          (* the child has exited when the settle interval ends *)
  stderr_text : string;           (* what its error stream holds *)
  later_exit : option Z;          (* the child exits by itself before it is stopped *)
  term_exit : option Z;           (* the child exits within the 5 s of wait *)
  exchanges : nat -> exchange;    (* the n-th exchange on the pipes *)
  interrupt : option ipoint
}.

(** ** The monads *)

Class Monad (m : Type -> Type) : Type := {
  ret : forall {A}, A -> m A;
  bind : forall {A B}, m A -> (A -> m B) -> m B
}.

Declare Scope py_scope.
Delimit Scope py_scope with py.
Notation "x <- c ;; k" := (bind c (fun x => k))
  (at level 100, c at next level, right associativity) : py_scope.
Notation "c ;; k" := (bind c (fun _ => k))
  (at level 100, right associativity) : py_scope.
Local Open Scope py_scope.

(** Code that only prints and returns or raises: the checks of a test
    step on the response it got. *)
Definition Chk (A : Type) : Type := list message * result A.

#[export] Instance Monad_Chk : Monad Chk := {
  ret A a := ([], Ok a);
  bind A B c k :=
    match c with
    | (ms, Ok a) => let (ms', r) := k a in (ms ++ ms', r)
    | (ms, Raise e) => (ms, Raise e)
    end
}.

Definition say (m : message) : Chk unit := ([m], Ok tt).

Definition lift {A} (r : result A) : Chk A := ([], r).

Fixpoint mapM {A B} (f : A -> Chk B) (l : list A) : Chk (list B) :=
  match l with
  | [] => ret []
  | x :: l' => y <- f x ;; ys <- mapM f l' ;; ret (y :: ys)
  end.

(** Code that acts on the world. *)
Definition M (A : Type) : Type := World -> result A * World.

#[export] Instance Monad_M : Monad M := {
  ret A a := fun w => (Ok a, w);
  bind A B c k := fun w =>
    match c w with
    | (Ok a, w') => k a w'
    | (Raise e, w') => (Raise e, w')
    end
}.

Definition raise {A} (e : exn) : M A := fun w => (Raise e, w).

(** [try: body except <class>: handler], for the exceptions [catches]
    selects. *)
Definition try_except {A} (catches : exn -> bool) (body : M A)
    (handler : exn -> M A) : M A := fun w =>
  match body w with
  | (Raise e, w') => if catches e then handler e w' else (Raise e, w')
  | r => r
  end.

(** [try: body finally: cleanup]: an exception of the cleanup replaces
    the outcome of the body. *)
Definition try_finally {A} (body : M A) (cleanup : M unit) : M A := fun w =>
  let (r, w') := body w in
  match cleanup w' with
  | (Ok _, w'') => (r, w'')
  | (Raise e, w'') => (Raise e, w'')
  end.

Definition emit (e : event) : M unit := fun w =>
  (Ok tt, {| server_process := server_process w; child := child w;
             calls := calls w; log := e :: log w;
             stop_calls := stop_calls w |}).

Definition print (m : message) : M unit := emit (Print m).

(** Runs a check and prints what it says. *)
Definition report {A} (c : Chk A) : M A := fun w =>
  (snd c, {| server_process := server_process w; child := child w;
             calls := calls w; log := rev (map Print (fst c)) ++ log w;
             stop_calls := stop_calls w |}).

Definition set_process (p : option Popen) (c : child_state) : M unit := fun w =>
  (Ok tt, {| server_process := p; child := c; calls := calls w;
             log := log w; stop_calls := stop_calls w |}).

Definition next_call : M nat := fun w =>
  (Ok (calls w), {| server_process := server_process w; child := child w;
                    calls := S (calls w); log := log w;
                    stop_calls := stop_calls w |}).

(** The fork inside [Popen]: the child runs, [self.server_process] is as
    it was. *)
Definition fork : M unit := fun w =>
  (Ok tt, {| server_process := server_process w; child := Running;
             calls := calls w; log := log w; stop_calls := stop_calls w |}).

Definition enter_stop : M unit := fun w =>
  (Ok tt, {| server_process := server_process w; child := child w;
             calls := calls w; log := log w;
             stop_calls := S (stop_calls w) |}).

(** ** [subprocess.Popen] *)

(** A method call on [self.server_process]: on [None] the attribute
    lookup raises. *)
Definition with_process {A} (method : Popen -> M A) : M A := fun w =>
  match server_process w with
  | Some p => method p w
  | None => (Raise AttributeError, w)
  end.

Definition collected (c : Z) : M (option Z) :=
  set_process (Some {| returncode := Some c |}) (Exited c) ;; ret (Some c).

(** [Popen.poll()]: returns the return code once the child has exited,
    collecting it the first time. [spontaneous] tells whether a child
    that still runs has exited by itself by now. *)
Definition poll (spontaneous : option Z) : M (option Z) :=
  with_process (fun p =>
    match returncode p with
    | Some c => ret (Some c)
    | None => fun w =>
        match child w with
        | Exited c => collected c w
        | Running =>
            match spontaneous with
            | Some c => collected c w
            | None => (Ok None, w)
            end
        | NoChild => (Ok None, w)
        end
    end).

(** [Popen.send_signal(sig)], which [terminate()] and [kill()] call with
    SIGTERM and SIGKILL: it polls first and sends nothing to a child known
    to have exited (CPython 3.9 and later). SIGKILL ends the child, with
    return code -9. *)
Definition send_signal (spontaneous : option Z) (s : signal) : M unit :=
  rc <- poll spontaneous ;;
  match rc with
  | Some _ => ret tt
  | None =>
      emit (Kill s) ;;
      match s with
      | SIGKILL => with_process (fun p => set_process (Some p) (Exited (-9)))
      | SIGTERM => ret tt
      end
  end.

(** [Popen.wait(timeout)]: returns at once when the return code is
    known, collects a child that exits within the timeout ([within]),
    and raises [TimeoutExpired] otherwise. *)
Definition wait (within : option Z) : M Z :=
  with_process (fun p =>
    match returncode p with
    | Some c => ret c
    | None => fun w =>
        match child w with
        | Exited c => (set_process (Some {| returncode := Some c |}) (Exited c) ;; ret c) w
        | _ =>
            match within with
            | Some c => (set_process (Some {| returncode := Some c |}) (Exited c) ;; ret c) w
            | None => (Raise TimeoutExpired, w)
            end
        end
    end).

Definition is_TimeoutExpired (e : exn) : bool :=
  match e with
  | TimeoutExpired => true
  | _ => false
  end.

(** ** The harness *)

Definition jar_path : string := "target/jmx-mcp-server-1.0.0.jar".

Definition cmd : list string :=
  ["java"; "-Xmx512m"; "-Xms256m"; "-Dspring.profiles.active=stdio";
   "-Dspring.main.banner-mode=off"; "-Dlogging.level.root=ERROR";
   "-Dspring.main.log-startup-info=false"; "-jar"; jar_path].

Definition expected_tools : list string :=
  ["listMBeans"; "getMBeanInfo"; "getAttribute"; "setAttribute";
   "listDomains"; "getConnectionInfo"].

Definition request_initialize : json :=
  JDict [("jsonrpc", JStr "2.0"); ("id", JInt 1); ("method", JStr "initialize");
         ("params", JDict
            [("protocolVersion", JStr "2024-11-05");
             ("capabilities", JDict [("tools", JDict []); ("resources", JDict [])]);
             ("clientInfo", JDict [("name", JStr "test-client");
                                   ("version", JStr "1.0.0")])])].

Definition request_list_tools : json :=
  JDict [("jsonrpc", JStr "2.0"); ("id", JInt 2); ("method", JStr "tools/list")].

Definition request_list_resources : json :=
  JDict [("jsonrpc", JStr "2.0"); ("id", JInt 3); ("method", JStr "resources/list")].

Definition request_tool_execution : json :=
  JDict [("jsonrpc", JStr "2.0"); ("id", JInt 4); ("method", JStr "tools/call");
         ("params", JDict [("name", JStr "listDomains")])].

Definition newline : string := String (ascii_of_nat 10) EmptyString.

Definition usage : list string :=
  ["JMX MCP Server Comprehensive Test Suite";
   "Usage: python3 comprehensive-test.py";
   (newline ++ "This script tests:")%string;
   "- MCP protocol compliance";
   "- Tool registration and execution";
   "- Resource discovery";
   "- JSON-RPC communication"].

(** The checks a step makes on the response of [send_request], where
    [JNull] is Python's [None]. *)

(** [not response or "result" not in response] *)
Definition no_result (response : json) : Chk bool :=
  if negb (Py.truthy response) then ret true
  else
    has <- lift (Py.contains "result" response) ;;
    ret (negb has).

Definition check_initialize (response : json) : Chk bool :=
  if negb (Py.truthy response) then
    (say NoResponseToInitialize ;; ret false)
  else
    has <- lift (Py.contains "result" response) ;;
    if negb has then
      (say (InitializeFailed response) ;; ret false)
    else
      result <- lift (Py.getitem response "result") ;;
      has_capabilities <- lift (Py.contains "capabilities" result) ;;
      if negb has_capabilities then
        (say NoCapabilities ;; ret false)
      else
        (say InitializationSuccessful ;; ret true).

Definition check_list_tools (response : json) : Chk bool :=
  bad <- no_result response ;;
  if bad then
    (say FailedToListTools ;; ret false)
  else
    result <- lift (Py.getitem response "result") ;;
    tools <- lift (Py.get result "tools" (JList [])) ;;
    items <- lift (Py.iter tools) ;;
    found_tools <- mapM (fun tool => lift (Py.getitem tool "name")) items ;;
    let missing_tools :=
      filter (fun tool => negb (existsb (Py.eq_str tool) found_tools))
             expected_tools in
    match missing_tools with
    | _ :: _ => say (MissingTools missing_tools) ;; ret false
    | [] =>
        n <- lift (Py.len tools) ;;
        say (FoundTools n found_tools) ;;
        ret true
    end.

Definition check_list_resources (response : json) : Chk bool :=
  bad <- no_result response ;;
  if bad then
    (say FailedToListResources ;; ret false)
  else
    result <- lift (Py.getitem response "result") ;;
    resources <- lift (Py.get result "resources" (JList [])) ;;
    n <- lift (Py.len resources) ;;
    if Nat.eqb n 0 then
      (say NoResourcesFound ;; ret false)
    else
      (say (FoundResources n) ;; ret true).

Definition check_tool_execution (response : json) : Chk bool :=
  bad <- no_result response ;;
  if bad then
    (say FailedToExecuteTool ;; ret false)
  else
    result <- lift (Py.getitem response "result") ;;
    content <- lift (Py.get result "content" (JList [])) ;;
    if negb (Py.truthy content) then
      (say NoContent ;; ret false)
    else
      (say ToolExecutionSuccessful ;; ret true).

Section Harness.

(** [json.loads], [None] when it raises, and [str.strip]. *)
Variable json_loads : string -> option json.
Variable strip : string -> string.

(** The environment of the run. *)
Variable E : Env.

(** [MCPTester.stop_server]; [during_wait] is what happens while [wait]
    blocks. *)
Definition stop_server_with (during_wait : M unit) : M unit :=
  enter_stop ;;
  fun w =>
    match server_process w with
    | Some _ =>
        (send_signal (later_exit E) SIGTERM ;;
         try_except is_TimeoutExpired
           (during_wait ;; wait (term_exit E) ;; ret tt)
           (fun _ => send_signal None SIGKILL) ;;
         print ServerStopped) w
    | None => (Ok tt, w)
    end.

(** [signal_handler] of [main]; [sys.exit(1)] raises [SystemExit]. *)
Definition signal_handler : M unit :=
  print TestInterrupted ;;
  stop_server_with (ret tt) ;;
  raise (SystemExit 1).

(** A point at which the interrupt signal may be delivered. *)
Definition checkpoint (p : ipoint) : M unit :=
  match interrupt E with
  | Some q => if ipoint_eqb p q then signal_handler else ret tt
  | None => ret tt
  end.

Definition stop_server : M unit := stop_server_with (checkpoint AtCleanup).

(** [MCPTester.start_server]. The assignment to [self.server_process]
    happens when [Popen] has returned: an interrupt that arrives between
    the fork and the assignment finds the child running and no handle. *)
Definition start_server : M bool :=
  try_except is_Exception
    (if negb (jar_exists E) then
       (print JarNotFound ;; print RunMvnFirst ;; ret false)
     else
       (if popen_fails E then raise OSError
        else emit (Spawn cmd) ;;
             fork ;;
             checkpoint AtSpawn ;;
             set_process (Some {| returncode := None |}) Running) ;;
       checkpoint AtSettle ;;
       rc <- poll (early_exit E) ;;
       match rc with
       | Some _ =>
           emit ReadStderr ;;
           print (ServerFailedToStart (stderr_text E)) ;;
           ret false
       | None => print ServerStarted ;; ret true
       end)
    (fun e => print (FailedToStartServer e) ;; ret false).

(** [MCPTester.send_request]; the result [JNull] is [None]. *)
Definition send_request (request : json) : M json :=
  try_except is_Exception
    (n <- next_call ;;
     with_process (fun _ =>
       match exchanges E n with
       | BrokenPipe => raise OSError
       | Readline response_line =>
           emit (SendLine request) ;;
           checkpoint (AtReadline n) ;;
           if String.eqb response_line "" then ret JNull
           else
             match json_loads (strip response_line) with
             | Some v => ret v
             | None => raise JSONDecodeError
             end
       end))
    (fun e => print (RequestFailed e) ;; ret JNull).

Definition test_initialize : M bool :=
  print TestingInitialization ;;
  response <- send_request request_initialize ;;
  report (check_initialize response).

Definition test_list_tools : M bool :=
  print TestingToolsListing ;;
  response <- send_request request_list_tools ;;
  report (check_list_tools response).

Definition test_list_resources : M bool :=
  print TestingResourcesListing ;;
  response <- send_request request_list_resources ;;
  report (check_list_resources response).

Definition test_tool_execution : M bool :=
  print TestingToolExecution ;;
  response <- send_request request_tool_execution ;;
  report (check_tool_execution response).

(** The loop of [run_all_tests]: [passed] counts up until a test returns
    false, which breaks out. *)
Fixpoint run_tests (tests : list (M bool)) (passed : nat) : M nat :=
  match tests with
  | [] => ret passed
  | test :: rest =>
      ok <- test ;;
      if ok then run_tests rest (passed + 1) else ret passed
  end.

Definition tests : list (M bool) :=
  [test_initialize; test_list_tools; test_list_resources; test_tool_execution].

(** [MCPTester.run_all_tests]. *)
Definition run_all_tests : M bool :=
  print StartingTests ;;
  print Rule ;;
  started <- start_server ;;
  if negb started then ret false
  else
    try_finally
      (let total := List.length tests in
       passed <- run_tests tests 0 ;;
       print ResultsRule ;;
       print (TestResults passed total) ;;
       if Nat.eqb passed total then (print AllTestsPassed ;; ret true)
       else (print SomeTestsFailed ;; ret false))
      stop_server.

(** [len(sys.argv) > 1 and sys.argv[1] == "--help"] *)
Definition help_requested : bool :=
  Nat.ltb 1 (List.length (argv E)) && String.eqb (nth 1 (argv E) "") "--help".

Fixpoint print_all (lines : list string) : M unit :=
  match lines with
  | [] => ret tt
  | l :: rest => print (Usage l) ;; print_all rest
  end.

(** [main]. The handler is installed before [run_all_tests]. *)
Definition main : M unit :=
  if help_requested then print_all usage
  else
    checkpoint AtEntry ;;
    success <- run_all_tests ;;
    checkpoint AtReturn ;;
    raise (SystemExit (if success then 0 else 1)).

(** The run of the script from a fresh tester. *)
Definition run : result unit * World := main init_world.

(** The exit status of the interpreter: that of [sys.exit], 0 when
    [main] returns, 1 when an exception goes uncaught. *)
Definition exit_status (r : result unit) : Z :=
  match r with
  | Ok _ => 0
  | Raise (SystemExit code) => code
  | Raise _ => 1
  end.

Definition exit_code : Z := exit_status (fst run).

End Harness.

Arguments exit_status : simpl nomatch.

(** ** A sample server *)

Module Sample.

(** JSON text is written here with apostrophes for its double quotes. *)
Definition quoted (a : ascii) : ascii :=
  if Ascii.eqb a "'"%char then ascii_of_nat 34 else a.

Fixpoint json_text (s : string) : string :=
  match s with
  | EmptyString => EmptyString
  | String a s' => String (quoted a) (json_text s')
  end.

Definition is_space (a : ascii) : bool :=
  let n := nat_of_ascii a in
  (Nat.leb 9 n && Nat.leb n 13) || (Nat.leb 28 n && Nat.leb n 32).

Fixpoint lstrip (s : string) : string :=
  match s with
  | EmptyString => EmptyString
  | String a s' => if is_space a then lstrip s' else s
  end.

Fixpoint reverse (acc s : string) : string :=
  match s with
  | EmptyString => acc
  | String a s' => reverse (String a acc) s'
  end.

(** [str.strip] on ASCII text. *)
Definition strip (s : string) : string :=
  reverse "" (lstrip (reverse "" (lstrip s))).

Definition envelope (id : Z) (result : json) : json :=
  JDict [("jsonrpc", JStr "2.0"); ("id", JInt id); ("result", result)].

Definition named (name : string) : json := JDict [("name", JStr name)].

Definition initialized : json :=
  envelope 1 (JDict [("capabilities", JDict [("tools", JDict [])])]).

Definition tools_listed : json :=
  envelope 2 (JDict [("tools", JList (map named expected_tools))]).

Definition tools_field_absent : json := envelope 2 (JDict []).

Definition resources_listed : json :=
  envelope 3 (JDict [("resources", JList [named "domains"])]).

Definition resources_empty : json :=
  envelope 3 (JDict [("resources", JList [])]).

Definition tool_called : json :=
  envelope 4 (JDict [("content", JList [JDict [("type", JStr "text");
                                              ("text", JStr "java.lang")]])]).

(** A response with both [result] and [error]. *)
Definition result_and_error : json :=
  JDict [("jsonrpc", JStr "2.0"); ("id", JInt 1);
         ("result", JDict [("capabilities", JDict [])]);
         ("error", JDict [("code", JInt (-32603)); ("message", JStr "Internal error")])].

(** The lines the sample server writes, and what [json.loads] makes of
    them; any other text does not parse. *)
Definition texts : list (string * json) :=
  [ (json_text "{'jsonrpc': '2.0', 'id': 1, 'result': {'capabilities': {'tools': {}}}}",
     initialized);
    (json_text "{'jsonrpc': '2.0', 'id': 2, 'result': {'tools': [{'name': 'listMBeans'}, {'name': 'getMBeanInfo'}, {'name': 'getAttribute'}, {'name': 'setAttribute'}, {'name': 'listDomains'}, {'name': 'getConnectionInfo'}]}}",
     tools_listed);
    (json_text "{'jsonrpc': '2.0', 'id': 2, 'result': {}}", tools_field_absent);
    (json_text "{'jsonrpc': '2.0', 'id': 3, 'result': {'resources': [{'name': 'domains'}]}}",
     resources_listed);
    (json_text "{'jsonrpc': '2.0', 'id': 3, 'result': {'resources': []}}",
     resources_empty);
    (json_text "{'jsonrpc': '2.0', 'id': 4, 'result': {'content': [{'type': 'text', 'text': 'java.lang'}]}}",
     tool_called);
    ("true", JBool true) ].

Definition json_loads (s : string) : option json := Py.lookup s texts.

(** The line that [json.loads] turns into [v]. *)
Definition line_of (v : nat) : string :=
  (fst (nth v texts ("", JNull)) ++ newline)%string.

(** A server that answers the exchanges with the given lines and then
    closes its output. *)
Definition server (lines : list string) (n : nat) : exchange :=
  Readline (nth n lines "").

Definition env (lines : list string) : Env :=
  {| argv := ["comprehensive-test.py"];
     jar_exists := true;
     popen_fails := false;
     early_exit := None;
     stderr_text := "";
     later_exit := None;
     term_exit := Some 143%Z;
     exchanges := server lines;
     interrupt := None |}.

(** Every step passes. *)
Definition all_pass : Env := env [line_of 0; line_of 1; line_of 3; line_of 5].

(** The tools/list result has no [tools] field. *)
Definition no_tools_field : Env := env [line_of 0; line_of 2].

(** The resources/list result has an empty list. *)
Definition no_resources : Env := env [line_of 0; line_of 1; line_of 4].

(** The server closes its output after the first answer. *)
Definition closes_early : Env := env [line_of 0].

(** The second answer is not JSON. *)
Definition garbled : Env := env [line_of 0; ("Started JMX server" ++ newline)%string].

(** The first answer is JSON, but a scalar. *)
Definition scalar_reply : Env := env [line_of 6].

Definition with_argv (args : list string) (E : Env) : Env :=
  {| argv := args; jar_exists := jar_exists E; popen_fails := popen_fails E;
     early_exit := early_exit E; stderr_text := stderr_text E;
     later_exit := later_exit E; term_exit := term_exit E;
     exchanges := exchanges E; interrupt := interrupt E |}.

Definition with_interrupt (p : ipoint) (E : Env) : Env :=
  {| argv := argv E; jar_exists := jar_exists E; popen_fails := popen_fails E;
     early_exit := early_exit E; stderr_text := stderr_text E;
     later_exit := later_exit E; term_exit := term_exit E;
     exchanges := exchanges E; interrupt := Some p |}.

(** The JAR has not been built. *)
Definition no_jar : Env :=
  {| argv := ["comprehensive-test.py"]; jar_exists := false; popen_fails := false;
     early_exit := None; stderr_text := ""; later_exit := None;
     term_exit := Some 143%Z; exchanges := server []; interrupt := None |}.

(** The server exits during the settle interval. *)
Definition exits_early : Env :=
  {| argv := ["comprehensive-test.py"]; jar_exists := true; popen_fails := false;
     early_exit := Some 1%Z; stderr_text := "Error: Unable to access jarfile";
     later_exit := None; term_exit := Some 143%Z; exchanges := server [];
     interrupt := None |}.

End Sample.

(** ** Reasoning about checks *)

Lemma no_result_missing response :
  Py.truthy response = true ->
  Py.contains "result" response = Ok false ->
  no_result response = ([], Ok true).
Proof.
  intros Ht Hc. unfold no_result. rewrite Ht. cbn. rewrite Hc. reflexivity.
Qed.

Lemma no_result_present d x :
  Py.lookup "result" d = Some x ->
  no_result (JDict d) = ([], Ok false).
Proof.
  intros H. unfold no_result.
  destruct d as [|kv d']; [discriminate|].
  cbn [Py.truthy negb Py.contains]. rewrite H. reflexivity.
Qed.

Lemma mapM_lift_says_nothing {A B} (f : A -> result B) (l : list A) :
  fst (mapM (fun x => lift (f x)) l) = [].
Proof.
  induction l as [|x l IH]; [reflexivity|].
  cbn [mapM bind Monad_Chk ret]. unfold lift at 1.
  destruct (f x) as [y|e]; [|reflexivity].
  destruct (mapM (fun x => lift (f x)) l) as [ms [ys|e]];
    cbn in IH; subst; reflexivity.
Qed.

Lemma check_list_tools_without_field d r :
  Py.lookup "result" d = Some (JDict r) ->
  Py.lookup "tools" r = None ->
  check_list_tools (JDict d) = ([MissingTools expected_tools], Ok false).
Proof.
  intros Hd Hr. unfold check_list_tools.
  rewrite (no_result_present d _ Hd).
  cbn. rewrite Hd. cbn. rewrite Hr. reflexivity.
Qed.

(** ** The fixed sequence of steps *)

Record step_spec : Type := {
  header : message;
  request : json;
  check : json -> Chk bool
}.

Definition step_initialize : step_spec :=
  {| header := TestingInitialization; request := request_initialize;
     check := check_initialize |}.

Definition step_list_tools : step_spec :=
  {| header := TestingToolsListing; request := request_list_tools;
     check := check_list_tools |}.

Definition step_list_resources : step_spec :=
  {| header := TestingResourcesListing; request := request_list_resources;
     check := check_list_resources |}.

Definition step_tool_execution : step_spec :=
  {| header := TestingToolExecution; request := request_tool_execution;
     check := check_tool_execution |}.

Definition steps : list step_spec :=
  [step_initialize; step_list_tools; step_list_resources; step_tool_execution].

(** A step of the sequence as the test method it is. *)
Definition step_test json_loads strip E (s : step_spec) : M bool :=
  print (header s) ;;
  response <- send_request json_loads strip E (request s) ;;
  report (check s response).

Lemma tests_steps json_loads strip E :
  tests json_loads strip E = map (step_test json_loads strip E) steps.
Proof. reflexivity. Qed.

Lemma truthy_with_result d x :
  Py.lookup "result" d = Some x -> Py.truthy (JDict d) = true.
Proof. destruct d; [discriminate | reflexivity]. Qed.

Lemma lookup_past_error e d :
  Py.lookup "result" (("error", e) :: d) = Py.lookup "result" d.
Proof. reflexivity. Qed.

(** ** The first validation of a response *)

Definition is_object (v : json) : bool :=
  match v with
  | JDict _ => true
  | _ => false
  end.

(** [None], a [bool] or a number: no container. *)
Definition scalar (v : json) : bool :=
  match v with
  | JNull | JBool _ | JInt _ | JFloat _ => true
  | _ => false
  end.

(** A [dict] without a key. *)
Definition without (key : string) (d : list (string * json)) : list (string * json) :=
  filter (fun kv => negb (String.eqb key (fst kv))) d.

Lemma lookup_without key key' d :
  String.eqb key key' = false ->
  Py.lookup key (without key' d) = Py.lookup key d.
Proof.
  intros Hk. induction d as [|[k v] d IH]; [reflexivity|].
  cbn [without filter fst]. fold (without key' d).
  destruct (String.eqb key' k) eqn:Hk'; cbn [negb Py.lookup].
  - apply String.eqb_eq in Hk'. subst k. rewrite Hk. exact IH.
  - destruct (String.eqb key k); [reflexivity | exact IH].
Qed.

(** Every response is of one of four kinds: false as Python has it; one in
    which [result] is looked for and not found; true as Python has it and
    no container, so that [in] raises; one in which [result] is found. *)
Lemma response_kinds v :
  Py.truthy v = false \/
  (Py.truthy v = true /\ Py.contains "result" v = Ok false) \/
  (Py.truthy v = true /\ scalar v = true /\
   Py.contains "result" v = Raise TypeError) \/
  (Py.truthy v = true /\ Py.contains "result" v = Ok true).
Proof.
  destruct (Py.truthy v) eqn:Ht; [right|left; reflexivity].
  destruct v; cbn [Py.contains scalar];
    try (right; left; repeat split; reflexivity).
  - destruct (Py.substring "result" s); [right; right|left]; split; reflexivity.
  - destruct (existsb (Py.eq_str "result") l); [right; right|left]; split; reflexivity.
  - destruct (Py.lookup "result" d); [right; right|left]; split; reflexivity.
Qed.

(** A step rejects, with one message, the response that is false as
    Python has it or in which [result] is not found. *)
Lemma check_rejects s v :
  In s steps ->
  Py.truthy v = false \/ Py.contains "result" v = Ok false ->
  exists m, check s v = ([m], Ok false).
Proof.
  intros Hs H. cbn in Hs.
  destruct Hs as [<-|[<-|[<-|[<-|[]]]]];
    cbn [check step_initialize step_list_tools step_list_resources
         step_tool_execution];
    unfold check_initialize, check_list_tools, check_list_resources,
      check_tool_execution, no_result;
    (destruct (Py.truthy v) eqn:Ht;
     [destruct H as [H|H]; [discriminate|]; rewrite H|]);
    cbn; eexists; reflexivity.
Qed.

(** On a response that is true as Python has it and no container the
    first validation itself raises: nothing is said. *)
Lemma check_truthy_scalar s v :
  In s steps -> Py.truthy v = true -> scalar v = true ->
  check s v = ([], Raise TypeError).
Proof.
  intros Hs Ht Hv. cbn in Hs.
  destruct Hs as [<-|[<-|[<-|[<-|[]]]]];
    cbn [check step_initialize step_list_tools step_list_resources
         step_tool_execution];
    unfold check_initialize, check_list_tools, check_list_resources,
      check_tool_execution, no_result;
    rewrite Ht; destruct v; try discriminate; reflexivity.
Qed.

(** What a step makes of a response object that has a [result] depends on
    the [result] alone. *)
Lemma check_by_result s d d' x :
  In s steps ->
  Py.lookup "result" d = Some x -> Py.lookup "result" d' = Some x ->
  check s (JDict d) = check s (JDict d').
Proof.
  intros Hs Hd Hd'. cbn in Hs.
  destruct Hs as [<-|[<-|[<-|[<-|[]]]]];
    cbn [check step_initialize step_list_tools step_list_resources
         step_tool_execution].
  - unfold check_initialize.
    rewrite (truthy_with_result d x Hd), (truthy_with_result d' x Hd').
    cbn [Py.truthy negb Py.contains Py.getitem]. rewrite Hd, Hd'. reflexivity.
  - unfold check_list_tools.
    rewrite (no_result_present d x Hd), (no_result_present d' x Hd').
    cbn [Py.getitem]. rewrite Hd, Hd'. reflexivity.
  - unfold check_list_resources.
    rewrite (no_result_present d x Hd), (no_result_present d' x Hd').
    cbn [Py.getitem]. rewrite Hd, Hd'. reflexivity.
  - unfold check_tool_execution.
    rewrite (no_result_present d x Hd), (no_result_present d' x Hd').
    cbn [Py.getitem]. rewrite Hd, Hd'. reflexivity.
Qed.

(** ** Claims on the checks of a response *)

(** C2 (as amended). The first validation of every response, whatever the
    reply parsed to, is [not response or "result" not in response]. Every
    response is of one of four kinds. One that is false as Python has it
    (none, false, zero, empty) or in which [result] is looked for and not
    found (an object without the field, a string or an array without it)
    is rejected by every step, which says one thing and makes no further
    check. On one that is true as Python has it and no container (true, a
    number that is not zero) the validation itself raises [TypeError] and
    nothing is said. One in which [result] is found passes the validation.
    The [error] field is never looked at: what a step makes of an object
    that has a [result] depends on the [result] alone, so that an object
    with both fields, in any order, is judged exactly as the same object
    without [error]. *)
Theorem first_validation_is_result_presence :
  forall s, In s steps ->
    (forall v,
       Py.truthy v = false \/
       (Py.truthy v = true /\ Py.contains "result" v = Ok false) \/
       (Py.truthy v = true /\ scalar v = true /\
        Py.contains "result" v = Raise TypeError) \/
       (Py.truthy v = true /\ Py.contains "result" v = Ok true)) /\
    (forall v, Py.truthy v = false \/ Py.contains "result" v = Ok false ->
       exists m, check s v = ([m], Ok false)) /\
    (forall v, Py.truthy v = true -> scalar v = true ->
       check s v = ([], Raise TypeError)) /\
    (forall d, Py.lookup "result" d = None ->
       exists m, check s (JDict d) = ([m], Ok false)) /\
    (forall d d' x,
       Py.lookup "result" d = Some x -> Py.lookup "result" d' = Some x ->
       check s (JDict d) = check s (JDict d')) /\
    (forall d x, Py.lookup "result" d = Some x ->
       check s (JDict (without "error" d)) = check s (JDict d)) /\
    (forall d e x, Py.lookup "result" d = Some x ->
       check s (JDict (("error", e) :: d)) = check s (JDict d)).
Proof.
  intros s Hs.
  split; [exact response_kinds|].
  split; [intros v; apply check_rejects, Hs|].
  split; [intros v; apply check_truthy_scalar, Hs|].
  split.
  { intros d Hd. apply check_rejects; [exact Hs|]. right.
    cbn [Py.contains]. rewrite Hd. reflexivity. }
  split; [intros d d' x; apply check_by_result, Hs|].
  split.
  - intros d x Hd. apply (check_by_result s _ _ x Hs); [|exact Hd].
    rewrite lookup_without; [exact Hd|reflexivity].
  - intros d e x Hd. apply (check_by_result s _ _ x Hs); [|exact Hd].
    rewrite lookup_past_error. exact Hd.
Qed.

Lemma first_validation_is_result_presence_witness :
  In step_initialize steps /\
  (exists m, check step_initialize
               (JDict [("jsonrpc", JStr "2.0"); ("id", JInt 1)]) = ([m], Ok false)) /\
  (exists m, check step_initialize (JList [JStr "pong"]) = ([m], Ok false)) /\
  check step_initialize (JInt 5) = ([], Raise TypeError) /\
  check step_initialize
    (JDict (without "error"
       [("jsonrpc", JStr "2.0"); ("id", JInt 1);
        ("result", JDict [("capabilities", JDict [])]);
        ("error", JDict [("code", JInt (-32603));
                         ("message", JStr "Internal error")])]))
  = check step_initialize Sample.result_and_error.
Proof.
  assert (Hin : In step_initialize steps) by (cbn; auto).
  split; [exact Hin|].
  destruct (first_validation_is_result_presence step_initialize Hin)
    as (_ & H1 & H2 & H3 & _ & H4 & _).
  split; [apply H3; reflexivity|].
  split; [apply H1; right; reflexivity|].
  split; [apply H2; reflexivity|].
  apply (H4 _ (JDict [("capabilities", JDict [])])). reflexivity.
Defined.

(** The claim C2 as first stated fails: a response with both [result]
    and [error] is not rejected; step 1 passes on it. *)
Lemma result_and_error_accepted :
  Py.lookup "result"
    [("jsonrpc", JStr "2.0"); ("id", JInt 1);
     ("result", JDict [("capabilities", JDict [])]);
     ("error", JDict [("code", JInt (-32603)); ("message", JStr "Internal error")])]
    = Some (JDict [("capabilities", JDict [])]) /\
  Py.lookup "error"
    [("jsonrpc", JStr "2.0"); ("id", JInt 1);
     ("result", JDict [("capabilities", JDict [])]);
     ("error", JDict [("code", JInt (-32603)); ("message", JStr "Internal error")])]
    = Some (JDict [("code", JInt (-32603)); ("message", JStr "Internal error")]) /\
  check_initialize Sample.result_and_error = ([InitializationSuccessful], Ok true).
Proof. repeat split. Qed.

(** ** Worlds *)

Definition logged (new : list event) (w : World) : World :=
  {| server_process := server_process w; child := child w; calls := calls w;
     log := new ++ log w; stop_calls := stop_calls w |}.

Definition called (w : World) : World :=
  {| server_process := server_process w; child := child w;
     calls := S (calls w); log := log w; stop_calls := stop_calls w |}.

Lemma logged_logged a b w : logged a (logged b w) = logged (a ++ b) w.
Proof. unfold logged; cbn. rewrite app_assoc. reflexivity. Qed.

Lemma logged_nil w : logged [] w = w.
Proof. destruct w; reflexivity. Qed.

(** A handle and the child it stands for agree: no child without a
    handle, and a return code only once the child has exited with it. *)
Definition wf (w : World) : bool :=
  match server_process w, child w with
  | None, NoChild => true
  | Some p, Running =>
      match returncode p with None => true | Some _ => false end
  | Some p, Exited c =>
      match returncode p with None => true | Some c' => Z.eqb c c' end
  | _, _ => false
  end.

Definition running (w : World) : bool :=
  match child w with Running => true | _ => false end.

Fixpoint pick {A B} (f : A -> option B) (l : list A) : list B :=
  match l with
  | [] => []
  | x :: l' => match f x with Some y => y :: pick f l' | None => pick f l' end
  end.

Lemma pick_app {A B} (f : A -> option B) l1 l2 :
  pick f (l1 ++ l2) = pick f l1 ++ pick f l2.
Proof.
  induction l1 as [|x l1 IH]; cbn; [reflexivity|].
  destruct (f x); cbn; rewrite IH; reflexivity.
Qed.

Lemma pick_rev {A B} (f : A -> option B) l : pick f (rev l) = rev (pick f l).
Proof.
  induction l as [|x l IH]; cbn; [reflexivity|].
  rewrite pick_app, IH. cbn. destruct (f x); cbn; [reflexivity|].
  rewrite app_nil_r. reflexivity.
Qed.

Lemma pick_cons_none {A B} (f : A -> option B) x l :
  f x = None -> pick f (x :: l) = pick f l.
Proof. intros H. cbn. rewrite H. reflexivity. Qed.

Lemma pick_none {A B} (f : A -> option B) l :
  Forall (fun x => f x = None) l -> pick f l = [].
Proof.
  induction 1 as [|x l Hx _ IH]; cbn; [reflexivity|]. rewrite Hx. exact IH.
Qed.

(** The signals sent to the child, in order of time. *)
Definition signals (w : World) : list signal :=
  pick (fun e => match e with Kill s => Some s | _ => None end) (trace w).

(** The children spawned. *)
Definition spawns (w : World) : list (list string) :=
  pick (fun e => match e with Spawn c => Some c | _ => None end) (trace w).

(** The requests written to the child. *)
Definition requests (w : World) : list json :=
  pick (fun e => match e with SendLine r => Some r | _ => None end) (trace w).

(** The messages printed. *)
Definition printed (w : World) : list message :=
  pick (fun e => match e with Print m => Some m | _ => None end) (trace w).

(** ** Stopping *)

Section Stop.

Variable E : Env.

(** Whether the interrupt is delivered at point [p]. *)
Definition delivered (p : ipoint) : bool :=
  match interrupt E with
  | Some q => ipoint_eqb p q
  | None => false
  end.

Lemma checkpoint_quiet p : delivered p = false -> checkpoint E p = ret tt.
Proof.
  unfold delivered, checkpoint. destruct (interrupt E); [|reflexivity].
  intros ->. reflexivity.
Qed.

Lemma checkpoint_fires p : delivered p = true -> checkpoint E p = signal_handler E.
Proof.
  unfold delivered, checkpoint. destruct (interrupt E); [|discriminate].
  intros ->. reflexivity.
Qed.

(** What a stop with nothing happening during the wait adds to the log,
    and the child it leaves. *)
Definition after_sigterm : list event :=
  match term_exit E with
  | Some _ => [Print ServerStopped; Kill SIGTERM]
  | None => [Print ServerStopped; Kill SIGKILL; Kill SIGTERM]
  end.

Definition stop_events (w : World) : list event :=
  match server_process w with
  | None => []
  | Some p =>
      match returncode p, child w with
      | Some _, _ | None, Exited _ => [Print ServerStopped]
      | None, Running =>
          match later_exit E with
          | Some _ => [Print ServerStopped]
          | None => after_sigterm
          end
      | None, NoChild => after_sigterm
      end
  end.

Lemma stop_quiet_log w :
  log (snd (stop_server_with E (ret tt) w)) = stop_events w ++ log w.
Proof.
  destruct w as [[[[c|]]|] ch n lg sc]; unfold stop_events, after_sigterm; cbn;
    try reflexivity;
    destruct ch; cbn; try reflexivity;
    destruct (later_exit E); cbn; try reflexivity;
    destruct (term_exit E); cbn; reflexivity.
Qed.

Lemma stop_quiet_ok w : fst (stop_server_with E (ret tt) w) = Ok tt.
Proof.
  destruct w as [[[[c|]]|] ch n lg sc]; cbn;
    try reflexivity;
    destruct ch; cbn; try reflexivity;
    destruct (later_exit E); cbn; try reflexivity;
    destruct (term_exit E); cbn; reflexivity.
Qed.

Lemma stop_quiet_frame w :
  let w' := snd (stop_server_with E (ret tt) w) in
  calls w' = calls w /\ stop_calls w' = S (stop_calls w) /\
  (server_process w = None -> server_process w' = None) /\
  (server_process w <> None -> server_process w' <> None).
Proof.
  destruct w as [[[[c|]]|] ch n lg sc]; cbn;
    try (repeat split; congruence);
    destruct ch; cbn; try (repeat split; congruence);
    destruct (later_exit E); cbn; try (repeat split; congruence);
    destruct (term_exit E); cbn; repeat split; congruence.
Qed.

Lemma stop_quiet_child w :
  wf w = true ->
  let w' := snd (stop_server_with E (ret tt) w) in
  wf w' = true /\ running w' = false /\
  (running w = false -> child w' = child w).
Proof.
  destruct w as [[[[c|]]|] ch n lg sc]; unfold wf, running; cbn;
    destruct ch; cbn; try discriminate; try (repeat split; congruence);
    try (intros H; rewrite H; repeat split; congruence);
    destruct (later_exit E); cbn; try (intros _; rewrite ?Z.eqb_refl; repeat split; congruence);
    destruct (term_exit E); cbn; intros _; rewrite ?Z.eqb_refl; repeat split; congruence.
Qed.




End Stop.

Lemma bind_run {A B} (c : M A) (k : A -> M B) w :
  bind c k w =
  match c w with
  | (Ok a, w') => k a w'
  | (Raise e, w') => (Raise e, w')
  end.
Proof. reflexivity. Qed.

Lemma emit_run e w : emit e w = (Ok tt, logged [e] w).
Proof. reflexivity. Qed.

Lemma print_run m w : print m w = (Ok tt, logged [Print m] w).
Proof. reflexivity. Qed.

Lemma next_call_run w : next_call w = (Ok (calls w), called w).
Proof. reflexivity. Qed.

Lemma with_process_some {A} (method : Popen -> M A) w p :
  server_process w = Some p -> with_process method w = method p w.
Proof. unfold with_process. intros ->. reflexivity. Qed.

Lemma report_run {A} (c : Chk A) w :
  report c w = (snd c, logged (rev (map Print (fst c))) w).
Proof. reflexivity. Qed.

Lemma trace_logged new w : trace (logged new w) = trace w ++ rev new.
Proof. unfold trace; cbn. apply rev_app_distr. Qed.

Lemma trace_of_log w w' new : log w' = new ++ log w -> trace w' = trace w ++ rev new.
Proof. unfold trace. intros ->. apply rev_app_distr. Qed.

Arguments checkpoint : simpl never.
Arguments signal_handler : simpl never.
Arguments stop_server_with : simpl never.
Arguments stop_server : simpl never.
Arguments start_server : simpl never.
Arguments send_request : simpl never.
Arguments poll : simpl never.
Arguments wait : simpl never.

Section StopClaims.

Variable E : Env.

Lemma signal_handler_run w :
  signal_handler E w =
  (Raise (SystemExit 1),
   snd (stop_server_with E (ret tt) (logged [Print TestInterrupted] w))).
Proof.
  unfold signal_handler. rewrite bind_run, print_run, bind_run.
  pose proof (stop_quiet_ok E (logged [Print TestInterrupted] w)) as H.
  destruct (stop_server_with E (ret tt) (logged [Print TestInterrupted] w))
    as [r w'].
  cbn in H. subst r. reflexivity.
Qed.

Lemma stop_server_quiet w :
  delivered E AtCleanup = false ->
  stop_server E w = stop_server_with E (ret tt) w.
Proof.
  intros H. unfold stop_server. rewrite (checkpoint_quiet E _ H). reflexivity.
Qed.

Lemma stop_events_idle w :
  wf w = true -> running w = false ->
  stop_events E w =
  match server_process w with None => [] | Some _ => [Print ServerStopped] end.
Proof.
  destruct w as [[[[c|]]|] ch n lg sc]; unfold wf, running, stop_events; cbn;
    destruct ch; cbn; congruence.
Qed.

Lemma stop_events_prints_only w :
  stop_events E w = [] \/ stop_events E w = [Print ServerStopped] ->
  forall w', log w' = stop_events E w ++ log w ->
    signals w' = signals w /\ spawns w' = spawns w /\ requests w' = requests w.
Proof.
  intros H w' Hl. unfold signals, spawns, requests.
  rewrite (trace_of_log _ _ _ Hl), !pick_app.
  destruct H as [-> | ->]; cbn; rewrite !app_nil_r; auto.
Qed.

(** The world once the child is spawned, and once its exit with code [c]
    has been collected. *)
Definition spawned (w : World) : World :=
  {| server_process := Some {| returncode := None |}; child := Running;
     calls := calls w; log := Spawn cmd :: log w; stop_calls := stop_calls w |}.

(** The world once [Popen] has forked the child and before the handle is
    assigned. *)
Definition forked (w : World) : World :=
  {| server_process := server_process w; child := Running;
     calls := calls w; log := Spawn cmd :: log w; stop_calls := stop_calls w |}.

Definition reaped (c : Z) (w : World) : World :=
  {| server_process := Some {| returncode := Some c |}; child := Exited c;
     calls := calls w; log := log w; stop_calls := stop_calls w |}.

(** [start_server] case by case. *)
Definition start_server_cases (w : World) : result bool * World :=
  if negb (jar_exists E) then
    (Ok false, logged [Print RunMvnFirst; Print JarNotFound] w)
  else if popen_fails E then
    (Ok false, logged [Print (FailedToStartServer OSError)] w)
  else if delivered E AtSpawn then
    (Raise (SystemExit 1),
     snd (stop_server_with E (ret tt) (logged [Print TestInterrupted] (forked w))))
  else if delivered E AtSettle then
    (Raise (SystemExit 1),
     snd (stop_server_with E (ret tt) (logged [Print TestInterrupted] (spawned w))))
  else
    match early_exit E with
    | Some c =>
        (Ok false,
         logged [Print (ServerFailedToStart (stderr_text E)); ReadStderr]
                (reaped c (spawned w)))
    | None => (Ok true, logged [Print ServerStarted] (spawned w))
    end.

Lemma start_server_run w : start_server E w = start_server_cases w.
Proof.
  unfold start_server, start_server_cases, try_except.
  destruct (jar_exists E); [|reflexivity]. cbn [negb].
  destruct (popen_fails E); [reflexivity|].
  destruct (delivered E AtSpawn) eqn:Hf.
  { rewrite (checkpoint_fires E _ Hf). cbn. rewrite signal_handler_run.
    reflexivity. }
  rewrite (checkpoint_quiet E _ Hf).
  destruct (delivered E AtSettle) eqn:Hd.
  - rewrite (checkpoint_fires E _ Hd). cbn. rewrite signal_handler_run.
    reflexivity.
  - rewrite (checkpoint_quiet E _ Hd). unfold poll. cbn.
    destruct (early_exit E); reflexivity.
Qed.



End StopClaims.



(** ** Requests and steps *)

Section Steps.

Variable json_loads : string -> option json.
Variable strip : string -> string.
Variable E : Env.

Local Abbreviation send_request := (send_request json_loads strip E).
Local Abbreviation step_test := (step_test json_loads strip E).
Local Abbreviation stop_quiet := (stop_server_with E (ret tt)).

(** What [send_request] returns for the [n]-th exchange. *)
Definition answer (n : nat) : json :=
  match exchanges E n with
  | BrokenPipe => JNull
  | Readline response_line =>
      if String.eqb response_line "" then JNull
      else
        match json_loads (strip response_line) with
        | Some v => v
        | None => JNull
        end
  end.

(** What it adds to the log. *)
Definition exchange_events (request : json) (n : nat) : list event :=
  match exchanges E n with
  | BrokenPipe => [Print (RequestFailed OSError)]
  | Readline response_line =>
      if String.eqb response_line "" then [SendLine request]
      else
        match json_loads (strip response_line) with
        | Some _ => [SendLine request]
        | None => [Print (RequestFailed JSONDecodeError); SendLine request]
        end
  end.

(** Whether the interrupt arrives while the [n]-th exchange waits for its
    line. *)
Definition interrupted_at (n : nat) : bool :=
  match exchanges E n with
  | BrokenPipe => false
  | Readline _ => delivered E (AtReadline n)
  end.

Lemma send_request_run request w :
  server_process w <> None ->
  send_request request w =
  if interrupted_at (calls w) then
    (Raise (SystemExit 1),
     snd (stop_quiet (logged [Print TestInterrupted; SendLine request] (called w))))
  else
    (Ok (answer (calls w)),
     logged (exchange_events request (calls w)) (called w)).
Proof.
  intros Hp. unfold send_request, try_except, interrupted_at, answer,
    exchange_events.
  rewrite bind_run, next_call_run.
  destruct (server_process w) as [p|] eqn:Hsp; [clear Hp|congruence].
  rewrite (with_process_some _ (called w) p Hsp).
  destruct (exchanges E (calls w)) as [|line]; [reflexivity|].
  rewrite bind_run, emit_run.
  destruct (delivered E (AtReadline (calls w))) eqn:Hd.
  - rewrite (checkpoint_fires E _ Hd), bind_run, signal_handler_run.
    cbn [is_Exception]. rewrite logged_logged. reflexivity.
  - rewrite (checkpoint_quiet E _ Hd). cbn.
    destruct (String.eqb line ""); [reflexivity|].
    destruct (json_loads (strip line)); reflexivity.
Qed.

(** The outcome of a step at the [n]-th exchange: what its test method
    returns or raises. *)
Definition outcome (s : step_spec) (n : nat) : result bool :=
  if interrupted_at n then Raise (SystemExit 1)
  else snd (check s (answer n)).

(** The world it leaves. *)
Definition step_world (s : step_spec) (w : World) : World :=
  if interrupted_at (calls w) then
    snd (stop_quiet
           (logged [Print TestInterrupted; SendLine (request s); Print (header s)]
                   (called w)))
  else
    logged (rev (map Print (fst (check s (answer (calls w))))) ++
            exchange_events (request s) (calls w) ++ [Print (header s)])
           (called w).

Lemma step_test_run s w :
  server_process w <> None ->
  step_test s w = (outcome s (calls w), step_world s w).
Proof.
  intros Hp. unfold step_test, outcome, step_world.
  rewrite bind_run, print_run, bind_run, send_request_run by exact Hp.
  cbn [calls logged].
  destruct (interrupted_at (calls w)); [reflexivity|].
  rewrite report_run. f_equal.
  destruct w; unfold logged, called; cbn. rewrite <- !app_assoc. reflexivity.
Qed.

Lemma step_world_frame s w :
  outcome s (calls w) = Ok true \/ outcome s (calls w) = Ok false ->
  server_process (step_world s w) = server_process w /\
  child (step_world s w) = child w /\
  stop_calls (step_world s w) = stop_calls w /\
  calls (step_world s w) = S (calls w).
Proof.
  unfold outcome, step_world. destruct (interrupted_at (calls w)).
  - intros [H|H]; discriminate.
  - intros _. repeat split.
Qed.

(** The loop over a list of steps: its result, the world it leaves, and
    the steps it began. *)
Fixpoint loop_result (l : list step_spec) (n passed : nat) : result nat :=
  match l with
  | [] => Ok passed
  | s :: l' =>
      match outcome s n with
      | Ok true => loop_result l' (S n) (passed + 1)
      | Ok false => Ok passed
      | Raise e => Raise e
      end
  end.

Fixpoint loop_world (l : list step_spec) (w : World) : World :=
  match l with
  | [] => w
  | s :: l' =>
      match outcome s (calls w) with
      | Ok true => loop_world l' (step_world s w)
      | _ => step_world s w
      end
  end.

Fixpoint begun (l : list step_spec) (n : nat) : list step_spec :=
  match l with
  | [] => []
  | s :: l' =>
      s :: match outcome s n with
           | Ok true => begun l' (S n)
           | _ => []
           end
  end.

Lemma run_tests_run l : forall passed w,
  server_process w <> None ->
  run_tests (map step_test l) passed w =
  (loop_result l (calls w) passed, loop_world l w).
Proof.
  induction l as [|s l IH]; intros passed w Hp; [reflexivity|].
  cbn [map run_tests loop_result loop_world].
  rewrite bind_run, step_test_run by exact Hp.
  destruct (outcome s (calls w)) as [[|]|e] eqn:Ho; try reflexivity.
  destruct (step_world_frame s w (or_introl Ho)) as (Hsp & _ & _ & Hc).
  rewrite IH by (rewrite Hsp; exact Hp). rewrite Hc. reflexivity.
Qed.

End Steps.

(** ** The whole run *)

Section Run.

Variable json_loads : string -> option json.
Variable strip : string -> string.
Variable E : Env.

Local Abbreviation stop_quiet := (stop_server_with E (ret tt)).
Local Abbreviation outcome := (outcome json_loads strip E).
Local Abbreviation loop_result := (loop_result json_loads strip E).
Local Abbreviation loop_world := (loop_world json_loads strip E).
Local Abbreviation run_all_tests := (run_all_tests json_loads strip E).
Local Abbreviation main := (main json_loads strip E).
Local Abbreviation run := (run json_loads strip E).

(** The world of a [stop_server] during whose wait the interrupt
    arrives: SIGTERM has been sent, the handler stops the server and
    exits. *)
Definition stop_interrupted_world (w : World) : World :=
  snd (stop_quiet
         (logged [Print TestInterrupted]
                 (snd (send_signal (later_exit E) SIGTERM (snd (enter_stop w)))))).

Lemma stop_server_interrupted w :
  delivered E AtCleanup = true -> server_process w <> None ->
  stop_server E w = (Raise (SystemExit 1), stop_interrupted_world w).
Proof.
  intros Hd Hp. unfold stop_server, stop_interrupted_world, stop_server_with at 1.
  rewrite (checkpoint_fires E _ Hd), bind_run.
  change (enter_stop w) with (Ok tt, snd (enter_stop w)).
  set (v := snd (enter_stop w)).
  assert (Hv : server_process v <> None) by exact Hp.
  cbv iota beta.
  destruct (server_process v) as [p|] eqn:Hsp; [clear Hp|congruence].
  rewrite bind_run.
  assert (Hs : fst (send_signal (later_exit E) SIGTERM v) = Ok tt).
  { clearbody v. destruct v as [[[[c|]]|] ch n lg sc]; [reflexivity| |discriminate].
    unfold send_signal, poll. cbn.
    destruct ch; cbn; try reflexivity. destruct (later_exit E); reflexivity. }
  rewrite (surjective_pairing (send_signal (later_exit E) SIGTERM v)), Hs at 1.
  cbv iota beta.
  rewrite bind_run. unfold try_except. rewrite bind_run, signal_handler_run.
  reflexivity.
Qed.

(** The end of [run_all_tests] once the loop has returned [passed]. *)
Definition summary (passed : nat) : list event :=
  [Print (if Nat.eqb passed 4 then AllTestsPassed else SomeTestsFailed);
   Print (TestResults passed 4); Print ResultsRule].

(** [try: ... finally: self.stop_server()] around a body that ended in
    world [w] with result [r]. *)
Definition finally_stop {A} (r : result A) (w : World) : result A * World :=
  if delivered E AtCleanup then (Raise (SystemExit 1), stop_interrupted_world w)
  else (r, snd (stop_quiet w)).

(** [run_all_tests] case by case. *)
Definition run_all_tests_cases (w : World) : result bool * World :=
  match start_server_cases E (logged [Print Rule; Print StartingTests] w) with
  | (Ok true, w1) =>
      match loop_result steps (calls w1) 0 with
      | Ok passed =>
          finally_stop (Ok (Nat.eqb passed 4))
                       (logged (summary passed) (loop_world steps w1))
      | Raise e => finally_stop (Raise e) (loop_world steps w1)
      end
  | (Ok false, w1) => (Ok false, w1)
  | (Raise e, w1) => (Raise e, w1)
  end.

Lemma started_has_process w w1 :
  start_server_cases E w = (Ok true, w1) -> server_process w1 <> None.
Proof.
  unfold start_server_cases.
  destruct (negb (jar_exists E)); [discriminate|].
  destruct (popen_fails E); [discriminate|].
  destruct (delivered E AtSpawn); [discriminate|].
  destruct (delivered E AtSettle); [discriminate|].
  destruct (early_exit E); [discriminate|].
  intros H; inversion H; subst. cbn. discriminate.
Qed.

Lemma loop_keeps_process l : forall w,
  server_process w <> None -> server_process (loop_world l w) <> None.
Proof.
  induction l as [|s l IH]; intros w Hp; [exact Hp|].
  cbn [loop_world].
  assert (Hs : server_process (step_world json_loads strip E s w) <> None).
  { unfold step_world. destruct (interrupted_at E (calls w)); [|exact Hp].
    apply stop_quiet_frame. cbn. exact Hp. }
  destruct (outcome s (calls w)) as [[|]|e]; auto.
Qed.

Lemma finally_stop_run {A} (body : M A) w r w' :
  body w = (r, w') -> server_process w' <> None ->
  try_finally body (stop_server E) w = finally_stop r w'.
Proof.
  intros Hb Hp. unfold try_finally, finally_stop. rewrite Hb.
  destruct (delivered E AtCleanup) eqn:Hd.
  - rewrite (stop_server_interrupted w' Hd Hp). reflexivity.
  - rewrite (stop_server_quiet E w' Hd).
    pose proof (stop_quiet_ok E w') as Hok.
    destruct (stop_quiet w') as [r' w'']. cbn in Hok. subst r'. reflexivity.
Qed.

Lemma run_all_tests_run w : run_all_tests w = run_all_tests_cases w.
Proof.
  unfold run_all_tests, run_all_tests_cases.
  rewrite bind_run, print_run, bind_run, print_run, logged_logged, bind_run.
  cbn [app]. rewrite start_server_run.
  destruct (start_server_cases E _) as [[[|]|e] w1] eqn:Hs; try reflexivity.
  cbn [negb]. pose proof (started_has_process _ _ Hs) as Hp.
  match goal with |- try_finally ?b _ _ = _ => set (body := b) end.
  assert (Hb : body w1 =
    match loop_result steps (calls w1) 0 with
    | Ok passed => (Ok (Nat.eqb passed 4),
                    logged (summary passed) (loop_world steps w1))
    | Raise e => (Raise e, loop_world steps w1)
    end).
  { subst body. cbv zeta. rewrite bind_run, tests_steps, run_tests_run by exact Hp.
    destruct (loop_result steps (calls w1) 0) as [passed|e]; [|reflexivity].
    rewrite bind_run, print_run, bind_run, print_run, logged_logged.
    change (List.length (map (step_test json_loads strip E) steps)) with 4.
    unfold summary. destruct (Nat.eqb passed 4);
      rewrite bind_run, print_run, logged_logged; reflexivity. }
  destruct (loop_result steps (calls w1) 0) as [passed|e];
    apply finally_stop_run; auto; exact (loop_keeps_process steps w1 Hp).
Qed.

(** [main] case by case. *)
Definition usage_world : World :=
  logged (rev (map (fun l => Print (Usage l)) usage)) init_world.

Definition interrupted_world (w : World) : World :=
  snd (stop_quiet (logged [Print TestInterrupted] w)).

Definition main_cases : result unit * World :=
  if help_requested E then (Ok tt, usage_world)
  else if delivered E AtEntry then
    (Raise (SystemExit 1), interrupted_world init_world)
  else
    match run_all_tests_cases init_world with
    | (Ok success, w) =>
        if delivered E AtReturn then (Raise (SystemExit 1), interrupted_world w)
        else (Raise (SystemExit (if success then 0 else 1)), w)
    | (Raise e, w) => (Raise e, w)
    end.

Lemma run_cases : run = main_cases.
Proof.
  unfold run, main, main_cases.
  destruct (help_requested E); [reflexivity|].
  rewrite bind_run.
  destruct (delivered E AtEntry) eqn:He.
  - rewrite (checkpoint_fires E _ He), signal_handler_run. reflexivity.
  - rewrite (checkpoint_quiet E _ He). cbn [ret Monad_M].
    rewrite bind_run, run_all_tests_run.
    destruct (run_all_tests_cases init_world) as [[success|e] w]; [|reflexivity].
    rewrite bind_run.
    destruct (delivered E AtReturn) eqn:Hr.
    + rewrite (checkpoint_fires E _ Hr), signal_handler_run. reflexivity.
    + rewrite (checkpoint_quiet E _ Hr). reflexivity.
Qed.

End Run.

(** ** What the log of a run holds *)

(** Events that say nothing about which step ran or what the tally is:
    the messages of the checks, of a failed request, of stopping and of
    the interrupt handler, and the signals. *)
Definition background (e : event) : bool :=
  match e with
  | Print m =>
      match m with
      | NoResponseToInitialize | InitializeFailed _ | NoCapabilities
      | InitializationSuccessful | FailedToListTools | MissingTools _
      | FoundTools _ _ | FailedToListResources | NoResourcesFound
      | FoundResources _ | FailedToExecuteTool | NoContent
      | ToolExecutionSuccessful | RequestFailed _ | ServerStopped
      | TestInterrupted => true
      | _ => false
      end
  | Kill _ => true
  | _ => false
  end.

Definition quiet {A} (c : Chk A) : Prop :=
  Forall (fun m => background (Print m) = true) (fst c).

Lemma quiet_bind {A B} (c : Chk A) (k : A -> Chk B) :
  quiet c -> (forall a, quiet (k a)) -> quiet (bind c k).
Proof.
  unfold quiet. destruct c as [ms [a|e]]; cbn; intros Hc Hk; [|exact Hc].
  specialize (Hk a). destruct (k a) as [ms' r]. cbn in *.
  apply Forall_app; auto.
Qed.

Lemma quiet_lift {A} (r : result A) : quiet (lift r).
Proof. constructor. Qed.

Lemma quiet_ret {A} (a : A) : quiet (ret a).
Proof. constructor. Qed.

Lemma quiet_say m : background (Print m) = true -> quiet (say m).
Proof. intros H. repeat constructor. exact H. Qed.

Lemma quiet_mapM {A B} (f : A -> result B) l : quiet (mapM (fun x => lift (f x)) l).
Proof. unfold quiet. rewrite mapM_lift_says_nothing. constructor. Qed.

Lemma quiet_no_result response : quiet (no_result response).
Proof.
  unfold no_result. destruct (negb (Py.truthy response)).
  - apply quiet_ret.
  - apply quiet_bind; [apply quiet_lift | intros; apply quiet_ret].
Qed.

Create HintDb quiet.
#[local] Hint Resolve quiet_lift quiet_ret quiet_mapM quiet_no_result : quiet.

Ltac quiet_tac :=
  repeat first
    [ apply quiet_bind; [| intros ?]
    | apply quiet_say; reflexivity
    | solve [auto with quiet]
    | match goal with
      | |- quiet (if ?b then _ else _) => destruct b
      | |- quiet (match ?x with _ => _ end) => destruct x
      end ].

Lemma steps_quiet s response : In s steps -> quiet (check s response).
Proof.
  intros Hs. cbn in Hs. destruct Hs as [<-|[<-|[<-|[<-|[]]]]];
    cbn [check step_initialize step_list_tools step_list_resources
         step_tool_execution].
  - unfold check_initialize. quiet_tac.
  - unfold check_list_tools. quiet_tac.
  - unfold check_list_resources. quiet_tac.
  - unfold check_tool_execution. quiet_tac.
Qed.

(** [w'] has only background events more than [w]. *)
Definition extends (w w' : World) : Prop :=
  exists new, log w' = new ++ log w /\ Forall (fun e => background e = true) new.

Lemma extends_refl w : extends w w.
Proof. exists []. split; [reflexivity | constructor]. Qed.

Lemma extends_trans w1 w2 w3 : extends w1 w2 -> extends w2 w3 -> extends w1 w3.
Proof.
  intros (a & Ha & Fa) (b & Hb & Fb). exists (b ++ a). split.
  - rewrite Hb, Ha, app_assoc. reflexivity.
  - apply Forall_app; auto.
Qed.

Lemma extends_logged new w :
  Forall (fun e => background e = true) new -> extends w (logged new w).
Proof. intros H. exists new. split; [reflexivity | exact H]. Qed.

Lemma pick_extends {B} (f : event -> option B) w w' :
  (forall e, background e = true -> f e = None) ->
  extends w w' -> pick f (log w') = pick f (log w).
Proof.
  intros Hf (new & Hl & Hn). rewrite Hl, pick_app, pick_none; [reflexivity|].
  eapply Forall_impl; [|exact Hn]. cbn. auto.
Qed.

Lemma pick_check_prints {A B} (f : event -> option B) (c : Chk A) :
  (forall e, background e = true -> f e = None) ->
  quiet c -> pick f (rev (map Print (fst c))) = [].
Proof.
  intros Hf Hq. rewrite pick_rev, pick_none; [reflexivity|].
  rewrite Forall_forall. intros e He. apply in_map_iff in He.
  destruct He as (m & <- & Hm). apply Hf.
  unfold quiet in Hq. rewrite Forall_forall in Hq. auto.
Qed.

Section Logs.

Variable json_loads : string -> option json.
Variable strip : string -> string.
Variable E : Env.

Local Abbreviation stop_quiet := (stop_server_with E (ret tt)).
Local Abbreviation outcome := (outcome json_loads strip E).
Local Abbreviation step_world := (step_world json_loads strip E).
Local Abbreviation loop_world := (loop_world json_loads strip E).
Local Abbreviation answer := (answer json_loads strip E).

Lemma stop_quiet_extends w : extends w (snd (stop_quiet w)).
Proof.
  exists (stop_events E w). split; [apply stop_quiet_log|].
  unfold stop_events, after_sigterm.
  destruct (server_process w) as [[[c|]]|]; repeat constructor;
    destruct (child w); repeat constructor;
    destruct (later_exit E); repeat constructor;
    destruct (term_exit E); repeat constructor.
Qed.

Lemma interrupted_world_extends w : extends w (interrupted_world E w).
Proof.
  unfold interrupted_world.
  eapply extends_trans; [|apply stop_quiet_extends].
  apply extends_logged. repeat constructor.
Qed.

Lemma send_signal_log sp s w :
  log (snd (send_signal sp s w)) = log w \/
  log (snd (send_signal sp s w)) = Kill s :: log w.
Proof.
  destruct w as [[[[c|]]|] ch n lg sc]; unfold send_signal, poll; cbn; auto;
    destruct ch; cbn; auto; try (destruct s; cbn; auto; fail);
    destruct sp; cbn; auto; destruct s; cbn; auto.
Qed.

Lemma send_signal_extends sp s w :
  extends w (snd (send_signal sp s w)).
Proof.
  destruct (send_signal_log sp s w) as [H|H].
  - exists []. split; [exact H | constructor].
  - exists [Kill s]. split; [exact H | repeat constructor].
Qed.

Lemma stop_interrupted_extends w : extends w (stop_interrupted_world E w).
Proof.
  unfold stop_interrupted_world.
  eapply extends_trans; [|apply stop_quiet_extends].
  eapply extends_trans; [|apply extends_logged; repeat constructor].
  eapply extends_trans; [|apply send_signal_extends].
  exists []. split; [reflexivity | constructor].
Qed.

Lemma finally_stop_extends {A} (r : result A) w :
  extends w (snd (finally_stop E r w)).
Proof.
  unfold finally_stop. destruct (delivered E AtCleanup); cbn.
  - apply stop_interrupted_extends.
  - apply stop_quiet_extends.
Qed.

(** The header and the request of a step at the [n]-th exchange, as the
    log holds them. *)
Definition step_marks (s : step_spec) (n : nat) : list event :=
  match exchanges E n with
  | BrokenPipe => []
  | Readline _ => [SendLine (request s)]
  end ++ [Print (header s)].

Fixpoint loop_marks (l : list step_spec) (n : nat) : list event :=
  match l with
  | [] => []
  | s :: l' =>
      match outcome s n with
      | Ok true => loop_marks l' (S n)
      | _ => []
      end ++ step_marks s n
  end.

Lemma step_world_pick {B} (f : event -> option B) s w :
  (forall e, background e = true -> f e = None) ->
  quiet (check s (answer (calls w))) ->
  pick f (log (step_world s w)) =
  pick f (step_marks s (calls w)) ++ pick f (log w).
Proof.
  intros Hf Hq. unfold step_world, step_marks, interrupted_at.
  destruct (exchanges E (calls w)) as [|line] eqn:Hx.
  - cbn [log logged called]. rewrite !pick_app, (pick_check_prints f _ Hf Hq).
    unfold exchange_events. rewrite Hx.
    rewrite (pick_cons_none f (Print (RequestFailed OSError)))
      by (apply Hf; reflexivity).
    reflexivity.
  - destruct (delivered E (AtReadline (calls w))).
    + rewrite (pick_extends f _ _ Hf (stop_quiet_extends _)).
      cbn [log logged called app].
      rewrite (pick_cons_none f (Print TestInterrupted)) by (apply Hf; reflexivity).
      exact (pick_app f [_; _] (log w)).
    + cbn [log logged called]. rewrite !pick_app, (pick_check_prints f _ Hf Hq).
      unfold exchange_events. rewrite Hx.
      destruct (String.eqb line ""); [reflexivity|].
      destruct (json_loads (strip line)); [reflexivity|].
      rewrite (pick_cons_none f (Print (RequestFailed JSONDecodeError)))
        by (apply Hf; reflexivity).
      reflexivity.
Qed.

Lemma loop_world_pick {B} (f : event -> option B) :
  (forall e, background e = true -> f e = None) ->
  forall l, (forall s response, In s l -> quiet (check s response)) ->
  forall w,
    pick f (log (loop_world l w)) =
    pick f (loop_marks l (calls w)) ++ pick f (log w) /\
    calls (loop_world l w) = List.length (begun json_loads strip E l (calls w)) + calls w.
Proof.
  intros Hf. induction l as [|s l IH]; intros Hl w; [split; reflexivity|].
  cbn [loop_world loop_marks begun List.length].
  assert (Hs : pick f (log (step_world s w)) =
               pick f (step_marks s (calls w)) ++ pick f (log w)).
  { apply step_world_pick; [exact Hf | apply Hl; left; reflexivity]. }
  assert (Hc : calls (step_world s w) = S (calls w)).
  { unfold step_world. destruct (interrupted_at E (calls w)); [|reflexivity].
    rewrite (proj1 (stop_quiet_frame E _)). reflexivity. }
  destruct (outcome s (calls w)) as [[|]|e] eqn:Ho;
    try (split; [exact Hs | rewrite Hc; reflexivity]).
  destruct (IH (fun s' r H => Hl s' r (or_intror H)) (step_world s w)) as [IH1 IH2].
  rewrite IH1, IH2, Hs, Hc, pick_app, app_assoc. split; [reflexivity | lia].
Qed.

End Logs.

(** ** Which steps a run goes through *)

Definition is_header (m : message) : bool :=
  match m with
  | TestingInitialization | TestingToolsListing | TestingResourcesListing
  | TestingToolExecution => true
  | _ => false
  end.

(** The headers of the steps begun, in order of time. *)
Definition header_of (e : event) : option message :=
  match e with
  | Print m => if is_header m then Some m else None
  | _ => None
  end.

Definition headers (w : World) : list message := pick header_of (trace w).

Definition request_of (e : event) : option json :=
  match e with
  | SendLine r => Some r
  | _ => None
  end.

(** The tallies reported, as pairs (passed, total). *)
Definition tally_of (e : event) : option (nat * nat) :=
  match e with
  | Print (TestResults passed total) => Some (passed, total)
  | _ => None
  end.

Definition tallies (w : World) : list (nat * nat) := pick tally_of (trace w).

(** Neither a step header nor a request. *)
Definition incidental (e : event) : bool :=
  match e with
  | Print m => negb (is_header m)
  | SendLine _ => false
  | _ => true
  end.

Lemma background_incidental e : background e = true -> incidental e = true.
Proof. destruct e as [m| | | |]; try discriminate; try reflexivity. destruct m; try discriminate; reflexivity. Qed.

Lemma header_of_incidental e : incidental e = true -> header_of e = None.
Proof.
  destruct e as [m| | | |]; try reflexivity.
  cbn. destruct (is_header m); [discriminate | reflexivity].
Qed.

Lemma request_of_incidental e : incidental e = true -> request_of e = None.
Proof. destruct e; try reflexivity. discriminate. Qed.

Lemma tally_of_background e : background e = true -> tally_of e = None.
Proof. destruct e as [m| | | |]; try reflexivity. destruct m; try reflexivity; discriminate. Qed.

Lemma In_pick {A B} (f : A -> option B) x y l :
  In x l -> f x = Some y -> In y (pick f l).
Proof.
  induction l as [|z l IH]; [contradiction|].
  intros [->|Hx] Hf; cbn.
  - rewrite Hf. left; reflexivity.
  - destruct (f z); [right|]; auto.
Qed.

Section RunLogs.

Variable json_loads : string -> option json.
Variable strip : string -> string.
Variable E : Env.

Local Abbreviation outcome := (outcome json_loads strip E).
Local Abbreviation loop_result := (loop_result json_loads strip E).
Local Abbreviation loop_world := (loop_world json_loads strip E).
Local Abbreviation loop_marks := (loop_marks json_loads strip E).
Local Abbreviation run := (run json_loads strip E).

(** [start_server] returns [True] in a run. *)
Definition starts : bool :=
  jar_exists E && negb (popen_fails E) && negb (delivered E AtSpawn) &&
  negb (delivered E AtSettle) &&
  match early_exit E with None => true | Some _ => false end.

(** The run gets as far as the tests. *)
Definition reaches_tests : bool :=
  negb (help_requested E) && negb (delivered E AtEntry) && starts.

Definition started_world (w : World) : World :=
  logged [Print ServerStarted] (spawned w).

Lemma start_cases_started w :
  starts = true -> start_server_cases E w = (Ok true, started_world w).
Proof.
  unfold starts, start_server_cases.
  destruct (jar_exists E), (popen_fails E), (delivered E AtSpawn),
    (delivered E AtSettle), (early_exit E); cbn; try discriminate. reflexivity.
Qed.

Lemma start_cases_failed w :
  starts = false ->
  fst (start_server_cases E w) <> Ok true /\
  forall {B} (f : event -> option B),
    (forall e, incidental e = true -> f e = None) ->
    pick f (log (snd (start_server_cases E w))) = pick f (log w).
Proof.
  unfold starts, start_server_cases.
  destruct (jar_exists E); cbn [negb andb].
  2:{ intros _. split; [discriminate|]. intros B f Hf. cbn.
      rewrite !Hf by reflexivity. reflexivity. }
  destruct (popen_fails E); cbn [negb andb].
  { intros _. split; [discriminate|]. intros B f Hf. cbn.
    rewrite !Hf by reflexivity. reflexivity. }
  destruct (delivered E AtSpawn); cbn [negb andb].
  { intros _. split; [discriminate|]. intros B f Hf. cbn [snd].
    rewrite (pick_extends f (forked w)).
    - cbn. rewrite Hf by reflexivity. reflexivity.
    - intros e He. apply Hf, background_incidental, He.
    - apply interrupted_world_extends. }
  destruct (delivered E AtSettle); cbn [negb andb].
  { intros _. split; [discriminate|]. intros B f Hf. cbn [snd].
    rewrite (pick_extends f (spawned w)).
    - cbn. rewrite Hf by reflexivity. reflexivity.
    - intros e He. apply Hf, background_incidental, He.
    - apply interrupted_world_extends. }
  destruct (early_exit E); [|discriminate].
  intros _. split; [discriminate|]. intros B f Hf. cbn.
  rewrite !Hf by reflexivity. reflexivity.
Qed.

(** The log of a run that reaches the tests, seen through [f]. *)
Lemma run_pick_started {B} (f : event -> option B) :
  (forall e, background e = true -> f e = None) ->
  reaches_tests = true ->
  pick f (log (snd run)) =
  match loop_result steps 0 0 with
  | Ok passed => pick f (summary passed)
  | Raise _ => []
  end ++ pick f (loop_marks steps 0) ++
  pick f [Print ServerStarted; Spawn cmd; Print Rule; Print StartingTests].
Proof.
  intros Hf. unfold reaches_tests.
  rewrite run_cases. unfold main_cases, run_all_tests_cases.
  destruct (help_requested E); [discriminate|].
  destruct (delivered E AtEntry); [discriminate|]. cbn [negb andb].
  intros Hs. rewrite (start_cases_started _ Hs).
  set (w1 := started_world _).
  change (calls w1) with 0.
  assert (Hloop : pick f (log (loop_world steps w1)) =
                  pick f (loop_marks steps 0) ++ pick f (log w1)).
  { apply (loop_world_pick json_loads strip E f Hf steps); intros; now apply steps_quiet. }
  destruct (loop_result steps 0 0) as [passed|e].
  - match goal with |- context [finally_stop E ?r ?w] =>
      pose proof (finally_stop_extends E r w) as Hx;
      destruct (finally_stop E r w) as [[success|e'] w2]
    end; cbn [snd] in *.
    + destruct (delivered E AtReturn); cbn [snd].
      * rewrite (pick_extends f _ _ Hf (interrupted_world_extends E w2)).
        rewrite (pick_extends f _ _ Hf Hx). cbn [log logged].
        rewrite pick_app, Hloop. reflexivity.
      * rewrite (pick_extends f _ _ Hf Hx). cbn [log logged].
        rewrite pick_app, Hloop. reflexivity.
    + rewrite (pick_extends f _ _ Hf Hx). cbn [log logged].
      rewrite pick_app, Hloop. reflexivity.
  - match goal with |- context [finally_stop E ?r ?w] =>
      pose proof (finally_stop_extends E r w) as Hx;
      destruct (finally_stop E r w) as [[success|e'] w2]
    end; cbn [snd] in *.
    + destruct (delivered E AtReturn); cbn [snd].
      * rewrite (pick_extends f _ _ Hf (interrupted_world_extends E w2)).
        rewrite (pick_extends f _ _ Hf Hx), Hloop. reflexivity.
      * rewrite (pick_extends f _ _ Hf Hx), Hloop. reflexivity.
    + rewrite (pick_extends f _ _ Hf Hx), Hloop. reflexivity.
Qed.

(** Seen through an [f] that keeps step headers and requests only. *)
Lemma run_pick_marks {B} (f : event -> option B) :
  (forall e, incidental e = true -> f e = None) ->
  pick f (log (snd run)) =
  if reaches_tests then pick f (loop_marks steps 0) else [].
Proof.
  intros Hf.
  assert (Hbg : forall e, background e = true -> f e = None).
  { intros e He. apply Hf, background_incidental, He. }
  destruct reaches_tests eqn:Hr.
  - rewrite (run_pick_started f Hbg Hr).
    replace (pick f [Print ServerStarted; Spawn cmd; Print Rule; Print StartingTests])
      with (@nil B) by (cbn; rewrite !Hf by reflexivity; reflexivity).
    rewrite app_nil_r.
    destruct (loop_result steps 0 0) as [passed|e]; [|reflexivity].
    unfold summary. cbn [pick].
    rewrite !Hf by (destruct (Nat.eqb passed 4); reflexivity). reflexivity.
  - unfold reaches_tests in Hr. rewrite run_cases. unfold main_cases.
    destruct (help_requested E).
    { cbn. rewrite !Hf by reflexivity. reflexivity. }
    destruct (delivered E AtEntry).
    { cbn [snd]. rewrite (pick_extends f _ _ Hbg (interrupted_world_extends E _)).
      reflexivity. }
    cbn [negb andb] in Hr. unfold run_all_tests_cases.
    destruct (start_cases_failed (logged [Print Rule; Print StartingTests] init_world) Hr)
      as [Hne Hpick].
    specialize (Hpick B f Hf).
    destruct (start_server_cases E _) as [[[|]|e] w1]; cbn [fst snd] in *;
      [congruence| |].
    + destruct (delivered E AtReturn); cbn [snd].
      * rewrite (pick_extends f _ _ Hbg (interrupted_world_extends E _)), Hpick.
        cbn. rewrite !Hf by reflexivity. reflexivity.
      * rewrite Hpick. cbn. rewrite !Hf by reflexivity. reflexivity.
    + rewrite Hpick. cbn. rewrite !Hf by reflexivity. reflexivity.
Qed.

End RunLogs.


Example sample_all_pass :
  fst (run Sample.json_loads Sample.strip Sample.all_pass) = Raise (SystemExit 0) /\
  headers (snd (run Sample.json_loads Sample.strip Sample.all_pass)) =
    map header steps /\
  tallies (snd (run Sample.json_loads Sample.strip Sample.all_pass)) = [(4, 4)] /\
  signals (snd (run Sample.json_loads Sample.strip Sample.all_pass)) = [SIGTERM] /\
  stop_calls (snd (run Sample.json_loads Sample.strip Sample.all_pass)) = 1.
Proof. vm_compute. repeat split. Qed.

(** On an answer that parses but is no container the membership test of
    step 1 raises [TypeError]: the exception leaves [run_all_tests] through
    its [finally], which stops the server, and ends the run with status 1. *)
Example sample_scalar_reply :
  fst (run Sample.json_loads Sample.strip Sample.scalar_reply) = Raise TypeError /\
  exit_code Sample.json_loads Sample.strip Sample.scalar_reply = 1%Z /\
  printed (snd (run Sample.json_loads Sample.strip Sample.scalar_reply)) =
    [StartingTests; Rule; ServerStarted; TestingInitialization; ServerStopped] /\
  signals (snd (run Sample.json_loads Sample.strip Sample.scalar_reply)) = [SIGTERM].
Proof. vm_compute. repeat split. Qed.

(** An interrupt while step 2 waits for its answer: the handler stops the
    server and exits; the [finally] of [run_all_tests] calls [stop_server]
    once more, which finds the child gone. *)
Example sample_interrupted :
  let r := run Sample.json_loads Sample.strip
             (Sample.with_interrupt (AtReadline 1) Sample.all_pass) in
  fst r = Raise (SystemExit 1) /\
  printed (snd r) =
    [StartingTests; Rule; ServerStarted; TestingInitialization;
     InitializationSuccessful; TestingToolsListing; TestInterrupted;
     ServerStopped; ServerStopped] /\
  signals (snd r) = [SIGTERM] /\ stop_calls (snd r) = 2 /\
  child (snd r) = Exited 143.
Proof. vm_compute. repeat split. Qed.

(** A server that ignores SIGTERM is killed after the wait. *)
Example sample_stubborn_server :
  let w := logged [Print ServerStarted] (spawned init_world) in
  let E := {| argv := []; jar_exists := true; popen_fails := false;
              early_exit := None; stderr_text := ""; later_exit := None;
              term_exit := None; exchanges := Sample.server [];
              interrupt := None |} in
  fst (stop_server E w) = Ok tt /\
  signals (snd (stop_server E w)) = [SIGTERM; SIGKILL] /\
  child (snd (stop_server E w)) = Exited (-9) /\
  signals (snd (stop_server E (snd (stop_server E w)))) = [SIGTERM; SIGKILL].
Proof. vm_compute. repeat split. Qed.

Example sample_no_jar :
  fst (run Sample.json_loads Sample.strip Sample.no_jar) = Raise (SystemExit 1) /\
  trace (snd (run Sample.json_loads Sample.strip Sample.no_jar)) =
    [Print StartingTests; Print Rule; Print JarNotFound; Print RunMvnFirst].
Proof. vm_compute. repeat split. Qed.

Example sample_garbled :
  fst (run Sample.json_loads Sample.strip Sample.garbled) = Raise (SystemExit 1) /\
  printed (snd (run Sample.json_loads Sample.strip Sample.garbled)) =
    [StartingTests; Rule; ServerStarted; TestingInitialization;
     InitializationSuccessful; TestingToolsListing;
     RequestFailed JSONDecodeError; FailedToListTools; ResultsRule;
     TestResults 1 4; SomeTestsFailed; ServerStopped].
Proof. vm_compute. repeat split. Qed.

(** ** Claims on the sequencer *)

Lemma in_trace e w : In e (trace w) <-> In e (log w).
Proof. unfold trace. symmetry. apply in_rev. Qed.

Lemma pick_trace {B} (f : event -> option B) w :
  pick f (trace w) = rev (pick f (log w)).
Proof. apply pick_rev. Qed.

Ltac split_outcomes :=
  repeat match goal with
  | H : context [match outcome ?j ?st ?E ?s ?n with _ => _ end] |- _ =>
      destruct (outcome j st E s n) as [[|]|?]
  end;
  unfold step_marks in *;
  repeat match goal with
  | H : context [exchanges ?E ?n] |- _ => destruct (exchanges E n)
  end.

(** C1. For every step index N of the four-step sequence, if step N
    returns failure then no later step is executed, step N+1 in
    particular: neither the header nor the request of a later step
    appears in the trace of the run. *)
Theorem sequencer_stops_at_first_failure json_loads strip E :
  forall N M s s',
    1 <= N -> N < M ->
    nth_error steps (N - 1) = Some s ->
    nth_error steps (M - 1) = Some s' ->
    outcome json_loads strip E s (N - 1) = Ok false ->
    let w := snd (run json_loads strip E) in
    ~ In (Print (header s')) (trace w) /\ ~ In (SendLine (request s')) (trace w).
Proof.
  intros N M s s' HN HM Hs Hs' Ho w.
  pose proof (run_pick_marks json_loads strip E header_of header_of_incidental) as Hh.
  pose proof (run_pick_marks json_loads strip E request_of request_of_incidental) as Hr.
  fold w in Hh, Hr.
  assert (Hhead : In (Print (header s')) (trace w) ->
                  In (header s') (pick header_of (log w))).
  { intros Hin. apply in_trace in Hin. apply (In_pick _ _ _ _ Hin).
    apply nth_error_In in Hs'. cbn in Hs'.
    destruct Hs' as [<-|[<-|[<-|[<-|[]]]]]; reflexivity. }
  assert (Hreq : In (SendLine (request s')) (trace w) ->
                 In (request s') (pick request_of (log w))).
  { intros Hin. apply in_trace in Hin. apply (In_pick _ _ _ _ Hin). reflexivity. }
  rewrite Hh in Hhead. rewrite Hr in Hreq. clear Hh Hr.
  destruct (reaches_tests E); [|tauto].
  assert (HN4 : N <= 4).
  { assert (N - 1 < List.length steps) by (apply nth_error_Some; congruence).
    cbn in *. lia. }
  assert (HM4 : M <= 4).
  { assert (M - 1 < List.length steps) by (apply nth_error_Some; congruence).
    cbn in *. lia. }
  destruct N as [|[|[|[|[|N]]]]]; try lia;
    destruct M as [|[|[|[|[|M]]]]]; try lia;
    cbn in Hs, Hs'; inversion Hs; inversion Hs'; subst; clear Hs Hs';
    cbn [Nat.sub] in Ho; cbn [loop_marks steps] in Hhead, Hreq;
    rewrite Ho in Hhead, Hreq; split_outcomes; cbn in *; intuition discriminate.
Qed.

Lemma sequencer_stops_at_first_failure_witness :
  1 <= 2 /\ 2 < 3 /\
  nth_error steps (2 - 1) = Some step_list_tools /\
  nth_error steps (3 - 1) = Some step_list_resources /\
  outcome Sample.json_loads Sample.strip Sample.no_tools_field
    step_list_tools (2 - 1) = Ok false /\
  ~ In (Print TestingResourcesListing)
       (trace (snd (run Sample.json_loads Sample.strip Sample.no_tools_field))) /\
  ~ In (SendLine request_list_resources)
       (trace (snd (run Sample.json_loads Sample.strip Sample.no_tools_field))).
Proof.
  split; [lia|]. split; [lia|]. split; [reflexivity|]. split; [reflexivity|].
  split; [reflexivity|].
  apply (sequencer_stops_at_first_failure Sample.json_loads Sample.strip
           Sample.no_tools_field 2 3 step_list_tools step_list_resources);
    [lia | lia | reflexivity | reflexivity | reflexivity].
Defined.

Section SequenceFacts.

Variable json_loads : string -> option json.
Variable strip : string -> string.
Variable E : Env.

Local Abbreviation outcome := (outcome json_loads strip E).
Local Abbreviation loop_marks := (loop_marks json_loads strip E).
Local Abbreviation begun := (begun json_loads strip E).
Local Abbreviation run := (run json_loads strip E).

Lemma check_none s : In s steps -> snd (check s JNull) = Ok false.
Proof.
  intros Hs. cbn in Hs. destruct Hs as [<-|[<-|[<-|[<-|[]]]]]; reflexivity.
Qed.

(** A step passes only on an answer it has read. *)
Lemma passed_step_read s n :
  In s steps -> outcome s n = Ok true ->
  exists line, exchanges E n = Readline line /\ delivered E (AtReadline n) = false.
Proof.
  intros Hs. unfold outcome, interrupted_at, answer.
  destruct (exchanges E n) as [|line].
  - rewrite (check_none s Hs). discriminate.
  - destruct (delivered E (AtReadline n)); [discriminate|]. eauto.
Qed.

Lemma step_marks_header s n :
  is_header (header s) = true ->
  pick header_of (step_marks E s n) = [header s].
Proof.
  intros H. unfold step_marks. destruct (exchanges E n); cbn; rewrite H; reflexivity.
Qed.

Lemma loop_marks_headers l : forall n,
  Forall (fun s => is_header (header s) = true) l ->
  pick header_of (loop_marks l n) = rev (map header (begun l n)).
Proof.
  induction l as [|s l IH]; intros n Hl; [reflexivity|].
  inversion Hl as [|? ? Hs Hl']; subst.
  cbn [loop_marks begun map rev].
  rewrite pick_app, (step_marks_header s n Hs).
  destruct (outcome s n) as [[|]|e]; try reflexivity.
  rewrite (IH (S n) Hl'). reflexivity.
Qed.

Lemma steps_headers : Forall (fun s => is_header (header s) = true) steps.
Proof. repeat constructor. Qed.

(** The headers a run prints: those of the steps it begins. *)
Lemma run_headers :
  headers (snd run) =
  if reaches_tests E then map header (begun steps 0) else [].
Proof.
  unfold headers. rewrite pick_trace.
  rewrite (run_pick_marks json_loads strip E header_of header_of_incidental).
  destruct (reaches_tests E); [|reflexivity].
  rewrite (loop_marks_headers steps 0 steps_headers). apply rev_involutive.
Qed.

Lemma run_requests :
  requests (snd run) =
  if reaches_tests E then rev (pick request_of (loop_marks steps 0)) else [].
Proof.
  unfold requests. change (fun e => match e with SendLine r => Some r | _ => None end)
    with request_of.
  rewrite pick_trace.
  rewrite (run_pick_marks json_loads strip E request_of request_of_incidental).
  destruct (reaches_tests E); reflexivity.
Qed.

Lemma run_tallies :
  reaches_tests E = true ->
  tallies (snd run) =
  match loop_result json_loads strip E steps 0 0 with
  | Ok passed => [(passed, 4)]
  | Raise _ => []
  end.
Proof.
  intros Hr. unfold tallies. rewrite pick_trace.
  rewrite (run_pick_started json_loads strip E tally_of tally_of_background Hr).
  replace (pick tally_of (loop_marks steps 0)) with (@nil (nat * nat)).
  - destruct (loop_result json_loads strip E steps 0 0) as [passed|e];
      [|reflexivity].
    unfold summary. destruct (Nat.eqb passed 4); reflexivity.
  - symmetry. apply pick_none.
    cbn [loop_marks steps]. unfold step_marks.
    destruct (exchanges E 0), (exchanges E 1), (exchanges E 2), (exchanges E 3);
      repeat match goal with
      | |- context [match outcome ?s ?n with _ => _ end] =>
          destruct (outcome s n) as [[|]|?]
      end; repeat constructor.
Qed.

End SequenceFacts.

(** The log only grows. *)
Definition grows (w w' : World) : Prop := exists new, log w' = new ++ log w.

Lemma grows_refl w : grows w w.
Proof. exists []. reflexivity. Qed.

Lemma grows_trans w1 w2 w3 : grows w1 w2 -> grows w2 w3 -> grows w1 w3.
Proof.
  intros (a & Ha) (b & Hb). exists (b ++ a). rewrite Hb, Ha, app_assoc. reflexivity.
Qed.

Lemma grows_logged new w : grows w (logged new w).
Proof. exists new. reflexivity. Qed.

Lemma extends_grows w w' : extends w w' -> grows w w'.
Proof. intros (new & H & _). exists new. exact H. Qed.

Section Growth.

Variable json_loads : string -> option json.
Variable strip : string -> string.
Variable E : Env.

Lemma start_server_grows w : grows w (snd (start_server_cases E w)).
Proof.
  unfold start_server_cases.
  destruct (negb (jar_exists E)); [apply grows_logged|].
  destruct (popen_fails E); [apply grows_logged|].
  assert (Hs : grows w (spawned w)) by (exists [Spawn cmd]; reflexivity).
  assert (Hf : grows w (forked w)) by (exists [Spawn cmd]; reflexivity).
  destruct (delivered E AtSpawn); cbn [snd].
  { eapply grows_trans; [exact Hf|]. apply extends_grows, interrupted_world_extends. }
  destruct (delivered E AtSettle); cbn [snd].
  - eapply grows_trans; [exact Hs|]. apply extends_grows, interrupted_world_extends.
  - destruct (early_exit E); cbn [snd].
    + eapply grows_trans; [exact Hs|]. apply (grows_logged _ (reaped _ (spawned w))).
    + eapply grows_trans; [exact Hs|]. apply grows_logged.
Qed.

Lemma step_world_grows s w : grows w (step_world json_loads strip E s w).
Proof.
  unfold step_world. destruct (interrupted_at E (calls w)).
  - eapply grows_trans; [|apply extends_grows, stop_quiet_extends].
    apply (grows_logged _ (called w)).
  - apply (grows_logged _ (called w)).
Qed.

Lemma loop_world_grows l : forall w, grows w (loop_world json_loads strip E l w).
Proof.
  induction l as [|s l IH]; intros w; [apply grows_refl|].
  cbn [loop_world].
  destruct (outcome json_loads strip E s (calls w)) as [[|]|e];
    try apply step_world_grows.
  eapply grows_trans; [apply step_world_grows | apply IH].
Qed.

Lemma run_all_tests_grows w :
  grows (logged [Print Rule; Print StartingTests] w)
        (snd (run_all_tests_cases json_loads strip E w)).
Proof.
  unfold run_all_tests_cases.
  pose proof (start_server_grows (logged [Print Rule; Print StartingTests] w)) as Hs.
  destruct (start_server_cases E _) as [[[|]|e] w1]; cbn [snd] in *; try exact Hs.
  eapply grows_trans; [exact Hs|].
  destruct (loop_result json_loads strip E steps (calls w1) 0) as [passed|e].
  - eapply grows_trans; [|apply extends_grows, finally_stop_extends].
    eapply grows_trans; [apply loop_world_grows | apply grows_logged].
  - eapply grows_trans; [|apply extends_grows, finally_stop_extends].
    apply loop_world_grows.
Qed.

(** Unless the help flag is given or the interrupt arrives first, a run
    begins as [run_all_tests] does. *)
Lemma run_begins :
  help_requested E = false -> delivered E AtEntry = false ->
  exists rest,
    trace (snd (run json_loads strip E)) =
    Print StartingTests :: Print Rule :: rest.
Proof.
  intros Hh He. rewrite run_cases. unfold main_cases. rewrite Hh, He.
  assert (Hg : grows (logged [Print Rule; Print StartingTests] init_world)
                 (snd match run_all_tests_cases json_loads strip E init_world with
                      | (Ok success, w) =>
                          if delivered E AtReturn
                          then (Raise (SystemExit 1), interrupted_world E w)
                          else (Raise (SystemExit (if success then 0 else 1)), w)
                      | (Raise e, w) => (@Raise unit e, w)
                      end)).
  { pose proof (run_all_tests_grows init_world) as Hr.
    destruct (run_all_tests_cases json_loads strip E init_world) as [[success|e] w];
      cbn [snd] in *; [|exact Hr].
    destruct (delivered E AtReturn); cbn [snd]; [|exact Hr].
    eapply grows_trans; [exact Hr|]. apply extends_grows, interrupted_world_extends. }
  destruct Hg as (new & Hnew). exists (rev new).
  unfold trace. rewrite Hnew, rev_app_distr. reflexivity.
Qed.

End Growth.

(** C9. With the help flag as first argument the harness prints the
    seven lines of the usage text (the title, the usage line, and after an
    empty line the list of what the script tests) and does nothing else: it
    spawns no child, sends no request and no signal.
    With no argument it runs the test sequence: the run begins as
    [run_all_tests] does, the steps it goes through are those from the
    first up to the first that does not pass (none when the server does
    not start), and all four, each with its request, when every step
    passes. *)
Theorem help_flag_and_default_run json_loads strip E :
  (forall prog rest, argv E = prog :: "--help" :: rest ->
     let r := run json_loads strip E in
     fst r = Ok tt /\
     trace (snd r) =
       [Print (Usage "JMX MCP Server Comprehensive Test Suite");
        Print (Usage "Usage: python3 comprehensive-test.py");
        Print (Usage (String "010"%char "This script tests:"));
        Print (Usage "- MCP protocol compliance");
        Print (Usage "- Tool registration and execution");
        Print (Usage "- Resource discovery");
        Print (Usage "- JSON-RPC communication")] /\
     spawns (snd r) = [] /\ requests (snd r) = [] /\ signals (snd r) = [] /\
     child (snd r) = NoChild) /\
  (forall prog, argv E = [prog] ->
     let w := snd (run json_loads strip E) in
     (delivered E AtEntry = false ->
      exists rest, trace w = Print StartingTests :: Print Rule :: rest) /\
     headers w =
       (if negb (delivered E AtEntry) && starts E
        then map header (begun json_loads strip E steps 0) else []) /\
     (delivered E AtEntry = false -> starts E = true ->
      (forall n s, nth_error steps n = Some s ->
                   outcome json_loads strip E s n = Ok true) ->
      headers w = map header steps /\ requests w = map request steps)).
Proof.
  split.
  - intros prog rest Ha r. subst r. rewrite run_cases. unfold main_cases.
    unfold help_requested. rewrite Ha. cbn. repeat split.
  - intros prog Ha w. subst w.
    assert (Hh : help_requested E = false).
    { unfold help_requested. rewrite Ha. reflexivity. }
    assert (Hr : reaches_tests E = negb (delivered E AtEntry) && starts E).
    { unfold reaches_tests. rewrite Hh. reflexivity. }
    split; [|split].
    + intros He. apply run_begins; assumption.
    + rewrite run_headers, Hr. reflexivity.
    + intros He Hs Hall. rewrite run_headers, run_requests, Hr, He, Hs.
      cbn [negb andb].
      pose proof (Hall 0 _ eq_refl) as H0. pose proof (Hall 1 _ eq_refl) as H1.
      pose proof (Hall 2 _ eq_refl) as H2. pose proof (Hall 3 _ eq_refl) as H3.
      cbn [begun loop_marks steps]. rewrite H0, H1, H2, H3. split; [reflexivity|].
      destruct (passed_step_read json_loads strip E _ 0 (or_introl eq_refl) H0) as (l0 & X0 & _).
      destruct (passed_step_read json_loads strip E _ 1 (or_intror (or_introl eq_refl)) H1)
        as (l1 & X1 & _).
      destruct (passed_step_read json_loads strip E _ 2
                  (or_intror (or_intror (or_introl eq_refl))) H2) as (l2 & X2 & _).
      destruct (passed_step_read json_loads strip E _ 3
                  (or_intror (or_intror (or_intror (or_introl eq_refl)))) H3)
        as (l3 & X3 & _).
      unfold step_marks. rewrite X0, X1, X2, X3. reflexivity.
Qed.

Lemma help_flag_and_default_run_witness :
  (let r := run Sample.json_loads Sample.strip
              (Sample.with_argv ["comprehensive-test.py"; "--help"] Sample.all_pass) in
   fst r = Ok tt /\ spawns (snd r) = [] /\ requests (snd r) = []) /\
  (let w := snd (run Sample.json_loads Sample.strip Sample.all_pass) in
   headers w = map header steps /\ requests w = map request steps).
Proof.
  split.
  - destruct (proj1 (help_flag_and_default_run Sample.json_loads Sample.strip
                 (Sample.with_argv ["comprehensive-test.py"; "--help"] Sample.all_pass))
               "comprehensive-test.py" [] eq_refl) as (H1 & _ & H2 & H3 & _).
    cbv zeta. auto.
  - apply (proj2 (proj2 (help_flag_and_default_run Sample.json_loads Sample.strip
                    Sample.all_pass) "comprehensive-test.py" eq_refl));
      [reflexivity | reflexivity |].
    intros n s Hn. destruct n as [|[|[|[|n]]]]; cbn in Hn; inversion Hn; subst;
      try reflexivity. destruct n; discriminate.
Defined.


(** C7. If steps 1 and 2 pass and the resources/list response has a
    result whose resource list is empty, then step 3 fails, step 4 does
    not run, and the one tally reported is 2 passed out of 4. *)
Theorem empty_resources_two_of_four json_loads strip E d r :
  reaches_tests E = true ->
  outcome json_loads strip E step_initialize 0 = Ok true ->
  outcome json_loads strip E step_list_tools 1 = Ok true ->
  interrupted_at E 2 = false ->
  answer json_loads strip E 2 = JDict d ->
  Py.lookup "result" d = Some (JDict r) ->
  Py.lookup "resources" r = Some (JList []) ->
  let w := snd (run json_loads strip E) in
  outcome json_loads strip E step_list_resources 2 = Ok false /\
  headers w = [TestingInitialization; TestingToolsListing; TestingResourcesListing] /\
  ~ In (Print TestingToolExecution) (trace w) /\
  ~ In (SendLine request_tool_execution) (trace w) /\
  tallies w = [(2, 4)].
Proof.
  intros Hr H1 H2 Hi Ha Hd Hres w.
  assert (H3 : outcome json_loads strip E step_list_resources 2 = Ok false).
  { unfold outcome. rewrite Hi, Ha. cbn [check step_list_resources].
    unfold check_list_resources. rewrite (no_result_present d _ Hd).
    cbn. rewrite Hd. cbn. rewrite Hres. reflexivity. }
  assert (Hh : headers w =
               [TestingInitialization; TestingToolsListing; TestingResourcesListing]).
  { subst w. rewrite run_headers, Hr. cbn [begun steps]. rewrite H1, H2, H3.
    reflexivity. }
  split; [exact H3|]. split; [exact Hh|]. split; [|split].
  - intros Hin. apply in_trace in Hin.
    assert (Hx : In TestingToolExecution (headers w)).
    { unfold headers. rewrite pick_trace, <- in_rev.
      apply (In_pick _ _ _ _ Hin). reflexivity. }
    rewrite Hh in Hx. cbn in Hx. intuition discriminate.
  - intros Hin. apply in_trace in Hin.
    assert (Hx : In request_tool_execution (requests w)).
    { unfold requests. rewrite pick_trace, <- in_rev.
      apply (In_pick _ _ _ _ Hin). reflexivity. }
    subst w. rewrite run_requests, Hr in Hx. cbn [loop_marks steps] in Hx.
    rewrite H1, H2, H3 in Hx. unfold step_marks in Hx.
    destruct (exchanges E 0), (exchanges E 1), (exchanges E 2);
      cbn in Hx; intuition discriminate.
  - subst w. rewrite (run_tallies json_loads strip E Hr).
    cbn [loop_result steps]. rewrite H1, H2, H3. reflexivity.
Qed.

Lemma empty_resources_two_of_four_witness :
  let w := snd (run Sample.json_loads Sample.strip Sample.no_resources) in
  reaches_tests Sample.no_resources = true /\
  outcome Sample.json_loads Sample.strip Sample.no_resources step_initialize 0 = Ok true /\
  outcome Sample.json_loads Sample.strip Sample.no_resources step_list_tools 1 = Ok true /\
  answer Sample.json_loads Sample.strip Sample.no_resources 2 = Sample.resources_empty /\
  headers w = [TestingInitialization; TestingToolsListing; TestingResourcesListing] /\
  tallies w = [(2, 4)].
Proof.
  cbv zeta. do 4 (split; [reflexivity|]).
  pose proof (empty_resources_two_of_four Sample.json_loads Sample.strip
                Sample.no_resources _ _ eq_refl eq_refl eq_refl eq_refl eq_refl
                eq_refl eq_refl) as H.
  cbv zeta in H. destruct H as (_ & H1 & _ & _ & H2). split; [exact H1 | exact H2].
Defined.

(** ** Claims on the outcome of a run *)

(** What a check raises is an [Exception]. *)
Definition proper {A} (c : Chk A) : Prop :=
  forall e, snd c = Raise e -> is_Exception e = true.

Definition raises_exceptions {A} (r : result A) : Prop :=
  forall e, r = Raise e -> is_Exception e = true.

Lemma proper_bind {A B} (c : Chk A) (k : A -> Chk B) :
  proper c -> (forall a, proper (k a)) -> proper (bind c k).
Proof.
  unfold proper. destruct c as [ms [a|x]]; cbn; intros Hc Hk e.
  - specialize (Hk a e). destruct (k a) as [ms' r]. exact Hk.
  - intros H. inversion H; subst. apply Hc. reflexivity.
Qed.

Lemma proper_ret {A} (a : A) : proper (ret a).
Proof. intros e H. discriminate. Qed.

Lemma proper_say m : proper (say m).
Proof. intros e H. discriminate. Qed.

Lemma proper_lift {A} (r : result A) : raises_exceptions r -> proper (lift r).
Proof. intros H e He. apply H, He. Qed.

Lemma proper_mapM {A B} (f : A -> Chk B) l :
  (forall x, proper (f x)) -> proper (mapM f l).
Proof.
  intros Hf. induction l as [|x l IH]; [apply proper_ret|].
  cbn [mapM]. apply proper_bind; [apply Hf|]. intros y.
  apply proper_bind; [exact IH|]. intros ys. apply proper_ret.
Qed.

Lemma contains_raises key v : raises_exceptions (Py.contains key v).
Proof. destruct v; intros e H; inversion H; reflexivity. Qed.

Lemma getitem_raises v key : raises_exceptions (Py.getitem v key).
Proof.
  destruct v; intros e H; try (inversion H; reflexivity).
  cbn in H. destruct (Py.lookup key d); inversion H; reflexivity.
Qed.

Lemma get_raises v key default : raises_exceptions (Py.get v key default).
Proof. destruct v; intros e H; inversion H; reflexivity. Qed.

Lemma len_raises v : raises_exceptions (Py.len v).
Proof. destruct v; intros e H; inversion H; reflexivity. Qed.

Lemma iter_raises v : raises_exceptions (Py.iter v).
Proof. destruct v; intros e H; inversion H; reflexivity. Qed.

Create HintDb proper.
#[local] Hint Resolve proper_ret proper_say contains_raises getitem_raises
  get_raises len_raises iter_raises : proper.

Ltac proper_tac :=
  repeat match goal with
  | |- proper (bind _ _) => apply proper_bind; [| intros ?]
  | |- proper (lift _) => apply proper_lift; auto with proper
  | |- proper (mapM _ _) => apply proper_mapM; intros ?
  | |- proper (ret _) => apply proper_ret
  | |- proper (say _) => apply proper_say
  | |- proper (if ?b then _ else _) => destruct b
  | |- proper (match ?x with _ => _ end) => destruct x
  end.

Lemma steps_proper s response : In s steps -> proper (check s response).
Proof.
  intros Hs. cbn in Hs. destruct Hs as [<-|[<-|[<-|[<-|[]]]]];
    cbn [check step_initialize step_list_tools step_list_resources
         step_tool_execution].
  - unfold check_initialize. proper_tac.
  - unfold check_list_tools, no_result. proper_tac.
  - unfold check_list_resources, no_result. proper_tac.
  - unfold check_tool_execution, no_result. proper_tac.
Qed.

Section RunResult.

Variable json_loads : string -> option json.
Variable strip : string -> string.
Variable E : Env.

Local Abbreviation outcome := (outcome json_loads strip E).
Local Abbreviation loop_result := (loop_result json_loads strip E).
Local Abbreviation run := (run json_loads strip E).

Lemma starts_false_result w : starts E = false ->
  fst (start_server_cases E w) = Ok false \/
  fst (start_server_cases E w) = Raise (SystemExit 1).
Proof.
  unfold starts, start_server_cases.
  destruct (jar_exists E), (popen_fails E), (delivered E AtSpawn),
    (delivered E AtSettle), (early_exit E); cbn; auto; discriminate.
Qed.

(** How a run ends. *)
Lemma run_result :
  fst run =
  if help_requested E then Ok tt
  else if reaches_tests E then
    if delivered E AtCleanup then Raise (SystemExit 1)
    else
      match loop_result steps 0 0 with
      | Ok passed =>
          if delivered E AtReturn then Raise (SystemExit 1)
          else Raise (SystemExit (if Nat.eqb passed 4 then 0 else 1))
      | Raise e => Raise e
      end
  else Raise (SystemExit 1).
Proof.
  rewrite run_cases. unfold main_cases, reaches_tests.
  destruct (help_requested E); [reflexivity|]. cbn [negb andb].
  destruct (delivered E AtEntry); [reflexivity|]. cbn [negb andb].
  unfold run_all_tests_cases.
  destruct (starts E) eqn:Hs.
  - rewrite (start_cases_started E _ Hs).
    change (calls (started_world _)) with 0.
    unfold finally_stop.
    destruct (loop_result steps 0 0) as [passed|e];
      destruct (delivered E AtCleanup); try reflexivity.
    destruct (delivered E AtReturn); reflexivity.
  - destruct (starts_false_result
                (logged [Print Rule; Print StartingTests] init_world) Hs) as [H|H];
      destruct (start_server_cases E _) as [[[|]|e] w1]; cbn [fst] in H;
      try discriminate; inversion H; subst; try reflexivity.
    destruct (delivered E AtReturn); reflexivity.
Qed.

(** A step raises no [SystemExit] of its own. *)
Lemma check_raises_exception s response e :
  In s steps -> snd (check s response) = Raise e -> is_Exception e = true.
Proof. intros Hs. apply (steps_proper s response Hs). Qed.

End RunResult.

(** The server does not fail to start: the JAR is there, the process
    launches and is still running when the settle interval ends. *)
Definition launches (E : Env) : Prop :=
  jar_exists E = true /\ popen_fails E = false /\ early_exit E = None.

(** Every test step passes on the answer the server gives it. *)
Definition all_steps_pass json_loads strip E : Prop :=
  forall n s, nth_error steps n = Some s ->
    snd (check s (answer json_loads strip E n)) = Ok true.

(** The points a run goes through when nothing fails. *)
Definition run_points : list ipoint :=
  [AtEntry; AtSpawn; AtSettle; AtReadline 0; AtReadline 1; AtReadline 2;
   AtReadline 3; AtCleanup; AtReturn].

(** No interrupt arrives during the run. *)
Definition uninterrupted (E : Env) : Prop :=
  forall p, In p run_points -> delivered E p = false.

Section ExitCode.

Variable json_loads : string -> option json.
Variable strip : string -> string.
Variable E : Env.

Local Abbreviation outcome := (outcome json_loads strip E).
Local Abbreviation answer := (answer json_loads strip E).
Local Abbreviation loop_result := (loop_result json_loads strip E).

Lemma outcome_passes s n :
  In s steps ->
  (outcome s n = Ok true <->
   snd (check s (answer n)) = Ok true /\ delivered E (AtReadline n) = false).
Proof.
  intros Hs. split.
  - intros Ho. destruct (passed_step_read json_loads strip E s n Hs Ho)
      as (line & Hx & Hd).
    split; [|exact Hd]. unfold outcome, interrupted_at in Ho.
    rewrite Hx, Hd in Ho. exact Ho.
  - intros [Hc Hd]. unfold outcome, interrupted_at.
    destruct (exchanges E n); [exact Hc|]. rewrite Hd. exact Hc.
Qed.

Lemma outcome_raise_exits_1 s n e :
  In s steps -> outcome s n = Raise e -> exit_status (Raise e) = 1%Z.
Proof.
  intros Hs. unfold outcome. destruct (interrupted_at E n).
  - intros H; inversion H; reflexivity.
  - intros H. pose proof (check_raises_exception s _ e Hs H) as He.
    destruct e; try reflexivity. discriminate.
Qed.

Lemma in_steps n s : nth_error steps n = Some s -> In s steps.
Proof. apply nth_error_In. Qed.

(** The loop counts four exactly when all four steps pass; what it
    raises ends the run with status 1. *)
Lemma loop_result_steps :
  (loop_result steps 0 0 = Ok 4 <->
   forall n s, nth_error steps n = Some s -> outcome s n = Ok true) /\
  (forall passed, loop_result steps 0 0 = Ok passed -> passed <= 4) /\
  (forall e, loop_result steps 0 0 = Raise e -> exit_status (Raise e) = 1%Z).
Proof.
  pose proof (outcome_raise_exits_1 step_initialize 0) as R0.
  pose proof (outcome_raise_exits_1 step_list_tools 1) as R1.
  pose proof (outcome_raise_exits_1 step_list_resources 2) as R2.
  pose proof (outcome_raise_exits_1 step_tool_execution 3) as R3.
  assert (Hall : (forall n s, nth_error steps n = Some s -> outcome s n = Ok true) <->
                 outcome step_initialize 0 = Ok true /\
                 outcome step_list_tools 1 = Ok true /\
                 outcome step_list_resources 2 = Ok true /\
                 outcome step_tool_execution 3 = Ok true).
  { split.
    - intros H. repeat split; apply H; reflexivity.
    - intros (H0 & H1 & H2 & H3) n s Hn.
      destruct n as [|[|[|[|n]]]]; cbn in Hn; inversion Hn; subst; auto.
      destruct n; discriminate. }
  rewrite Hall. clear Hall. cbn [loop_result steps].
  destruct (outcome step_initialize 0) as [[|]|e0].
  2:{ repeat split; try (intros; discriminate); intros; intuition (try discriminate).
      inversion H; lia. }
  2:{ repeat split; try (intros; discriminate); intros; intuition (try discriminate).
      inversion H. subst. apply R0; cbn; auto. }
  destruct (outcome step_list_tools 1) as [[|]|e1].
  2:{ repeat split; try (intros; discriminate); intros; intuition (try discriminate).
      inversion H; lia. }
  2:{ repeat split; try (intros; discriminate); intros; intuition (try discriminate).
      inversion H. subst. apply R1; cbn; auto. }
  destruct (outcome step_list_resources 2) as [[|]|e2].
  2:{ repeat split; try (intros; discriminate); intros; intuition (try discriminate).
      inversion H; lia. }
  2:{ repeat split; try (intros; discriminate); intros; intuition (try discriminate).
      inversion H. subst. apply R2; cbn; auto. }
  destruct (outcome step_tool_execution 3) as [[|]|e3].
  - repeat split; try (intros; discriminate); intros; auto. inversion H; lia.
  - repeat split; try (intros; discriminate); intros; intuition (try discriminate).
    inversion H; lia.
  - repeat split; try (intros; discriminate); intros; intuition (try discriminate).
    inversion H. subst. apply R3; cbn; auto.
Qed.

End ExitCode.

Lemma reaches_tests_iff E :
  reaches_tests E = true <->
  help_requested E = false /\ launches E /\
  delivered E AtEntry = false /\ delivered E AtSpawn = false /\
  delivered E AtSettle = false.
Proof.
  unfold reaches_tests, starts, launches.
  destruct (help_requested E), (delivered E AtEntry), (jar_exists E),
    (popen_fails E), (delivered E AtSpawn), (delivered E AtSettle),
    (early_exit E); cbn; intuition discriminate.
Qed.

(** C5 (as amended). The exit status is 0 or 1. It is 0 exactly when the
    help flag was given (no step runs then), or the server started, every
    test step passed and no interrupt arrived. Without the help flag it is
    1 whenever the server failed to start, a step did not pass, or an
    interrupt arrived. *)
Theorem exit_code_of_run json_loads strip E :
  let code := exit_code json_loads strip E in
  (code = 0 \/ code = 1)%Z /\
  (code = 0%Z <->
   help_requested E = true \/
   (launches E /\ all_steps_pass json_loads strip E /\ uninterrupted E)) /\
  (help_requested E = false ->
   ~ launches E \/ ~ all_steps_pass json_loads strip E \/ ~ uninterrupted E ->
   code = 1%Z).
Proof.
  intros code.
  assert (Hmain :
    (code = 0 \/ code = 1)%Z /\
    (code = 0%Z <->
     help_requested E = true \/
     (launches E /\ all_steps_pass json_loads strip E /\ uninterrupted E))).
  { subst code. unfold exit_code. rewrite run_result.
    destruct (help_requested E) eqn:Hh; [cbn; intuition|].
    assert (Hno : forall P : Prop, (false = true \/ P) <-> P) by (intuition discriminate).
    rewrite Hno. clear Hno.
    destruct (reaches_tests E) eqn:Hr.
    2:{ split; [right; reflexivity|]. split; [discriminate|].
        intros (Hl & _ & Hu).
        assert (reaches_tests E = true); [|congruence].
        apply reaches_tests_iff. repeat split; try apply Hl; auto;
          apply Hu; cbn; auto. }
    apply reaches_tests_iff in Hr. destruct Hr as (_ & Hl & He & Hf & Hs).
    destruct (delivered E AtCleanup) eqn:Hc.
    { split; [right; reflexivity|]. split; [discriminate|].
      intros (_ & _ & Hu). rewrite (Hu AtCleanup) in Hc; [discriminate|cbn; auto 10]. }
    destruct (loop_result_steps json_loads strip E) as (H4 & Hle & Hraise).
    assert (Hpass : (forall n s, nth_error steps n = Some s ->
                       outcome json_loads strip E s n = Ok true) <->
                    all_steps_pass json_loads strip E /\
                    forall n, n < 4 -> delivered E (AtReadline n) = false).
    { split.
      - intros H. split.
        + intros n s Hn. apply (outcome_passes json_loads strip E s n (in_steps n s Hn)).
          apply H, Hn.
        + intros n Hn.
          destruct n as [|[|[|[|n]]]]; try lia;
            match goal with |- delivered E (AtReadline ?k) = false =>
              destruct (nth_error steps k) as [s|] eqn:Hk; [|discriminate];
              apply (outcome_passes json_loads strip E s k (in_steps k s Hk));
              apply H, Hk
            end.
      - intros [Ha Hd] n s Hn.
        apply (outcome_passes json_loads strip E s n (in_steps n s Hn)).
        split; [apply Ha, Hn|]. apply Hd.
        change 4 with (List.length steps).
        apply nth_error_Some. rewrite Hn. discriminate. }
    destruct (loop_result json_loads strip E steps 0 0) as [passed|e] eqn:Hloop.
    - destruct (delivered E AtReturn) eqn:Hret.
      { split; [right; reflexivity|]. split; [discriminate|].
        intros (_ & _ & Hu). rewrite (Hu AtReturn) in Hret; [discriminate|cbn; auto 10]. }
      destruct (Nat.eqb_spec passed 4) as [->|Hne]; cbn.
      + split; [left; reflexivity|]. split; [|reflexivity]. intros _.
        destruct (proj1 Hpass (proj1 H4 eq_refl)) as [Ha Hd].
        repeat split; try apply Hl; auto.
        intros p Hp. cbn in Hp.
        destruct Hp as [<-|[<-|[<-|[<-|[<-|[<-|[<-|[<-|[<-|[]]]]]]]]]]; auto;
          apply Hd; lia.
      + split; [right; reflexivity|]. split; [discriminate|].
        intros (_ & Ha & Hu). elim Hne.
        assert (Ok passed = Ok 4) as Heq; [|inversion Heq; reflexivity].
        apply H4, Hpass. split; [exact Ha|].
        intros n Hn. apply Hu. cbn.
        destruct n as [|[|[|[|n]]]]; try lia; auto 10.
    - rewrite (Hraise e eq_refl).
      split; [right; reflexivity|]. split; [discriminate|].
      intros (_ & Ha & Hu).
      assert (Raise e = Ok 4) as Heq; [|discriminate].
      apply H4, Hpass. split; [exact Ha|].
      intros n Hn. apply Hu. cbn.
      destruct n as [|[|[|[|n]]]]; try lia; auto 10. }
  destruct Hmain as [H01 Hiff]. split; [exact H01|]. split; [exact Hiff|].
  intros Hh Hnot. destruct H01 as [H0|H1]; [|exact H1].
  apply Hiff in H0. destruct H0 as [H|(Hl & Ha & Hu)]; [congruence|].
  tauto.
Qed.

(** The claim as first stated fails both ways: with the help flag the
    status is 0 although no step has run (and the JAR is not even built);
    and when all four steps pass but the interrupt arrives while the
    server is being stopped, the status is 1. *)
Lemma exit_code_not_only_steps :
  (exit_code Sample.json_loads Sample.strip
     (Sample.with_argv ["comprehensive-test.py"; "--help"] Sample.no_jar) = 0%Z /\
   headers (snd (run Sample.json_loads Sample.strip
     (Sample.with_argv ["comprehensive-test.py"; "--help"] Sample.no_jar))) = []) /\
  (exit_code Sample.json_loads Sample.strip
     (Sample.with_interrupt AtCleanup Sample.all_pass) = 1%Z /\
   all_steps_pass Sample.json_loads Sample.strip
     (Sample.with_interrupt AtCleanup Sample.all_pass) /\
   tallies (snd (run Sample.json_loads Sample.strip
     (Sample.with_interrupt AtCleanup Sample.all_pass))) = [(4, 4)]).
Proof.
  split; [split; reflexivity|]. split; [reflexivity|]. split; [|reflexivity].
  intros n s Hn. destruct n as [|[|[|[|n]]]]; cbn in Hn; inversion Hn; subst;
    try reflexivity. destruct n; discriminate.
Qed.

(** ** Claims on requests and on starting *)

(** An exception that leaves the harness uncaught. *)
Definition unhandled (r : result unit) : bool :=
  match r with
  | Raise e => is_Exception e
  | Ok _ => false
  end.

(** C4 (as amended). For every request of the sequence: if the reply
    stream is closed before a line is received (readline returns the empty
    string) or the line is no JSON text ([json.loads] raises),
    [send_request] returns none and the step that made the request returns
    failure; and when this happens to the first step that does not pass,
    the run ends by [sys.exit(1)], not by an exception. A line that is a
    JSON text is returned as the response whatever it parses to: the step
    returns failure when the value is false as Python has it or [result]
    is not found in it, and when it is true as Python has it and no
    container (true, a number that is not zero) the step raises
    [TypeError], which leaves the harness uncaught when this happens to the
    first step that does not pass and no interrupt arrives while the
    server is stopped. *)
Theorem closed_or_unparsable_reply_fails_step json_loads strip E :
  forall n s line,
    nth_error steps n = Some s ->
    exchanges E n = Readline line ->
    delivered E (AtReadline n) = false ->
    (line = "" \/ json_loads (strip line) = None ->
     (forall w, server_process w <> None -> calls w = n ->
        (exists w', send_request json_loads strip E (request s) w = (Ok JNull, w')) /\
        (exists w', step_test json_loads strip E s w = (Ok false, w'))) /\
     ((forall k s', k < n -> nth_error steps k = Some s' ->
         outcome json_loads strip E s' k = Ok true) ->
      unhandled (fst (run json_loads strip E)) = false /\
      (reaches_tests E = true ->
       fst (run json_loads strip E) = Raise (SystemExit 1)))) /\
    (forall v, line <> "" -> json_loads (strip line) = Some v ->
     (forall w, server_process w <> None -> calls w = n ->
        exists w', send_request json_loads strip E (request s) w = (Ok v, w')) /\
     (Py.truthy v = false \/ Py.contains "result" v = Ok false ->
      forall w, server_process w <> None -> calls w = n ->
        exists w', step_test json_loads strip E s w = (Ok false, w')) /\
     (Py.truthy v = true -> scalar v = true ->
      (forall w, server_process w <> None -> calls w = n ->
         exists w', step_test json_loads strip E s w = (Raise TypeError, w')) /\
      ((forall k s', k < n -> nth_error steps k = Some s' ->
          outcome json_loads strip E s' k = Ok true) ->
       reaches_tests E = true -> delivered E AtCleanup = false ->
       fst (run json_loads strip E) = Raise TypeError /\
       unhandled (fst (run json_loads strip E)) = true))).
Proof.
  intros n s line Hn Hx Hd.
  assert (Hi : interrupted_at E n = false).
  { unfold interrupted_at. rewrite Hx. exact Hd. }
  assert (Hloop : forall r,
            outcome json_loads strip E s n = r -> r <> Ok true ->
            (forall k s', k < n -> nth_error steps k = Some s' ->
               outcome json_loads strip E s' k = Ok true) ->
            loop_result json_loads strip E steps 0 0 =
              match r with Ok _ => Ok n | Raise e => Raise e end /\ n < 4).
  { intros r Ho Hr Hprev.
    destruct n as [|[|[|[|n]]]]; cbn in Hn; try (destruct n; discriminate);
      injection Hn as <-; cbn [loop_result steps];
      rewrite ?(Hprev 0 _ ltac:(lia) eq_refl), ?(Hprev 1 _ ltac:(lia) eq_refl),
        ?(Hprev 2 _ ltac:(lia) eq_refl); cbn [Nat.add];
      rewrite Ho; destruct r as [[|]|e]; try congruence; split;
        (reflexivity || lia). }
  split.
  - intros Hline.
    assert (Ha : answer json_loads strip E n = JNull).
    { unfold answer. rewrite Hx. destruct Hline as [-> | Hp]; [reflexivity|].
      rewrite Hp. destruct (String.eqb line ""); reflexivity. }
    assert (Ho : outcome json_loads strip E s n = Ok false).
    { unfold outcome. rewrite Hi, Ha. apply check_none, (in_steps n s Hn). }
    split.
    + intros w Hp Hc. split.
      * rewrite send_request_run by exact Hp. rewrite Hc, Hi, Ha. eauto.
      * rewrite step_test_run by exact Hp. rewrite Hc, Ho. eauto.
    + intros Hprev. rewrite run_result.
      destruct (help_requested E) eqn:Hh.
      { split; [reflexivity|]. unfold reaches_tests. rewrite Hh. discriminate. }
      destruct (reaches_tests E); [|split; reflexivity].
      destruct (delivered E AtCleanup); [split; reflexivity|].
      destruct (Hloop _ Ho ltac:(discriminate) Hprev) as [-> Hlt].
      destruct (delivered E AtReturn); [split; reflexivity|].
      destruct (Nat.eqb_spec n 4) as [->|_]; [lia|]. split; reflexivity.
  - intros v Hne Hv.
    assert (Ha : answer json_loads strip E n = v).
    { unfold answer. rewrite Hx, Hv.
      destruct (String.eqb_spec line ""); [contradiction|reflexivity]. }
    split; [|split].
    + intros w Hp Hc. rewrite send_request_run by exact Hp.
      rewrite Hc, Hi, Ha. eauto.
    + intros Ht w Hp Hc. rewrite step_test_run by exact Hp.
      unfold outcome. rewrite Hc, Hi, Ha.
      destruct (check_rejects s v (in_steps n s Hn) Ht) as [m ->].
      eauto.
    + intros Ht Hs.
      assert (Ho : outcome json_loads strip E s n = Raise TypeError).
      { unfold outcome. rewrite Hi, Ha.
        rewrite (check_truthy_scalar s v (in_steps n s Hn) Ht Hs). reflexivity. }
      split.
      * intros w Hp Hc. rewrite step_test_run by exact Hp. rewrite Hc, Ho. eauto.
      * intros Hprev Hr Hc. rewrite run_result, Hr, Hc.
        assert (Hh : help_requested E = false).
        { unfold reaches_tests in Hr. destruct (help_requested E);
            [discriminate|reflexivity]. }
        rewrite Hh.
        destruct (Hloop _ Ho ltac:(discriminate) Hprev) as [-> _].
        split; reflexivity.
Qed.

Lemma closed_or_unparsable_reply_fails_step_witness :
  nth_error steps 1 = Some step_list_tools /\
  exchanges Sample.garbled 1 = Readline ("Started JMX server" ++ newline)%string /\
  delivered Sample.garbled (AtReadline 1) = false /\
  Sample.json_loads (Sample.strip ("Started JMX server" ++ newline)%string) = None /\
  unhandled (fst (run Sample.json_loads Sample.strip Sample.garbled)) = false /\
  fst (run Sample.json_loads Sample.strip Sample.garbled) = Raise (SystemExit 1).
Proof.
  do 4 (split; [reflexivity|]).
  destruct (closed_or_unparsable_reply_fails_step Sample.json_loads Sample.strip
              Sample.garbled 1 step_list_tools
              ("Started JMX server" ++ newline)%string
              eq_refl eq_refl eq_refl) as [H _].
  destruct (H (or_intror eq_refl)) as [_ H'].
  assert (Hprev : forall k s', k < 1 -> nth_error steps k = Some s' ->
            outcome Sample.json_loads Sample.strip Sample.garbled s' k = Ok true).
  { intros k s' Hk Hs'. destruct k; [|lia]. cbn in Hs'. inversion Hs'. reflexivity. }
  destruct (H' Hprev) as [H1 H2]. split; [exact H1|]. apply H2. reflexivity.
Defined.

(** The claim C4 as first stated fails: the server answers the first
    request with the line [true], which [json.loads] parses; the value is
    returned as the response, [test_initialize] raises [TypeError] on it,
    and the exception leaves the harness uncaught, after the server has
    been stopped by the [finally] clause. *)
Lemma scalar_reply_raises_uncaught :
  let E := Sample.scalar_reply in
  let r := run Sample.json_loads Sample.strip E in
  exchanges E 0 = Readline (Sample.line_of 6) /\
  Sample.json_loads (Sample.strip (Sample.line_of 6)) = Some (JBool true) /\
  fst (send_request Sample.json_loads Sample.strip E request_initialize
         (logged [Print ServerStarted] (spawned init_world))) = Ok (JBool true) /\
  fst (step_test Sample.json_loads Sample.strip E step_initialize
         (logged [Print ServerStarted] (spawned init_world))) = Raise TypeError /\
  fst r = Raise TypeError /\ unhandled (fst r) = true /\
  exit_code Sample.json_loads Sample.strip E = 1%Z /\
  stop_calls (snd r) = 1 /\ running (snd r) = false.
Proof. vm_compute. repeat split. Qed.

(** C8 (as amended). [start_server] reports failure exactly when the JAR
    file is missing, or launching the process raises, or the spawned
    process has already exited when the settle interval ends (the check is
    reached only when no interrupt has ended the run during the launch or
    the settle interval); in the last case its error stream is read and
    printed, and in the first two no process has been spawned. *)
Theorem start_server_failure_conditions E w :
  (fst (start_server E w) = Ok false <->
   jar_exists E = false \/ popen_fails E = true \/
   (delivered E AtSpawn = false /\ delivered E AtSettle = false /\
    early_exit E <> None)) /\
  (jar_exists E = false ->
   start_server E w = (Ok false, logged [Print RunMvnFirst; Print JarNotFound] w)) /\
  (jar_exists E = true -> popen_fails E = true ->
   start_server E w = (Ok false, logged [Print (FailedToStartServer OSError)] w)) /\
  (forall c, jar_exists E = true -> popen_fails E = false ->
   delivered E AtSpawn = false -> delivered E AtSettle = false ->
   early_exit E = Some c ->
   start_server E w =
   (Ok false,
    logged [Print (ServerFailedToStart (stderr_text E)); ReadStderr]
           (reaped c (spawned w)))).
Proof.
  rewrite start_server_run. unfold start_server_cases.
  destruct (jar_exists E), (popen_fails E), (delivered E AtSpawn),
    (delivered E AtSettle), (early_exit E) as [c|]; cbn [negb fst];
    repeat split; try discriminate; try reflexivity; try congruence;
    intuition (try discriminate; try congruence).
Qed.

(** The claim as first stated fails: without the JAR file [start_server]
    reports failure although no process was spawned, let alone exited. *)
Lemma start_server_fails_without_jar :
  fst (start_server Sample.no_jar init_world) = Ok false /\
  spawns (snd (start_server Sample.no_jar init_world)) = [] /\
  child (snd (start_server Sample.no_jar init_world)) = NoChild /\
  early_exit Sample.no_jar = None.
Proof. repeat split. Qed.

(** C10. If the tools/list response has a result without a [tools]
    field, step 2 does not raise: the absent field counts as an empty
    list, all six required names are reported missing, and the step
    returns failure. *)
Theorem missing_tools_field_fails_step json_loads strip E w d r :
  server_process w <> None ->
  interrupted_at E (calls w) = false ->
  answer json_loads strip E (calls w) = JDict d ->
  Py.lookup "result" d = Some (JDict r) ->
  Py.lookup "tools" r = None ->
  test_list_tools json_loads strip E w =
  (Ok false,
   logged (Print (MissingTools
                    ["listMBeans"; "getMBeanInfo"; "getAttribute"; "setAttribute";
                     "listDomains"; "getConnectionInfo"])
           :: exchange_events json_loads strip E request_list_tools (calls w)
           ++ [Print TestingToolsListing])
          (called w)).
Proof.
  intros Hp Hi Ha Hd Hr.
  change (test_list_tools json_loads strip E)
    with (step_test json_loads strip E step_list_tools).
  rewrite step_test_run by exact Hp.
  unfold outcome, step_world. rewrite Hi, Ha.
  cbn [check request header step_list_tools].
  rewrite (check_list_tools_without_field d r Hd Hr). reflexivity.
Qed.

Lemma missing_tools_field_fails_step_witness :
  let w := called (started_world init_world) in
  server_process w <> None /\
  interrupted_at Sample.no_tools_field (calls w) = false /\
  answer Sample.json_loads Sample.strip Sample.no_tools_field (calls w) =
    Sample.tools_field_absent /\
  fst (test_list_tools Sample.json_loads Sample.strip Sample.no_tools_field w) =
    Ok false.
Proof.
  cbv zeta. split; [discriminate|]. split; [reflexivity|]. split; [reflexivity|].
  rewrite (missing_tools_field_fails_step Sample.json_loads Sample.strip
             Sample.no_tools_field (called (started_world init_world)) _ []
             ltac:(discriminate) eq_refl eq_refl eq_refl eq_refl).
  reflexivity.
Defined.


(** ** Claims on cleanup *)

(** [start_server] returns [False] in a run. *)
Definition start_fails (E : Env) : bool :=
  negb (jar_exists E) || popen_fails E ||
  (negb (delivered E AtSpawn) && negb (delivered E AtSettle) &&
   match early_exit E with Some _ => true | None => false end).

Lemma stopped_once E w : stop_calls (snd (stop_server_with E (ret tt) w)) = S (stop_calls w).
Proof. apply stop_quiet_frame. Qed.

Lemma finally_stop_calls {A} E (r : result A) w :
  1 <= stop_calls (snd (finally_stop E r w)).
Proof.
  unfold finally_stop, stop_interrupted_world.
  destruct (delivered E AtCleanup); cbn [snd]; rewrite stopped_once; lia.
Qed.

Lemma interrupted_world_calls E w : 1 <= stop_calls (interrupted_world E w).
Proof. unfold interrupted_world. rewrite stopped_once. lia. Qed.

(** C6 (as amended). In a run without the help flag, [stop_server] is
    attempted before the harness exits on every exit path on which the
    server was started (all steps passed, a step failed or raised) and
    whenever the interrupt handler runs. It is not attempted exactly when
    [start_server] reports failure and no interrupt arrives; no child is
    running then. *)
Theorem stop_attempted_unless_start_fails json_loads strip E :
  help_requested E = false ->
  let w := snd (run json_loads strip E) in
  (stop_calls w = 0 <->
   start_fails E = true /\ delivered E AtEntry = false /\
   delivered E AtReturn = false) /\
  (reaches_tests E = true -> 1 <= stop_calls w) /\
  (In (Print TestInterrupted) (trace w) -> 1 <= stop_calls w) /\
  (stop_calls w = 0 -> running w = false).
Proof.
  intros Hh w.
  assert (Hcore :
    (reaches_tests E = true -> 1 <= stop_calls w) /\
    ((start_fails E = true /\ delivered E AtEntry = false /\
      delivered E AtReturn = false) ->
     stop_calls w = 0 /\ running w = false /\
     ~ In (Print TestInterrupted) (trace w)) /\
    (~ (start_fails E = true /\ delivered E AtEntry = false /\
        delivered E AtReturn = false) -> 1 <= stop_calls w)).
  { subst w. rewrite run_cases. unfold main_cases, reaches_tests. rewrite Hh.
    cbn [negb andb].
    destruct (delivered E AtEntry).
    { cbn [snd]. pose proof (interrupted_world_calls E init_world).
      repeat split; intros; try discriminate; try lia; intuition discriminate. }
    cbn [negb andb]. unfold run_all_tests_cases.
    destruct (starts E) eqn:Hs.
    - assert (Hsf : start_fails E = false).
      { unfold starts in Hs. unfold start_fails.
        destruct (jar_exists E), (popen_fails E), (delivered E AtSpawn),
          (delivered E AtSettle), (early_exit E); cbn in *; congruence. }
      rewrite (start_cases_started E _ Hs), Hsf.
      assert (Hge : forall (x : result bool) v,
                1 <= stop_calls (snd match finally_stop E x v with
                                     | (Ok success, v') =>
                                         if delivered E AtReturn
                                         then (Raise (SystemExit 1), interrupted_world E v')
                                         else (Raise (SystemExit (if success then 0 else 1)), v')
                                     | (Raise e, v') => (@Raise unit e, v')
                                     end)).
      { intros x v.
        pose proof (finally_stop_calls E x v) as Hf.
        destruct (finally_stop E x v) as [[success|e] v']; cbn [snd] in *; [|exact Hf].
        destruct (delivered E AtReturn); cbn [snd]; [|exact Hf].
        apply interrupted_world_calls. }
      destruct (loop_result json_loads strip E steps _ 0) as [passed|e];
        match goal with |- context [finally_stop E ?x ?v] =>
          pose proof (Hge x v)
        end;
        repeat split; intros; try discriminate; try lia; intuition discriminate.
    - unfold starts in Hs. unfold start_fails, start_server_cases.
      destruct (jar_exists E); cbn [negb andb orb] in *.
      2:{ destruct (delivered E AtReturn); cbn [snd].
          - pose proof (interrupted_world_calls E
              (logged [Print RunMvnFirst; Print JarNotFound]
                 (logged [Print Rule; Print StartingTests] init_world))).
            repeat split; intros; try discriminate; try lia; intuition discriminate.
          - repeat split; intros; try discriminate; try lia;
              try (rewrite in_trace in *; cbn in *; intuition discriminate);
              intuition discriminate. }
      destruct (popen_fails E); cbn [negb andb orb] in *.
      { destruct (delivered E AtReturn); cbn [snd].
        - pose proof (interrupted_world_calls E
            (logged [Print (FailedToStartServer OSError)]
               (logged [Print Rule; Print StartingTests] init_world))).
          repeat split; intros; try discriminate; try lia; intuition discriminate.
        - repeat split; intros; try discriminate; try lia;
            try (rewrite in_trace in *; cbn in *; intuition discriminate);
            intuition discriminate. }
      destruct (delivered E AtSpawn); cbn [negb andb orb] in *.
      { cbn [snd]. rewrite stopped_once.
        repeat split; intros; try discriminate; try lia; intuition discriminate. }
      destruct (delivered E AtSettle); cbn [negb andb orb] in *.
      { cbn [snd]. rewrite stopped_once.
        repeat split; intros; try discriminate; try lia; intuition discriminate. }
      destruct (early_exit E) as [c|]; [|discriminate].
      destruct (delivered E AtReturn); cbn [snd].
      + pose proof (interrupted_world_calls E
          (logged [Print (ServerFailedToStart (stderr_text E)); ReadStderr]
             (reaped c (spawned (logged [Print Rule; Print StartingTests] init_world))))).
        repeat split; intros; try discriminate; try lia; intuition discriminate.
      + repeat split; intros; try discriminate; try lia;
          try (rewrite in_trace in *; cbn in *; intuition discriminate);
          intuition discriminate. }
  destruct Hcore as (Hreach & Hzero & Hpos).
  assert (Hdec : (start_fails E = true /\ delivered E AtEntry = false /\
                  delivered E AtReturn = false) \/
                 ~ (start_fails E = true /\ delivered E AtEntry = false /\
                    delivered E AtReturn = false)).
  { destruct (start_fails E), (delivered E AtEntry), (delivered E AtReturn);
      intuition discriminate. }
  split; [split|].
  - intros H0. destruct Hdec as [Hd|Hd]; [exact Hd|]. specialize (Hpos Hd). lia.
  - intros Hd. apply Hzero, Hd.
  - split; [exact Hreach|]. split.
    + intros Hin. destruct Hdec as [Hd|Hd]; [|apply Hpos, Hd].
      destruct (Hzero Hd) as (_ & _ & Hn). contradiction.
    + intros H0. destruct Hdec as [Hd|Hd]; [apply Hzero, Hd|].
      specialize (Hpos Hd). lia.
Qed.

Lemma stop_attempted_unless_start_fails_witness :
  help_requested Sample.garbled = false /\
  reaches_tests Sample.garbled = true /\
  1 <= stop_calls (snd (run Sample.json_loads Sample.strip Sample.garbled)).
Proof.
  split; [reflexivity|]. split; [reflexivity|].
  exact (proj1 (proj2 (stop_attempted_unless_start_fails Sample.json_loads
                         Sample.strip Sample.garbled eq_refl)) eq_refl).
Defined.

(** The claim C6 as first stated fails: when the server fails to start
    (here: the JAR is missing, or the child exits during the settle
    interval) the run ends without any call of [stop_server]. *)
Lemma stop_not_attempted_when_start_fails :
  (exit_code Sample.json_loads Sample.strip Sample.no_jar = 1%Z /\
   stop_calls (snd (run Sample.json_loads Sample.strip Sample.no_jar)) = 0) /\
  (exit_code Sample.json_loads Sample.strip Sample.exits_early = 1%Z /\
   stop_calls (snd (run Sample.json_loads Sample.strip Sample.exits_early)) = 0 /\
   spawns (snd (run Sample.json_loads Sample.strip Sample.exits_early)) = [cmd]).
Proof. vm_compute. repeat split. Qed.


(** ** The child when a run ends *)

Section NoOrphan.

Variable json_loads : string -> option json.
Variable strip : string -> string.
Variable E : Env.

Local Abbreviation stop_quiet := (stop_server_with E (ret tt)).

Lemma send_signal_wf sp s w :
  wf w = true -> wf (snd (send_signal sp s w)) = true.
Proof.
  destruct w as [[[[c|]]|] ch n lg sc]; unfold wf, send_signal, poll; cbn;
    destruct ch; cbn; try discriminate; try (intros H; exact H);
    try (destruct s; cbn; intros H; try exact H; reflexivity);
    destruct sp; cbn; try (intros _; apply Z.eqb_refl);
    destruct s; cbn; intros H; try exact H; reflexivity.
Qed.

Lemma interrupted_world_child w :
  wf w = true ->
  wf (interrupted_world E w) = true /\ running (interrupted_world E w) = false.
Proof.
  intros Hw. unfold interrupted_world.
  destruct (stop_quiet_child E (logged [Print TestInterrupted] w) Hw) as (H1 & H2 & _).
  auto.
Qed.

Lemma step_world_wf s w :
  wf w = true -> wf (step_world json_loads strip E s w) = true.
Proof.
  intros Hw. unfold step_world. destruct (interrupted_at E (calls w)).
  - apply (stop_quiet_child E (logged _ (called w))). exact Hw.
  - exact Hw.
Qed.

Lemma loop_world_wf l : forall w,
  wf w = true -> wf (loop_world json_loads strip E l w) = true.
Proof.
  induction l as [|s l IH]; intros w Hw; [exact Hw|].
  cbn [loop_world].
  destruct (outcome json_loads strip E s (calls w)) as [[|]|e];
    auto using step_world_wf.
Qed.

Lemma finally_stop_child {A} (r : result A) w :
  wf w = true ->
  wf (snd (finally_stop E r w)) = true /\
  running (snd (finally_stop E r w)) = false.
Proof.
  intros Hw. unfold finally_stop, stop_interrupted_world.
  destruct (delivered E AtCleanup); cbn [snd].
  - match goal with |- context [stop_quiet ?v] =>
      destruct (stop_quiet_child E v) as (H1 & H2 & _); [|auto]
    end.
    apply (send_signal_wf _ _ (snd (enter_stop w))). exact Hw.
  - destruct (stop_quiet_child E w Hw) as (H1 & H2 & _). auto.
Qed.

Lemma start_server_child w :
  wf w = true -> running w = false -> delivered E AtSpawn = false ->
  wf (snd (start_server_cases E w)) = true /\
  (fst (start_server_cases E w) <> Ok true ->
   running (snd (start_server_cases E w)) = false).
Proof.
  intros Hw Hr Hf. unfold start_server_cases. rewrite Hf.
  destruct (negb (jar_exists E)); [cbn; auto|].
  destruct (popen_fails E); [cbn; auto|].
  destruct (delivered E AtSettle); cbn [fst snd].
  - destruct (stop_quiet_child E (logged [Print TestInterrupted] (spawned w)) eq_refl)
      as (H1 & H2 & _). auto.
  - destruct (early_exit E); cbn [fst snd]; unfold wf, running; cbn.
    + rewrite Z.eqb_refl. auto.
    + split; [reflexivity | congruence].
Qed.

(** After a run in which the interrupt does not arrive inside [Popen],
    no child process is left running, and the handle of the tester agrees
    with the state of the child. *)
Lemma run_child_with_handle :
  delivered E AtSpawn = false ->
  wf (snd (run json_loads strip E)) = true /\
  running (snd (run json_loads strip E)) = false.
Proof.
  intros Hspawn. rewrite run_cases. unfold main_cases.
  destruct (help_requested E); [split; reflexivity|].
  destruct (delivered E AtEntry); [apply interrupted_world_child; reflexivity|].
  assert (Hr : wf (snd (run_all_tests_cases json_loads strip E init_world)) = true /\
               running (snd (run_all_tests_cases json_loads strip E init_world)) = false).
  { unfold run_all_tests_cases.
    destruct (start_server_child (logged [Print Rule; Print StartingTests] init_world)
                eq_refl eq_refl Hspawn) as [Hw Hn].
    destruct (start_server_cases E _) as [[[|]|e] w1]; cbn [fst snd] in *;
      try (split; [exact Hw | apply Hn; discriminate]).
    destruct (loop_result json_loads strip E steps (calls w1) 0) as [passed|e];
      apply finally_stop_child.
    - apply (loop_world_wf steps w1 Hw).
    - apply (loop_world_wf steps w1 Hw). }
  destruct (run_all_tests_cases json_loads strip E init_world) as [[success|e] w];
    cbn [snd] in *; [|exact Hr].
  destruct (delivered E AtReturn); cbn [snd]; [|exact Hr].
  apply interrupted_world_child, Hr.
Qed.

End NoOrphan.

(** * Further properties of the harness *)

(** ** What a check makes of a response *)

Lemma existsb_eq_str name l :
  existsb (Py.eq_str name) l = true <-> In (JStr name) l.
Proof.
  rewrite existsb_exists. split.
  - intros (x & Hx & He). destruct x; try discriminate.
    cbn in He. apply String.eqb_eq in He. subst. exact Hx.
  - intros H. exists (JStr name). split; [exact H|]. cbn. apply String.eqb_refl.
Qed.

(** A list comprehension whose body may raise: the values in order, or
    the first exception. *)
Fixpoint traverse {A B} (f : A -> result B) (l : list A) : result (list B) :=
  match l with
  | [] => Ok []
  | x :: l' =>
      match f x with
      | Ok y =>
          match traverse f l' with
          | Ok ys => Ok (y :: ys)
          | Raise e => Raise e
          end
      | Raise e => Raise e
      end
  end.

Lemma mapM_lift_run {A B} (f : A -> result B) l :
  mapM (fun x => lift (f x)) l = ([], traverse f l).
Proof.
  induction l as [|x l IH]; [reflexivity|].
  cbn [mapM traverse bind Monad_Chk ret]. unfold lift at 1.
  destruct (f x) as [y|e]; [|reflexivity].
  rewrite IH. destruct (traverse f l); reflexivity.
Qed.

Lemma traverse_ok {A B} (f : A -> result B) l : forall ys,
  traverse f l = Ok ys <-> Forall2 (fun x y => f x = Ok y) l ys.
Proof.
  induction l as [|x l IH]; intros ys; cbn [traverse].
  - split.
    + intros H. inversion H. constructor.
    + intros H. inversion H. reflexivity.
  - split.
    + destruct (f x) as [y|e] eqn:Hx; [|discriminate].
      destruct (traverse f l) as [zs|e] eqn:Hl; [|discriminate].
      intros H. inversion H. subst. constructor; [exact Hx|]. apply IH. reflexivity.
    + intros H. inversion H as [|? y ? zs Hx Hl]; subst.
      rewrite Hx. apply IH in Hl. rewrite Hl. reflexivity.
Qed.

(** The first item on which the body raises decides. *)
Lemma traverse_raise {A B} (f : A -> result B) pre x post e :
  (forall a, In a pre -> exists y, f a = Ok y) ->
  f x = Raise e ->
  traverse f (pre ++ x :: post) = Raise e.
Proof.
  intros Hpre Hx. induction pre as [|a pre IH]; cbn [app traverse].
  - rewrite Hx. reflexivity.
  - destruct (Hpre a (or_introl eq_refl)) as (y & ->).
    rewrite IH; [reflexivity|]. intros b Hb. apply Hpre. right. exact Hb.
Qed.

(** The guard [not response or "result" not in response] and the
    subscript that follows it, by the kind of the response. *)
Inductive guard : json -> Chk bool -> result json -> Prop :=
| guard_object d x :
    Py.lookup "result" d = Some x ->
    guard (JDict d) ([], Ok false) (Ok x)
| guard_rejected v r :
    Py.truthy v = false \/ Py.contains "result" v = Ok false ->
    guard v ([], Ok true) r
| guard_scalar v r :
    Py.truthy v = true -> Py.contains "result" v = Raise TypeError ->
    guard v ([], Raise TypeError) r
| guard_sequence v :
    (forall d, v <> JDict d) -> Py.truthy v = true ->
    Py.contains "result" v = Ok true ->
    guard v ([], Ok false) (Raise TypeError).

Lemma no_result_guard v : guard v (no_result v) (Py.getitem v "result").
Proof.
  unfold no_result.
  destruct (Py.truthy v) eqn:Ht; cbn [negb].
  2:{ apply guard_rejected. left. exact Ht. }
  destruct v as [|b|z|f|s|l|d]; cbn [Py.contains Py.getitem];
    try (apply guard_scalar; [exact Ht | reflexivity]).
  - cbn [bind Monad_Chk lift ret app]. cbn [Py.truthy] in Ht.
    destruct (Py.substring "result" s) eqn:Hs; cbn [negb].
    + apply guard_sequence; [discriminate | exact Ht |]. cbn [Py.contains].
      rewrite Hs. reflexivity.
    + apply guard_rejected. right. cbn [Py.contains]. rewrite Hs. reflexivity.
  - cbn [bind Monad_Chk lift ret app].
    destruct (existsb (Py.eq_str "result") l) eqn:Hs; cbn [negb].
    + apply guard_sequence; [discriminate | exact Ht |]. cbn [Py.contains].
      rewrite Hs. reflexivity.
    + apply guard_rejected. right. cbn [Py.contains]. rewrite Hs. reflexivity.
  - cbn [bind Monad_Chk lift ret app].
    destruct (Py.lookup "result" d) as [x|] eqn:Hd; cbn [negb].
    + apply guard_object. exact Hd.
    + apply guard_rejected. right. cbn [Py.contains]. rewrite Hd. reflexivity.
Qed.

Ltac chk := cbn [bind Monad_Chk lift ret say negb fst snd app].

(** A check behind the guard passes only on an object with a [result]
    that the rest of the check accepts. *)
Lemma guarded_true m (k : json -> Chk bool) v :
  snd (bad <- no_result v ;;
       if bad then (say m ;; ret false)
       else (result <- lift (Py.getitem v "result") ;; k result)) = Ok true <->
  exists d x, v = JDict d /\ Py.lookup "result" d = Some x /\ snd (k x) = Ok true.
Proof.
  destruct (no_result_guard v) as [d x Hd | v r Hr | v r Ht Hc | v Hv Ht Hc]; chk.
  - destruct (k x) as [ms r] eqn:Hk. chk. split.
    + intros ->. exists d, x. rewrite Hk. auto.
    + intros (d' & x' & Hv & Hd' & Hx). inversion Hv; subst d'.
      rewrite Hd in Hd'. inversion Hd'; subst x'. rewrite Hk in Hx. exact Hx.
  - split; [discriminate|]. intros (d & x & -> & Hd & _).
    destruct Hr as [Hr|Hr].
    + rewrite (truthy_with_result d x Hd) in Hr. discriminate.
    + cbn [Py.contains] in Hr. rewrite Hd in Hr. discriminate.
  - split; [discriminate|]. intros (d & x & -> & _). discriminate.
  - split; [discriminate|]. intros (d & x & -> & _). elim (Hv d). reflexivity.
Qed.

(** Behind the guard nothing but [TypeError] comes of a response that is
    no object. *)
Lemma guarded_other m (k : json -> Chk bool) v :
  (forall d, v <> JDict d) ->
  snd (bad <- no_result v ;;
       if bad then (say m ;; ret false)
       else (result <- lift (Py.getitem v "result") ;; k result)) =
  if Py.truthy v then
    match Py.contains "result" v with
    | Ok false => Ok false
    | _ => Raise TypeError
    end
  else Ok false.
Proof.
  intros Hv.
  destruct (no_result_guard v) as [d x Hd | v r Hr | v r Ht Hc | v _ Ht Hc]; chk.
  - elim (Hv d). reflexivity.
  - destruct Hr as [-> | ->]; [reflexivity|]. destruct (Py.truthy v); reflexivity.
  - rewrite Ht, Hc. reflexivity.
  - rewrite Ht, Hc. reflexivity.
Qed.

Lemma check_initialize_true v :
  snd (check_initialize v) = Ok true <->
  exists d x, v = JDict d /\ Py.lookup "result" d = Some x /\
              Py.contains "capabilities" x = Ok true.
Proof.
  unfold check_initialize.
  destruct (no_result_guard v) as [d x Hd | v r Hr | v r Ht Hc | v Hv Ht Hc].
  - rewrite (truthy_with_result d x Hd). cbn [Py.contains]. rewrite Hd. chk.
    split.
    + intros H. exists d, x. split; [reflexivity|]. split; [exact Hd|].
      destruct (Py.contains "capabilities" x) as [[|]|e]; try discriminate.
      reflexivity.
    + intros (d' & x' & Hv & Hd' & Hx). inversion Hv; subst d'.
      rewrite Hd in Hd'. inversion Hd'; subst x'. rewrite Hx. reflexivity.
  - assert (Hno : forall d x, v = JDict d -> Py.lookup "result" d = Some x -> False).
    { intros d x -> Hd. destruct Hr as [Hr|Hr].
      - rewrite (truthy_with_result d x Hd) in Hr. discriminate.
      - cbn [Py.contains] in Hr. rewrite Hd in Hr. discriminate. }
    split.
    + destruct Hr as [-> | Hr]; chk; [discriminate|].
      destruct (Py.truthy v); chk; [|discriminate]. rewrite Hr. chk. discriminate.
    + intros (d & x & Hv & Hd & _). elim (Hno d x Hv Hd).
  - rewrite Ht, Hc. chk. split; [discriminate|].
    intros (d & x & -> & _). discriminate.
  - rewrite Ht, Hc. chk. split; [discriminate|].
    intros (d & x & -> & _). elim (Hv d). reflexivity.
Qed.

Lemma check_initialize_other v :
  (forall d, v <> JDict d) ->
  snd (check_initialize v) =
  if Py.truthy v then
    match Py.contains "result" v with
    | Ok false => Ok false
    | _ => Raise TypeError
    end
  else Ok false.
Proof.
  intros Hv. unfold check_initialize.
  destruct (no_result_guard v) as [d x Hd | v r Hr | v r Ht Hc | v _ Ht Hc].
  - elim (Hv d). reflexivity.
  - destruct Hr as [-> | Hr]; [reflexivity|].
    destruct (Py.truthy v); [|reflexivity]. rewrite Hr. reflexivity.
  - rewrite Ht, Hc. reflexivity.
  - rewrite Ht, Hc. reflexivity.
Qed.

Lemma filter_nil {A} (f : A -> bool) l :
  filter f l = [] <-> forall x, In x l -> f x = false.
Proof.
  induction l as [|a l IH]; cbn [filter].
  - split; [intros _ x [] | reflexivity].
  - destruct (f a) eqn:Ha.
    + split; [discriminate|]. intros H. rewrite (H a) in Ha; [discriminate|].
      left; reflexivity.
    + rewrite IH. split.
      * intros H x [<-|Hx]; auto.
      * intros H x Hx. apply H. right. exact Hx.
Qed.

(** The names of [expected_tools] that are not among those found. *)
Definition missing_from (found_tools : list json) : list string :=
  filter (fun tool => negb (existsb (Py.eq_str tool) found_tools)) expected_tools.

Lemma missing_from_In found_tools name :
  In name (missing_from found_tools) <->
  In name expected_tools /\ ~ In (JStr name) found_tools.
Proof.
  unfold missing_from. rewrite filter_In, <- existsb_eq_str.
  destruct (existsb (Py.eq_str name) found_tools); cbn; intuition discriminate.
Qed.

Lemma missing_from_nil found_tools :
  missing_from found_tools = [] <->
  forall name, In name expected_tools -> In (JStr name) found_tools.
Proof.
  unfold missing_from. rewrite filter_nil. split; intros H name Hn.
  - apply existsb_eq_str. specialize (H name Hn).
    destruct (existsb (Py.eq_str name) found_tools); [reflexivity | discriminate].
  - specialize (H name Hn). apply existsb_eq_str in H. rewrite H. reflexivity.
Qed.

(** Iterating over a [str] or over the keys of a [dict] gives strings,
    which have no ["name"]. *)
Lemma traverse_names_of_strings ks :
  traverse (fun tool => Py.getitem tool "name") (map JStr ks) =
  match ks with [] => Ok [] | _ => Raise TypeError end.
Proof. destruct ks; reflexivity. Qed.

(** [test_list_tools] behind the guard, on a result whose [tools] is a
    list. *)
Lemma listed_tools_run r tools :
  Py.lookup "tools" r = Some (JList tools) ->
  (tools <- lift (Py.get (JDict r) "tools" (JList [])) ;;
   items <- lift (Py.iter tools) ;;
   found_tools <- mapM (fun tool => lift (Py.getitem tool "name")) items ;;
   let missing_tools :=
     filter (fun tool => negb (existsb (Py.eq_str tool) found_tools))
            expected_tools in
   match missing_tools with
   | _ :: _ => say (MissingTools missing_tools) ;; ret false
   | [] =>
       n <- lift (Py.len tools) ;;
       say (FoundTools n found_tools) ;;
       ret true
   end) =
  match traverse (fun tool => Py.getitem tool "name") tools with
  | Ok found_tools =>
      match missing_from found_tools with
      | [] => ([FoundTools (List.length tools) found_tools], Ok true)
      | missing_tools => ([MissingTools missing_tools], Ok false)
      end
  | Raise e => ([], Raise e)
  end.
Proof.
  intros Hr. cbn [Py.get]. rewrite Hr. chk. cbn [Py.iter]. chk.
  rewrite mapM_lift_run.
  destruct (traverse _ tools) as [found_tools|e]; [|reflexivity].
  cbv zeta. fold (missing_from found_tools).
  destruct (missing_from found_tools); reflexivity.
Qed.

(** The same on any other result: nothing passes. *)
Lemma listed_tools_other x :
  (forall r tools, x = JDict r -> Py.lookup "tools" r <> Some (JList tools)) ->
  snd (tools <- lift (Py.get x "tools" (JList [])) ;;
       items <- lift (Py.iter tools) ;;
       found_tools <- mapM (fun tool => lift (Py.getitem tool "name")) items ;;
       let missing_tools :=
         filter (fun tool => negb (existsb (Py.eq_str tool) found_tools))
                expected_tools in
       match missing_tools with
       | _ :: _ => say (MissingTools missing_tools) ;; ret false
       | [] =>
           n <- lift (Py.len tools) ;;
           say (FoundTools n found_tools) ;;
           ret true
       end) <> Ok true.
Proof.
  intros Hx. destruct x as [|b|z|f|s|l|r]; try (cbn; discriminate).
  cbn [Py.get]. chk.
  destruct (Py.lookup "tools" r) as [tools|] eqn:Hr.
  - destruct tools as [|b|z|f|s|l|d]; try (cbn; discriminate).
    + cbn [Py.iter]. chk. rewrite mapM_lift_run, traverse_names_of_strings.
      destruct (Py.chars s); cbn; discriminate.
    + elim (Hx r l eq_refl Hr).
    + cbn [Py.iter]. chk. rewrite mapM_lift_run, traverse_names_of_strings.
      destruct (Py.keys d); cbn; discriminate.
  - cbn. discriminate.
Qed.

Lemma check_list_tools_true v :
  snd (check_list_tools v) = Ok true <->
  exists d r tools found_tools,
    v = JDict d /\ Py.lookup "result" d = Some (JDict r) /\
    Py.lookup "tools" r = Some (JList tools) /\
    Forall2 (fun tool name => Py.getitem tool "name" = Ok name) tools found_tools /\
    (forall name, In name expected_tools -> In (JStr name) found_tools).
Proof.
  unfold check_list_tools. etransitivity; [apply guarded_true|]. cbv beta. split.
  - intros (d & x & -> & Hd & Hk).
    assert (Hx : exists r tools, x = JDict r /\ Py.lookup "tools" r = Some (JList tools)).
    { destruct x as [|b|z|f|s|l|r];
        try (elim (listed_tools_other _ ltac:(intros; discriminate) Hk)).
      destruct (Py.lookup "tools" r) as [[|b|z|f|s|l|d']|] eqn:Hr;
        try (elim (listed_tools_other (JDict r)
                     ltac:(intros ? ? Heq; inversion Heq; subst; rewrite Hr; discriminate)
                     Hk)).
      eauto. }
    destruct Hx as (r & tools & -> & Hr).
    pose proof (listed_tools_run r tools Hr) as Hrun. cbv zeta in Hrun.
    rewrite Hrun in Hk. clear Hrun.
    destruct (traverse _ tools) as [found_tools|e] eqn:Ht; [|discriminate].
    exists d, r, tools, found_tools. repeat split; auto.
    + apply traverse_ok, Ht.
    + apply missing_from_nil.
      destruct (missing_from found_tools); [reflexivity | discriminate].
  - intros (d & r & tools & found_tools & -> & Hd & Hr & Hn & Hall).
    exists d, (JDict r). repeat split; auto.
    pose proof (listed_tools_run r tools Hr) as Hrun. cbv zeta in Hrun.
    rewrite Hrun. clear Hrun.
    apply traverse_ok in Hn. rewrite Hn.
    apply missing_from_nil in Hall. rewrite Hall. reflexivity.
Qed.

Lemma check_list_resources_true v :
  snd (check_list_resources v) = Ok true <->
  exists d r resources n,
    v = JDict d /\ Py.lookup "result" d = Some (JDict r) /\
    Py.lookup "resources" r = Some resources /\ Py.len resources = Ok (S n).
Proof.
  unfold check_list_resources. etransitivity; [apply guarded_true|]. cbv beta. split.
  - intros (d & x & -> & Hd & Hk).
    destruct x as [|b|z|f|s|l|r]; try discriminate.
    cbn [Py.get] in Hk. revert Hk. chk.
    destruct (Py.lookup "resources" r) as [resources|] eqn:Hr; [|discriminate].
    destruct (Py.len resources) as [[|n]|e] eqn:Hl; try discriminate.
    intros _. exists d, r, resources, n. auto.
  - intros (d & r & resources & n & -> & Hd & Hr & Hl).
    exists d, (JDict r). repeat split; auto.
    cbn [Py.get]. rewrite Hr. chk. rewrite Hl. reflexivity.
Qed.

Lemma check_tool_execution_true v :
  snd (check_tool_execution v) = Ok true <->
  exists d r content,
    v = JDict d /\ Py.lookup "result" d = Some (JDict r) /\
    Py.lookup "content" r = Some content /\ Py.truthy content = true.
Proof.
  unfold check_tool_execution. etransitivity; [apply guarded_true|]. cbv beta. split.
  - intros (d & x & -> & Hd & Hk).
    destruct x as [|b|z|f|s|l|r]; try discriminate.
    cbn [Py.get] in Hk. revert Hk. chk.
    destruct (Py.lookup "content" r) as [content|] eqn:Hr; [|discriminate].
    destruct (Py.truthy content) eqn:Ht; [|discriminate].
    intros _. exists d, r, content. auto.
  - intros (d & r & content & -> & Hd & Hr & Ht).
    exists d, (JDict r). repeat split; auto.
    cbn [Py.get]. rewrite Hr. chk. rewrite Ht. reflexivity.
Qed.

(** ** More sample servers *)

Module Scenario.

(** A tools/list answer that lacks [setAttribute]. *)
Definition tools_without_setAttribute : json :=
  Sample.envelope 2
    (JDict [("tools",
             JList (map Sample.named
                        ["listMBeans"; "getMBeanInfo"; "getAttribute";
                         "listDomains"; "getConnectionInfo"]))]).

(** A tools/list answer whose second entry has no [name]. *)
Definition tool_without_name : json :=
  Sample.envelope 2
    (JDict [("tools", JList [Sample.named "listMBeans";
                             JDict [("title", JStr "getMBeanInfo")]])]).

(** An initialize answer whose [result] is [null]. *)
Definition result_null : json := Sample.envelope 1 JNull.

(** A tools/call answer whose [content] is the empty list. *)
Definition content_empty : json :=
  Sample.envelope 4 (JDict [("content", JList [])]).

Definition texts : list (string * json) :=
  Sample.texts ++
  [ (Sample.json_text "{'jsonrpc': '2.0', 'id': 2, 'result': {'tools': [{'name': 'listMBeans'}, {'name': 'getMBeanInfo'}, {'name': 'getAttribute'}, {'name': 'listDomains'}, {'name': 'getConnectionInfo'}]}}",
     tools_without_setAttribute);
    (Sample.json_text "{'jsonrpc': '2.0', 'id': 2, 'result': {'tools': [{'name': 'listMBeans'}, {'title': 'getMBeanInfo'}]}}",
     tool_without_name);
    (Sample.json_text "{'jsonrpc': '2.0', 'id': 1, 'result': null}", result_null);
    (Sample.json_text "{'jsonrpc': '2.0', 'id': 4, 'result': {'content': []}}",
     content_empty);
    ("[]", JList []) ].

Definition json_loads (s : string) : option json := Py.lookup s texts.

Definition line_of (v : nat) : string :=
  (fst (nth v texts ("", JNull)) ++ newline)%string.

(** Step 2 is answered with a list that lacks [setAttribute]. *)
Definition lacks_setAttribute : Env := Sample.env [line_of 0; line_of 7].

(** Step 2 is answered with a tool entry that has no name. *)
Definition nameless_tool : Env := Sample.env [line_of 0; line_of 8].

(** Step 1 is answered with a null result. *)
Definition null_result : Env := Sample.env [line_of 9].

(** Step 4 is answered with no content. *)
Definition no_content : Env :=
  Sample.env [line_of 0; line_of 1; line_of 3; line_of 10].

(** Step 1 is answered with an empty array. *)
Definition empty_array : Env := Sample.env [line_of 11].

(** The child ignores SIGTERM. *)
Definition stubborn : Env :=
  {| argv := ["comprehensive-test.py"]; jar_exists := true; popen_fails := false;
     early_exit := None; stderr_text := ""; later_exit := None;
     term_exit := None; exchanges := exchanges Sample.all_pass;
     interrupt := None |}.

(** The pipe to the child is broken at the second request. *)
Definition broken_pipe : Env :=
  {| argv := ["comprehensive-test.py"]; jar_exists := true; popen_fails := false;
     early_exit := None; stderr_text := ""; later_exit := Some 1%Z;
     term_exit := None;
     exchanges := fun n => match n with
                           | 0 => Readline (line_of 0)
                           | _ => BrokenPipe
                           end;
     interrupt := None |}.

End Scenario.

(** ** When a step passes *)

Section Passing.

Variable json_loads : string -> option json.
Variable strip : string -> string.
Variable E : Env.

Local Abbreviation outcome := (outcome json_loads strip E).
Local Abbreviation answer := (answer json_loads strip E).
Local Abbreviation step_test := (step_test json_loads strip E).

(** The [n]-th exchange brings the reply [v]: a line is read that is not
    empty and parses to [v], and no interrupt arrives meanwhile. *)
Definition replies (n : nat) (v : json) : Prop :=
  exists line,
    exchanges E n = Readline line /\ line <> "" /\
    json_loads (strip line) = Some v /\ delivered E (AtReadline n) = false.

Lemma replies_answer n v :
  replies n v -> interrupted_at E n = false /\ answer n = v.
Proof.
  intros (line & Hx & Hl & Hj & Hd). unfold interrupted_at, answer.
  rewrite Hx, Hj. apply String.eqb_neq in Hl. rewrite Hl. auto.
Qed.

Lemma answer_object n d :
  interrupted_at E n = false -> answer n = JDict d -> replies n (JDict d).
Proof.
  unfold interrupted_at, answer, replies.
  destruct (exchanges E n) as [|line]; [discriminate|].
  intros Hd. destruct (String.eqb_spec line ""); [discriminate|].
  destruct (json_loads (strip line)) as [v|] eqn:Hj; [|discriminate].
  intros ->. exists line. auto.
Qed.

Lemma replies_outcome s n v : replies n v -> outcome s n = snd (check s v).
Proof.
  intros H. destruct (replies_answer n v H) as [Hi Ha].
  unfold outcome. rewrite Hi, Ha. reflexivity.
Qed.

(** A step passes only on a reply it has read, and, when its check
    accepts objects only, only on an object. *)
Lemma outcome_true_object s n :
  (forall v, snd (check s v) = Ok true -> exists d, v = JDict d) ->
  outcome s n = Ok true ->
  exists d, replies n (JDict d) /\ snd (check s (JDict d)) = Ok true.
Proof.
  intros Hobj. unfold outcome.
  destruct (interrupted_at E n) eqn:Hi; [discriminate|].
  intros Hc. destruct (Hobj _ Hc) as (d & Ha).
  exists d. split; [apply answer_object; assumption|]. rewrite <- Ha. exact Hc.
Qed.

Lemma step_test_result s w :
  server_process w <> None -> fst (step_test s w) = outcome s (calls w).
Proof. intros Hp. rewrite step_test_run by exact Hp. reflexivity. Qed.

End Passing.

(** X2. [test_initialize], called with a server process, returns [True]
    exactly when the reply to its request is a JSON object with a [result]
    in which ["capabilities"] is found by Python's [in] (a key of an
    object, but also an item of a list or a part of a string). *)
Theorem test_initialize_passes_iff json_loads strip E w :
  server_process w <> None ->
  (fst (test_initialize json_loads strip E w) = Ok true <->
   exists d result,
     replies json_loads strip E (calls w) (JDict d) /\
     Py.lookup "result" d = Some result /\
     Py.contains "capabilities" result = Ok true).
Proof.
  intros Hp.
  change (test_initialize json_loads strip E)
    with (step_test json_loads strip E step_initialize).
  rewrite step_test_result by exact Hp. split.
  - intros Ho.
    destruct (outcome_true_object json_loads strip E step_initialize (calls w))
      as (d & Hr & Hc); [|exact Ho|].
    { intros v Hv. apply check_initialize_true in Hv.
      destruct Hv as (d & x & -> & _). eauto. }
    apply check_initialize_true in Hc.
    destruct Hc as (d' & x & Hd' & Hd & Hx). inversion Hd'; subst d'. eauto.
  - intros (d & x & Hr & Hd & Hx).
    rewrite (replies_outcome json_loads strip E _ _ _ Hr).
    apply check_initialize_true. eauto.
Qed.

Lemma test_initialize_passes_iff_witness :
  server_process (started_world init_world) <> None /\
  fst (test_initialize Sample.json_loads Sample.strip Sample.all_pass
         (started_world init_world)) = Ok true.
Proof.
  split; [discriminate|].
  apply (proj2 (test_initialize_passes_iff Sample.json_loads Sample.strip
                  Sample.all_pass (started_world init_world) ltac:(discriminate))).
  eexists. eexists. split.
  - exists (Sample.line_of 0).
    split; [reflexivity|]. split; [discriminate|]. split; reflexivity.
  - split; reflexivity.
Defined.

Lemma guarded_object m (k : json -> Chk bool) d x :
  Py.lookup "result" d = Some x ->
  (bad <- no_result (JDict d) ;;
   if bad then (say m ;; ret false)
   else (result <- lift (Py.getitem (JDict d) "result") ;; k result)) = k x.
Proof.
  intros Hd. rewrite (no_result_present d x Hd). chk.
  cbn [Py.getitem]. rewrite Hd. chk. destruct (k x) as [ms r]. reflexivity.
Qed.

Lemma replies_events json_loads strip E n v request :
  replies json_loads strip E n v ->
  exchange_events json_loads strip E request n = [SendLine request].
Proof.
  intros (line & Hx & Hl & Hj & _). unfold exchange_events.
  rewrite Hx, Hj. apply String.eqb_neq in Hl. rewrite Hl. reflexivity.
Qed.

(** A test method of the sequence, run on a reply [v]: what it returns is
    what its check makes of [v], and the log gets the header, the request
    and what the check says. *)
Lemma step_test_replies json_loads strip E s w v :
  server_process w <> None ->
  replies json_loads strip E (calls w) v ->
  step_test json_loads strip E s w =
  (snd (check s v),
   logged (rev (map Print (fst (check s v))) ++
           [SendLine (request s); Print (header s)])
          (called w)).
Proof.
  intros Hp Hr. rewrite step_test_run by exact Hp.
  destruct (replies_answer json_loads strip E _ _ Hr) as [Hi Ha].
  unfold outcome, step_world. rewrite Hi, Ha.
  rewrite (replies_events json_loads strip E _ _ _ Hr). reflexivity.
Qed.

(** X3. [test_list_tools], called with a server process, returns [True]
    exactly when the reply is an object whose [result] is an object whose
    [tools] is a list of entries that all have a [name], and every one of
    the six expected names is among these names. Further tools, the order
    and repetitions do not matter. *)
Theorem test_list_tools_passes_iff json_loads strip E w :
  server_process w <> None ->
  (fst (test_list_tools json_loads strip E w) = Ok true <->
   exists d r tools found_tools,
     replies json_loads strip E (calls w) (JDict d) /\
     Py.lookup "result" d = Some (JDict r) /\
     Py.lookup "tools" r = Some (JList tools) /\
     Forall2 (fun tool name => Py.getitem tool "name" = Ok name)
             tools found_tools /\
     (forall name, In name expected_tools -> In (JStr name) found_tools)).
Proof.
  intros Hp.
  change (test_list_tools json_loads strip E)
    with (step_test json_loads strip E step_list_tools).
  rewrite step_test_result by exact Hp. split.
  - intros Ho.
    destruct (outcome_true_object json_loads strip E step_list_tools (calls w))
      as (d & Hr & Hc); [|exact Ho|].
    { intros v Hv. apply check_list_tools_true in Hv.
      destruct Hv as (d & r & tools & found_tools & -> & _). eauto. }
    apply check_list_tools_true in Hc.
    destruct Hc as (d' & r & tools & found_tools & Hd' & Hd & Hx).
    inversion Hd'; subst d'. exists d, r, tools, found_tools. auto.
  - intros (d & r & tools & found_tools & Hr & Hd & Hx).
    rewrite (replies_outcome json_loads strip E _ _ _ Hr).
    apply check_list_tools_true. exists d, r, tools, found_tools. auto.
Qed.

Lemma test_list_tools_passes_iff_witness :
  server_process (called (started_world init_world)) <> None /\
  fst (test_list_tools Sample.json_loads Sample.strip Sample.all_pass
         (called (started_world init_world))) = Ok true.
Proof.
  split; [discriminate|].
  apply (proj2 (test_list_tools_passes_iff Sample.json_loads Sample.strip
                  Sample.all_pass (called (started_world init_world))
                  ltac:(discriminate))).
  eexists. eexists. eexists. eexists. split.
  - exists (Sample.line_of 1).
    split; [reflexivity|]. split; [discriminate|]. split; reflexivity.
  - split; [reflexivity|]. split; [reflexivity|]. split.
    + repeat constructor.
    + intros name Hn. cbn in Hn.
      destruct Hn as [<-|[<-|[<-|[<-|[<-|[<-|[]]]]]]]; cbn; auto 10.
Defined.

(** X4. When every tool entry of the reply has a name but some expected
    name is not among them, [test_list_tools] returns [False] and prints
    one message, which lists the expected names that are absent, each
    once, in the order of the expected list, and no other name. *)
Theorem missing_tools_are_named json_loads strip E w d r tools found_tools :
  server_process w <> None ->
  replies json_loads strip E (calls w) (JDict d) ->
  Py.lookup "result" d = Some (JDict r) ->
  Py.lookup "tools" r = Some (JList tools) ->
  Forall2 (fun tool name => Py.getitem tool "name" = Ok name) tools found_tools ->
  (exists name, In name expected_tools /\ ~ In (JStr name) found_tools) ->
  test_list_tools json_loads strip E w =
    (Ok false,
     logged [Print (MissingTools (missing_from found_tools));
             SendLine request_list_tools; Print TestingToolsListing]
            (called w)) /\
  missing_from found_tools =
    filter (fun name => negb (existsb (Py.eq_str name) found_tools))
           expected_tools /\
  (forall name, In name (missing_from found_tools) <->
                In name expected_tools /\ ~ In (JStr name) found_tools).
Proof.
  intros Hp Hr Hd Ht Hn (name & Hin & Hout).
  split; [|split; [reflexivity | intros; apply missing_from_In]].
  change (test_list_tools json_loads strip E)
    with (step_test json_loads strip E step_list_tools).
  rewrite (step_test_replies json_loads strip E _ _ _ Hp Hr).
  cbn [check request header step_list_tools]. unfold check_list_tools.
  erewrite guarded_object by exact Hd.
  pose proof (listed_tools_run r tools Ht) as Hrun. cbv zeta in Hrun.
  rewrite Hrun. clear Hrun.
  apply traverse_ok in Hn. rewrite Hn.
  destruct (missing_from found_tools) as [|m ms] eqn:Hm; [|reflexivity].
  elim Hout. apply (proj1 (missing_from_nil found_tools) Hm). exact Hin.
Qed.

Lemma missing_tools_are_named_witness :
  test_list_tools Scenario.json_loads Sample.strip Scenario.lacks_setAttribute
    (called (started_world init_world)) =
  (Ok false,
   logged [Print (MissingTools ["setAttribute"]);
           SendLine request_list_tools; Print TestingToolsListing]
          (called (called (started_world init_world)))).
Proof.
  refine (proj1 (missing_tools_are_named Scenario.json_loads Sample.strip
                   Scenario.lacks_setAttribute (called (started_world init_world))
                   _ _ _ (map JStr ["listMBeans"; "getMBeanInfo"; "getAttribute";
                                    "listDomains"; "getConnectionInfo"])
                   ltac:(discriminate) _ _ _ _ _)).
  - exists (Scenario.line_of 7).
    split; [reflexivity|]. split; [discriminate|]. split; reflexivity.
  - reflexivity.
  - reflexivity.
  - repeat constructor.
  - exists "setAttribute". split; [cbn; auto 10|].
    cbn. intuition discriminate.
Defined.

(** X5. [test_list_resources], called with a server process, returns
    [True] exactly when the reply is an object whose [result] is an object
    whose [resources] has a length that is not zero; when the [result] has
    no [resources] at all, the step does not raise but returns [False] and
    says that no resources were found. *)
Theorem test_list_resources_passes_iff json_loads strip E w :
  server_process w <> None ->
  (fst (test_list_resources json_loads strip E w) = Ok true <->
   exists d r resources n,
     replies json_loads strip E (calls w) (JDict d) /\
     Py.lookup "result" d = Some (JDict r) /\
     Py.lookup "resources" r = Some resources /\
     Py.len resources = Ok (S n)) /\
  (forall d r,
     replies json_loads strip E (calls w) (JDict d) ->
     Py.lookup "result" d = Some (JDict r) ->
     Py.lookup "resources" r = None ->
     test_list_resources json_loads strip E w =
     (Ok false,
      logged [Print NoResourcesFound; SendLine request_list_resources;
              Print TestingResourcesListing] (called w))).
Proof.
  intros Hp.
  change (test_list_resources json_loads strip E)
    with (step_test json_loads strip E step_list_resources).
  split.
  - rewrite step_test_result by exact Hp. split.
    + intros Ho.
      destruct (outcome_true_object json_loads strip E step_list_resources (calls w))
        as (d & Hr & Hc); [|exact Ho|].
      { intros v Hv. apply check_list_resources_true in Hv.
        destruct Hv as (d & r & resources & n & -> & _). eauto. }
      apply check_list_resources_true in Hc.
      destruct Hc as (d' & r & resources & n & Hd' & Hd & Hx).
      inversion Hd'; subst d'. exists d, r, resources, n. auto.
    + intros (d & r & resources & n & Hr & Hd & Hx).
      rewrite (replies_outcome json_loads strip E _ _ _ Hr).
      apply check_list_resources_true. exists d, r, resources, n. auto.
  - intros d r Hr Hd Hres.
    rewrite (step_test_replies json_loads strip E _ _ _ Hp Hr).
    cbn [check request header step_list_resources]. unfold check_list_resources.
    erewrite guarded_object by exact Hd.
    cbn [Py.get]. rewrite Hres. reflexivity.
Qed.

Lemma test_list_resources_passes_iff_witness :
  server_process (called (called (started_world init_world))) <> None /\
  fst (test_list_resources Sample.json_loads Sample.strip Sample.all_pass
         (called (called (started_world init_world)))) = Ok true.
Proof.
  split; [discriminate|].
  apply (proj2 (proj1 (test_list_resources_passes_iff Sample.json_loads Sample.strip
                         Sample.all_pass (called (called (started_world init_world)))
                         ltac:(discriminate)))).
  eexists. eexists. eexists. eexists. split.
  - exists (Sample.line_of 3).
    split; [reflexivity|]. split; [discriminate|]. split; reflexivity.
  - split; [reflexivity|]. split; reflexivity.
Defined.

(** X6. [test_tool_execution], called with a server process, returns
    [True] exactly when the reply is an object whose [result] is an object
    whose [content] is true as Python has it (not empty, zero, false or
    null); when [content] is absent or is not true, the step returns
    [False] and says that the tool response has no content. *)
Theorem test_tool_execution_passes_iff json_loads strip E w :
  server_process w <> None ->
  (fst (test_tool_execution json_loads strip E w) = Ok true <->
   exists d r content,
     replies json_loads strip E (calls w) (JDict d) /\
     Py.lookup "result" d = Some (JDict r) /\
     Py.lookup "content" r = Some content /\
     Py.truthy content = true) /\
  (forall d r,
     replies json_loads strip E (calls w) (JDict d) ->
     Py.lookup "result" d = Some (JDict r) ->
     Py.lookup "content" r = None \/
     (exists content, Py.lookup "content" r = Some content /\
                      Py.truthy content = false) ->
     test_tool_execution json_loads strip E w =
     (Ok false,
      logged [Print NoContent; SendLine request_tool_execution;
              Print TestingToolExecution] (called w))).
Proof.
  intros Hp.
  change (test_tool_execution json_loads strip E)
    with (step_test json_loads strip E step_tool_execution).
  split.
  - rewrite step_test_result by exact Hp. split.
    + intros Ho.
      destruct (outcome_true_object json_loads strip E step_tool_execution (calls w))
        as (d & Hr & Hc); [|exact Ho|].
      { intros v Hv. apply check_tool_execution_true in Hv.
        destruct Hv as (d & r & content & -> & _). eauto. }
      apply check_tool_execution_true in Hc.
      destruct Hc as (d' & r & content & Hd' & Hd & Hx).
      inversion Hd'; subst d'. exists d, r, content. auto.
    + intros (d & r & content & Hr & Hd & Hx).
      rewrite (replies_outcome json_loads strip E _ _ _ Hr).
      apply check_tool_execution_true. exists d, r, content. auto.
  - intros d r Hr Hd Hc.
    rewrite (step_test_replies json_loads strip E _ _ _ Hp Hr).
    cbn [check request header step_tool_execution]. unfold check_tool_execution.
    erewrite guarded_object by exact Hd.
    cbn [Py.get]. destruct Hc as [Hc | (content & Hc & Ht)]; rewrite Hc.
    + reflexivity.
    + chk. rewrite Ht. reflexivity.
Qed.

Lemma test_tool_execution_passes_iff_witness :
  let w := called (called (called (started_world init_world))) in
  server_process w <> None /\
  fst (test_tool_execution Sample.json_loads Sample.strip Sample.all_pass w)
    = Ok true /\
  fst (test_tool_execution Scenario.json_loads Sample.strip Scenario.no_content w)
    = Ok false.
Proof.
  cbv zeta. split; [discriminate|]. split.
  - apply (proj2 (proj1 (test_tool_execution_passes_iff Sample.json_loads
                           Sample.strip Sample.all_pass
                           (called (called (called (started_world init_world))))
                           ltac:(discriminate)))).
    eexists. eexists. eexists. split.
    + exists (Sample.line_of 5).
      split; [reflexivity|]. split; [discriminate|]. split; reflexivity.
    + split; [reflexivity|]. split; reflexivity.
  - erewrite (proj2 (test_tool_execution_passes_iff Scenario.json_loads
                       Sample.strip Scenario.no_content
                       (called (called (called (started_world init_world))))
                       ltac:(discriminate))).
    + reflexivity.
    + exists (Scenario.line_of 10).
      split; [reflexivity|]. split; [discriminate|]. split; reflexivity.
    + reflexivity.
    + right. exists (JList []). split; reflexivity.
Defined.

Lemma steps_other s v :
  In s steps -> is_object v = false ->
  snd (check s v) =
  if Py.truthy v then
    match Py.contains "result" v with
    | Ok false => Ok false
    | _ => Raise TypeError
    end
  else Ok false.
Proof.
  intros Hs Hv.
  assert (Hno : forall d, v <> JDict d) by (intros d ->; discriminate).
  cbn in Hs. destruct Hs as [<-|[<-|[<-|[<-|[]]]]];
    cbn [check step_initialize step_list_tools step_list_resources
         step_tool_execution].
  - apply check_initialize_other, Hno.
  - apply guarded_other, Hno.
  - apply guarded_other, Hno.
  - apply guarded_other, Hno.
Qed.

(** X7. A reply that parses to something other than a JSON object never
    makes a test method of the sequence return [True]: the method returns
    [False] when the value is false as Python has it (null, false, zero,
    the empty string or array) or is a string or array in which ["result"]
    is not found, and raises [TypeError] otherwise (true, a number that is
    not zero, a string or array in which ["result"] is found). *)
Theorem only_an_object_passes json_loads strip E test w v :
  In test (tests json_loads strip E) ->
  server_process w <> None ->
  replies json_loads strip E (calls w) v ->
  is_object v = false ->
  fst (test w) <> Ok true /\
  fst (test w) =
    (if Py.truthy v then
       match Py.contains "result" v with
       | Ok false => Ok false
       | _ => Raise TypeError
       end
     else Ok false) /\
  (scalar v = true -> Py.truthy v = true -> fst (test w) = Raise TypeError).
Proof.
  intros Ht Hp Hr Hv. rewrite tests_steps in Ht. apply in_map_iff in Ht.
  destruct Ht as (s & <- & Hs).
  rewrite step_test_result by exact Hp.
  rewrite (replies_outcome json_loads strip E _ _ _ Hr).
  rewrite (steps_other s v Hs Hv).
  split; [|split].
  - destruct (Py.truthy v); [|discriminate].
    destruct (Py.contains "result" v) as [[|]|e]; discriminate.
  - reflexivity.
  - intros Hsc ->. destruct v; try discriminate; reflexivity.
Qed.

Lemma only_an_object_passes_witness :
  fst (test_initialize Sample.json_loads Sample.strip Sample.scalar_reply
         (started_world init_world)) = Raise TypeError /\
  fst (test_initialize Scenario.json_loads Sample.strip Scenario.empty_array
         (started_world init_world)) = Ok false.
Proof.
  split.
  - refine (proj2 (proj2 (only_an_object_passes Sample.json_loads Sample.strip
                            Sample.scalar_reply _ (started_world init_world)
                            (JBool true) (or_introl eq_refl) ltac:(discriminate)
                            _ eq_refl)) eq_refl eq_refl).
    exists (Sample.line_of 6).
    split; [reflexivity|]. split; [discriminate|]. split; reflexivity.
  - refine (proj1 (proj2 (only_an_object_passes Scenario.json_loads Sample.strip
                            Scenario.empty_array _ (started_world init_world)
                            (JList []) (or_introl eq_refl) ltac:(discriminate)
                            _ eq_refl))).
    exists (Scenario.line_of 11).
    split; [reflexivity|]. split; [discriminate|]. split; reflexivity.
Defined.

(** X8. Replies on which a test method raises instead of returning
    [False]. With a reply object that has a [result]: [test_initialize]
    raises [TypeError] when the [result] is null, a boolean or a number;
    the other three raise [AttributeError] when the [result] is not an
    object; [test_list_tools] raises [KeyError] at the first tool entry
    that is an object without [name], and [TypeError] when [tools] is
    null, a boolean or a number; [test_list_resources] raises [TypeError]
    when [resources] is null, a boolean or a number. *)
Theorem malformed_result_raises json_loads strip E w d result :
  server_process w <> None ->
  replies json_loads strip E (calls w) (JDict d) ->
  Py.lookup "result" d = Some result ->
  (scalar result = true ->
   fst (test_initialize json_loads strip E w) = Raise TypeError) /\
  (is_object result = false ->
   fst (test_list_tools json_loads strip E w) = Raise AttributeError /\
   fst (test_list_resources json_loads strip E w) = Raise AttributeError /\
   fst (test_tool_execution json_loads strip E w) = Raise AttributeError) /\
  (forall r pre t post,
     result = JDict r ->
     Py.lookup "tools" r = Some (JList (pre ++ JDict t :: post)) ->
     (forall tool, In tool pre -> exists name, Py.getitem tool "name" = Ok name) ->
     Py.lookup "name" t = None ->
     fst (test_list_tools json_loads strip E w) = Raise KeyError) /\
  (forall r tools,
     result = JDict r -> Py.lookup "tools" r = Some tools -> scalar tools = true ->
     fst (test_list_tools json_loads strip E w) = Raise TypeError) /\
  (forall r resources,
     result = JDict r -> Py.lookup "resources" r = Some resources ->
     scalar resources = true ->
     fst (test_list_resources json_loads strip E w) = Raise TypeError).
Proof.
  intros Hp Hr Hd.
  change (test_initialize json_loads strip E)
    with (step_test json_loads strip E step_initialize).
  change (test_list_tools json_loads strip E)
    with (step_test json_loads strip E step_list_tools).
  change (test_list_resources json_loads strip E)
    with (step_test json_loads strip E step_list_resources).
  change (test_tool_execution json_loads strip E)
    with (step_test json_loads strip E step_tool_execution).
  rewrite !step_test_result by exact Hp.
  rewrite !(replies_outcome json_loads strip E _ _ _ Hr).
  cbn [check step_initialize step_list_tools step_list_resources
       step_tool_execution].
  unfold check_list_tools, check_list_resources, check_tool_execution.
  erewrite !guarded_object by exact Hd.
  split; [|split; [|split; [|split]]].
  - intros Hs. unfold check_initialize.
    rewrite (truthy_with_result d result Hd). cbn [Py.contains Py.getitem].
    rewrite Hd. chk. destruct result; try discriminate; reflexivity.
  - intros Ho. destruct result; try discriminate; repeat split.
  - intros r pre t post -> Ht Hpre Hname.
    cbn [Py.get]. rewrite Ht. chk. cbn [Py.iter]. chk.
    rewrite mapM_lift_run, (traverse_raise _ pre (JDict t) post KeyError).
    + reflexivity.
    + exact Hpre.
    + cbn [Py.getitem]. rewrite Hname. reflexivity.
  - intros r tools -> Ht Hs. cbn [Py.get]. rewrite Ht. chk.
    destruct tools; try discriminate; reflexivity.
  - intros r resources -> Ht Hs. cbn [Py.get]. rewrite Ht. chk.
    destruct resources; try discriminate; reflexivity.
Qed.

Lemma malformed_result_raises_witness :
  fst (test_initialize Scenario.json_loads Sample.strip Scenario.null_result
         (started_world init_world)) = Raise TypeError /\
  fst (test_list_tools Scenario.json_loads Sample.strip Scenario.nameless_tool
         (called (started_world init_world))) = Raise KeyError.
Proof.
  split.
  - refine (proj1 (malformed_result_raises Scenario.json_loads Sample.strip
                     Scenario.null_result (started_world init_world) _ JNull
                     ltac:(discriminate) _ _) eq_refl).
    + exists (Scenario.line_of 9).
      split; [reflexivity|]. split; [discriminate|]. split; reflexivity.
    + reflexivity.
  - refine (proj1 (proj2 (proj2 (malformed_result_raises Scenario.json_loads
                     Sample.strip Scenario.nameless_tool
                     (called (started_world init_world)) _
                     (JDict [("tools", JList [Sample.named "listMBeans";
                                              JDict [("title", JStr "getMBeanInfo")]])])
                     ltac:(discriminate) _ _)))
              [("tools", JList [Sample.named "listMBeans";
                                JDict [("title", JStr "getMBeanInfo")]])]
              [Sample.named "listMBeans"] [("title", JStr "getMBeanInfo")] []
              eq_refl eq_refl _ eq_refl).
    + exists (Scenario.line_of 8).
      split; [reflexivity|]. split; [discriminate|]. split; reflexivity.
    + reflexivity.
    + intros tool [<-|[]]. eexists. reflexivity.
Defined.

(** ** Requests, starting and stopping *)

Lemma pick_trace_app {B} (f : event -> option B) w w' new :
  log w' = new ++ log w ->
  pick f (trace w') = pick f (trace w) ++ rev (pick f new).
Proof.
  intros H. rewrite (trace_of_log _ _ _ H), pick_app, pick_rev. reflexivity.
Qed.

Lemma pick_trace_extends {B} (f : event -> option B) w w' :
  (forall e, background e = true -> f e = None) ->
  extends w w' -> pick f (trace w') = pick f (trace w).
Proof.
  intros Hf Hx. rewrite !pick_trace, (pick_extends f w w' Hf Hx). reflexivity.
Qed.

Lemma request_of_background e : background e = true -> request_of e = None.
Proof. intros H. apply request_of_incidental, background_incidental, H. Qed.

Section Requests.

Variable json_loads : string -> option json.
Variable strip : string -> string.
Variable E : Env.

Local Abbreviation send_request := (send_request json_loads strip E).

Lemma send_request_no_process request w :
  server_process w = None ->
  send_request request w =
  (Ok JNull, logged [Print (RequestFailed AttributeError)] (called w)).
Proof.
  intros Hp. unfold send_request, try_except.
  rewrite bind_run, next_call_run. unfold with_process.
  cbn [server_process called]. rewrite Hp. reflexivity.
Qed.

(** X9. [send_request] lets no exception of class [Exception] escape.
    Without a server process, or when the write hits a broken pipe, it
    writes nothing, prints that the request failed and returns [None].
    It raises only [SystemExit], and only when the interrupt arrives while
    it waits for the reply. A value other than [None] that it returns is
    what [json.loads] made of the stripped reply line. At most one line is
    written to the child: the request given. *)
Theorem send_request_contains_failures request w :
  (server_process w = None ->
   send_request request w =
   (Ok JNull, logged [Print (RequestFailed AttributeError)] (called w))) /\
  (server_process w <> None -> exchanges E (calls w) = BrokenPipe ->
   send_request request w =
   (Ok JNull, logged [Print (RequestFailed OSError)] (called w))) /\
  (forall e, fst (send_request request w) = Raise e ->
     e = SystemExit 1 /\ server_process w <> None /\
     exists line, exchanges E (calls w) = Readline line /\
                  delivered E (AtReadline (calls w)) = true) /\
  (forall v, fst (send_request request w) = Ok v -> v <> JNull ->
     exists line, exchanges E (calls w) = Readline line /\ line <> "" /\
                  json_loads (strip line) = Some v) /\
  (requests (snd (send_request request w)) = requests w \/
   requests (snd (send_request request w)) = requests w ++ [request]).
Proof.
  destruct (server_process w) as [p|] eqn:Hp.
  2:{ rewrite (send_request_no_process request w Hp). cbn [fst snd].
      repeat split; try congruence; try discriminate.
      left. unfold requests.
      rewrite (pick_trace_app _ (called w)
                 (logged [Print (RequestFailed AttributeError)] (called w))
                 [Print (RequestFailed AttributeError)] eq_refl).
      cbn. apply app_nil_r. }
  assert (Hsome : server_process w <> None) by congruence.
  rewrite (send_request_run json_loads strip E request w Hsome).
  unfold interrupted_at, answer, exchange_events.
  destruct (exchanges E (calls w)) as [|line] eqn:Hx.
  { cbn [fst snd]. repeat split; try congruence; try discriminate.
    left. unfold requests.
    rewrite (pick_trace_app _ (called w) (logged _ (called w)) _ eq_refl).
    cbn. apply app_nil_r. }
  split; [congruence|]. split; [discriminate|].
  destruct (delivered E (AtReadline (calls w))) eqn:Hd; cbn [fst snd].
  - split; [|split].
    + intros e He. inversion He. repeat split; eauto; discriminate.
    + discriminate.
    + right. unfold requests.
      change (fun e => match e with SendLine r => Some r | _ => None end)
        with request_of.
      rewrite (pick_trace_extends request_of _ _ request_of_background
                 (stop_quiet_extends E _)).
      rewrite (pick_trace_app _ (called w) (logged _ (called w)) _ eq_refl).
      reflexivity.
  - split; [discriminate|]. split.
    + intros v Hv Hne. exists line. split; [reflexivity|].
      destruct (String.eqb_spec line "") as [->|Hl].
      * inversion Hv. congruence.
      * split; [exact Hl|].
        destruct (json_loads (strip line)) as [v'|]; inversion Hv; congruence.
    + right. unfold requests.
      rewrite (pick_trace_app _ (called w) (logged _ (called w)) _ eq_refl).
      destruct (String.eqb line ""); [reflexivity|].
      destruct (json_loads (strip line)); reflexivity.
Qed.

End Requests.

Definition spawn_of (e : event) : option (list string) :=
  match e with
  | Spawn c => Some c
  | _ => None
  end.

Lemma spawn_of_background e : background e = true -> spawn_of e = None.
Proof. destruct e; try reflexivity. discriminate. Qed.

(** X10. [start_server] returns [True] exactly when the JAR file is
    there, the process launches, no interrupt arrives inside [Popen] or
    during the settle interval, and the child has not exited when the
    interval ends; the handle then stands for a running child whose exit
    has not been collected. In every case it spawns at most one process,
    with the fixed command line, and none when the JAR is missing or the
    launch raises; it writes no request; and it lets nothing escape but
    the [SystemExit] of the interrupt handler. When the interrupt arrives
    inside [Popen], after the fork and before the handle is assigned, a
    tester that had no handle is left without one while the child runs. *)
Theorem start_server_outcomes E w :
  let r := start_server E w in
  (fst r = Ok true <-> starts E = true) /\
  (fst r = Ok true ->
   server_process (snd r) = Some {| returncode := None |} /\
   child (snd r) = Running /\
   log (snd r) = Print ServerStarted :: Spawn cmd :: log w) /\
  (forall e, fst r = Raise e ->
     e = SystemExit 1 /\
     (delivered E AtSpawn = true \/ delivered E AtSettle = true)) /\
  spawns (snd r) =
    spawns w ++ (if jar_exists E && negb (popen_fails E) then [cmd] else []) /\
  requests (snd r) = requests w /\
  (jar_exists E = true -> popen_fails E = false -> delivered E AtSpawn = true ->
   server_process w = None ->
   fst r = Raise (SystemExit 1) /\
   server_process (snd r) = None /\ child (snd r) = Running).
Proof.
  cbv zeta. rewrite start_server_run. unfold start_server_cases, starts.
  destruct (jar_exists E); cbn [negb andb].
  2:{ cbn [fst snd]. split; [split; discriminate|]. split; [discriminate|].
      split; [discriminate|]. split; [|split; [|discriminate]].
      - unfold spawns. rewrite (pick_trace_app _ w (logged _ w) _ eq_refl).
        reflexivity.
      - unfold requests. rewrite (pick_trace_app _ w (logged _ w) _ eq_refl).
        cbn. apply app_nil_r. }
  destruct (popen_fails E); cbn [negb andb].
  { cbn [fst snd]. split; [split; discriminate|]. split; [discriminate|].
    split; [discriminate|]. split; [|split; [|discriminate]].
    - unfold spawns. rewrite (pick_trace_app _ w (logged _ w) _ eq_refl).
      reflexivity.
    - unfold requests. rewrite (pick_trace_app _ w (logged _ w) _ eq_refl).
      cbn. apply app_nil_r. }
  assert (Hsp : spawns (spawned w) = spawns w ++ [cmd]).
  { unfold spawns. rewrite (pick_trace_app _ w (spawned w) [Spawn cmd] eq_refl).
    reflexivity. }
  assert (Hrq : requests (spawned w) = requests w).
  { unfold requests. rewrite (pick_trace_app _ w (spawned w) [Spawn cmd] eq_refl).
    cbn. apply app_nil_r. }
  assert (Hspf : spawns (forked w) = spawns w ++ [cmd]) by exact Hsp.
  assert (Hrqf : requests (forked w) = requests w) by exact Hrq.
  destruct (delivered E AtSpawn); cbn [negb andb fst snd].
  { change (snd (stop_server_with E (ret tt)
                   (logged [Print TestInterrupted] (forked w))))
      with (interrupted_world E (forked w)).
    split; [split; discriminate|]. split; [discriminate|].
    split; [intros e He; inversion He; auto|]. split; [|split].
    - unfold spawns.
      change (fun e => match e with Spawn c => Some c | _ => None end)
        with spawn_of.
      rewrite (pick_trace_extends spawn_of (forked w) _ spawn_of_background
                 (interrupted_world_extends E (forked w))).
      exact Hspf.
    - unfold requests.
      change (fun e => match e with SendLine r => Some r | _ => None end)
        with request_of.
      rewrite (pick_trace_extends request_of (forked w) _ request_of_background
                 (interrupted_world_extends E (forked w))).
      exact Hrqf.
    - intros _ _ _ Hp. split; [reflexivity|].
      unfold interrupted_world.
      destruct (stop_quiet_frame E (logged [Print TestInterrupted] (forked w)))
        as (_ & _ & Hnone & _).
      split; [apply Hnone, Hp|].
      destruct w as [sp ch n lg sc]. cbn in Hp. subst sp. reflexivity. }
  destruct (delivered E AtSettle); cbn [negb andb fst snd].
  { change (snd (stop_server_with E (ret tt)
                   (logged [Print TestInterrupted] (spawned w))))
      with (interrupted_world E (spawned w)).
    split; [split; discriminate|]. split; [discriminate|].
    split; [intros e He; inversion He; auto|]. split; [|split; [|discriminate]].
    - unfold spawns.
      change (fun e => match e with Spawn c => Some c | _ => None end)
        with spawn_of.
      rewrite (pick_trace_extends spawn_of (spawned w) _ spawn_of_background
                 (interrupted_world_extends E (spawned w))).
      exact Hsp.
    - unfold requests.
      change (fun e => match e with SendLine r => Some r | _ => None end)
        with request_of.
      rewrite (pick_trace_extends request_of (spawned w) _ request_of_background
                 (interrupted_world_extends E (spawned w))).
      exact Hrq. }
  destruct (early_exit E) as [c|]; cbn [fst snd].
  - split; [split; discriminate|]. split; [discriminate|].
    split; [discriminate|]. split; [|split; [|discriminate]].
    + unfold spawns.
      rewrite (pick_trace_app _ (reaped c (spawned w)) (logged _ (reaped c (spawned w)))
                 _ eq_refl).
      cbn [pick rev]. rewrite app_nil_r. exact Hsp.
    + unfold requests.
      rewrite (pick_trace_app _ (reaped c (spawned w)) (logged _ (reaped c (spawned w)))
                 _ eq_refl).
      cbn [pick rev]. rewrite app_nil_r. exact Hrq.
  - split; [split; reflexivity|]. split; [intros _; repeat split|].
    split; [discriminate|]. split; [|split; [|discriminate]].
    + unfold spawns.
      rewrite (pick_trace_app _ (spawned w) (logged _ (spawned w)) _ eq_refl).
      cbn [pick rev]. rewrite app_nil_r. exact Hsp.
    + unfold requests.
      rewrite (pick_trace_app _ (spawned w) (logged _ (spawned w)) _ eq_refl).
      cbn [pick rev]. rewrite app_nil_r. exact Hrq.
Qed.

(** The return code a child that runs ends with when it is stopped. *)
Definition exit_on_stop (E : Env) : Z :=
  match later_exit E with
  | Some c => c
  | None =>
      match term_exit E with
      | Some c => c
      | None => (-9)%Z
      end
  end.

(** The signals a stop sends to a child that runs. *)
Definition signals_on_stop (E : Env) : list signal :=
  match later_exit E with
  | Some _ => []
  | None =>
      match term_exit E with
      | Some _ => [SIGTERM]
      | None => [SIGTERM; SIGKILL]
      end
  end.

Lemma stop_quiet_running E w :
  wf w = true -> running w = true ->
  child (snd (stop_server_with E (ret tt) w)) = Exited (exit_on_stop E) /\
  stop_events E w =
    Print ServerStopped :: rev (map Kill (signals_on_stop E)).
Proof.
  destruct w as [[[[c|]]|] ch n lg sc]; unfold wf, running; cbn;
    destruct ch; try discriminate.
  intros _ _.
  unfold stop_server_with, send_signal, poll, wait, try_except, with_process,
    stop_events, after_sigterm, exit_on_stop, signals_on_stop.
  cbn. destruct (later_exit E); cbn; [auto|].
  destruct (term_exit E); cbn; auto.
Qed.

(** X11. [stop_server] on a child that still runs: when the child has
    exited by itself in the meantime nothing is sent; otherwise SIGTERM is
    sent, and SIGKILL after it exactly when the child has not exited
    within the five seconds of [wait]. In each case the call returns
    normally, the child has exited when it returns, and the one message
    printed says that the server stopped. *)
Theorem stop_server_escalates E w :
  wf w = true -> running w = true -> delivered E AtCleanup = false ->
  let r := stop_server E w in
  fst r = Ok tt /\
  signals (snd r) = signals w ++ signals_on_stop E /\
  (In SIGKILL (signals_on_stop E) <-> later_exit E = None /\ term_exit E = None) /\
  child (snd r) = Exited (exit_on_stop E) /\
  printed (snd r) = printed w ++ [ServerStopped] /\
  stop_calls (snd r) = S (stop_calls w).
Proof.
  intros Hwf Hrun Hq. cbv zeta. rewrite (stop_server_quiet E w Hq).
  destruct (stop_quiet_running E w Hwf Hrun) as [Hc He].
  pose proof (stop_quiet_log E w) as Hl. rewrite He in Hl.
  split; [apply stop_quiet_ok|]. split; [|split; [|split; [|split]]].
  - unfold signals. rewrite (pick_trace_app _ w _ _ Hl).
    f_equal. unfold signals_on_stop.
    destruct (later_exit E); [reflexivity|]. destruct (term_exit E); reflexivity.
  - unfold signals_on_stop.
    destruct (later_exit E); [cbn; intuition discriminate|].
    destruct (term_exit E); cbn; intuition discriminate.
  - exact Hc.
  - unfold printed. rewrite (pick_trace_app _ w _ _ Hl).
    f_equal. unfold signals_on_stop.
    destruct (later_exit E); [reflexivity|]. destruct (term_exit E); reflexivity.
  - apply stop_quiet_frame.
Qed.

Lemma stop_server_escalates_witness :
  let w := started_world init_world in
  wf w = true /\ running w = true /\
  signals (snd (stop_server Scenario.stubborn w)) = [SIGTERM; SIGKILL] /\
  child (snd (stop_server Scenario.stubborn w)) = Exited (-9) /\
  signals (snd (stop_server Sample.all_pass w)) = [SIGTERM] /\
  child (snd (stop_server Sample.all_pass w)) = Exited 143.
Proof.
  cbv zeta. split; [reflexivity|]. split; [reflexivity|].
  destruct (stop_server_escalates Scenario.stubborn (started_world init_world)
              eq_refl eq_refl eq_refl) as (_ & H1 & _ & H2 & _).
  destruct (stop_server_escalates Sample.all_pass (started_world init_world)
              eq_refl eq_refl eq_refl) as (_ & H3 & _ & H4 & _).
  repeat split; assumption.
Defined.

(** X12. The interrupt handler of [main], in any state in which handle
    and child agree: it prints that the test was interrupted, stops the
    server as [stop_server] does, and ends in [sys.exit(1)]; no child runs
    when it exits, no request is written and nothing is spawned. *)
Theorem signal_handler_stops_and_exits E w :
  wf w = true ->
  let r := signal_handler E w in
  fst r = Raise (SystemExit 1) /\
  wf (snd r) = true /\ running (snd r) = false /\
  stop_calls (snd r) = S (stop_calls w) /\
  log (snd r) = stop_events E w ++ Print TestInterrupted :: log w /\
  requests (snd r) = requests w /\ spawns (snd r) = spawns w.
Proof.
  intros Hwf. cbv zeta. rewrite signal_handler_run. cbn [fst snd].
  fold (interrupted_world E w).
  destruct (interrupted_world_child E w Hwf) as [H1 H2].
  split; [reflexivity|]. split; [exact H1|]. split; [exact H2|].
  split; [unfold interrupted_world; rewrite stopped_once; reflexivity|].
  split; [unfold interrupted_world; rewrite stop_quiet_log; reflexivity|]. split.
  - unfold requests.
    change (fun e => match e with SendLine r => Some r | _ => None end)
      with request_of.
    apply (pick_trace_extends request_of w _ request_of_background
             (interrupted_world_extends E w)).
  - unfold spawns.
    apply (pick_trace_extends spawn_of w _ spawn_of_background
             (interrupted_world_extends E w)).
Qed.

Lemma signal_handler_stops_and_exits_witness :
  let w := started_world init_world in
  wf w = true /\
  fst (signal_handler Sample.all_pass w) = Raise (SystemExit 1) /\
  running (snd (signal_handler Sample.all_pass w)) = false.
Proof.
  cbv zeta. split; [reflexivity|].
  destruct (signal_handler_stops_and_exits Sample.all_pass
              (started_world init_world) eq_refl) as (H1 & _ & H2 & _).
  split; assumption.
Defined.

(** ** The command line and the loop *)

Lemma help_requested_iff E :
  help_requested E = true <->
  exists prog rest, argv E = prog :: "--help" :: rest.
Proof.
  unfold help_requested. destruct (argv E) as [|prog [|a rest]].
  - split; [discriminate | intros (p & r & H); discriminate].
  - split; [discriminate | intros (p & r & H); discriminate].
  - cbn [List.length nth Nat.ltb Nat.leb andb]. rewrite String.eqb_eq. split.
    + intros ->. eauto.
    + intros (p & r & H). inversion H. reflexivity.
Qed.

(** X13. The help text is asked for exactly when the first argument after
    the program name is [--help]: not by the flag in a later place, not by
    any other spelling, and not when there is no argument at all. In every
    other case the arguments are not looked at: two runs that differ in
    their command lines only do the same. *)
Theorem help_only_as_first_argument json_loads strip E :
  (help_requested E = true <->
   exists prog rest, argv E = prog :: "--help" :: rest) /\
  (forall E',
     jar_exists E' = jar_exists E -> popen_fails E' = popen_fails E ->
     early_exit E' = early_exit E -> stderr_text E' = stderr_text E ->
     later_exit E' = later_exit E -> term_exit E' = term_exit E ->
     exchanges E' = exchanges E -> interrupt E' = interrupt E ->
     help_requested E = false -> help_requested E' = false ->
     run json_loads strip E' = run json_loads strip E).
Proof.
  split; [apply help_requested_iff|].
  intros E' H1 H2 H3 H4 H5 H6 H7 H8 Hh Hh'.
  destruct E as [a j p e s l t x i], E' as [a' j' p' e' s' l' t' x' i'].
  cbn [jar_exists popen_fails early_exit stderr_text later_exit term_exit
       exchanges interrupt] in *. subst.
  unfold run, main. rewrite Hh, Hh'. reflexivity.
Qed.

(** The tests of a list, run one after the other from [w], all return
    [True] and leave [w']. *)
Inductive passing : list (M bool) -> World -> World -> Prop :=
| passing_nil w : passing [] w w
| passing_cons test l w w1 w2 :
    test w = (Ok true, w1) -> passing l w1 w2 -> passing (test :: l) w w2.

(** X14. The loop of [run_all_tests], for any list of tests: as long as
    the tests return [True] it counts them and goes on; the first test
    that returns [False] ends the loop with the count so far, and the
    first that raises ends it with that exception; in both cases the tests
    after it are not called, so the result and the state do not depend on
    them. *)
Theorem run_tests_stops_at_first_failure (pre post : list (M bool)) test w w1 :
  passing pre w w1 ->
  forall passed,
    run_tests pre passed w = (Ok (passed + List.length pre), w1) /\
    (forall w2, test w1 = (Ok false, w2) ->
       run_tests (pre ++ test :: post) passed w =
       (Ok (passed + List.length pre), w2)) /\
    (forall e w2, test w1 = (Raise e, w2) ->
       run_tests (pre ++ test :: post) passed w = (Raise e, w2)) /\
    (forall w2, test w1 = (Ok true, w2) ->
       run_tests (pre ++ test :: post) passed w =
       run_tests post (passed + List.length pre + 1) w2).
Proof.
  induction 1 as [w | t l w w1 w2 Ht Hl IH]; intros passed.
  - cbn [List.length app run_tests]. rewrite Nat.add_0_r.
    repeat split.
    + intros w2 H. rewrite bind_run, H. reflexivity.
    + intros e w2 H. rewrite bind_run, H. reflexivity.
    + intros w2 H. rewrite bind_run, H. reflexivity.
  - cbn [List.length app run_tests]. rewrite !bind_run, Ht.
    destruct (IH (passed + 1)) as (H1 & H2 & H3 & H4).
    replace (passed + S (List.length l)) with (passed + 1 + List.length l) by lia.
    repeat split; assumption.
Qed.

Lemma run_tests_stops_at_first_failure_witness :
  run_tests [ret true; ret true; ret false; raise TypeError] 0 init_world =
  (Ok 2, init_world).
Proof.
  refine (proj1 (proj2 (run_tests_stops_at_first_failure
                          [ret true; ret true] [raise TypeError] (ret false)
                          init_world init_world _ 0)) init_world eq_refl).
  apply (passing_cons _ _ _ init_world); [reflexivity|].
  apply (passing_cons _ _ _ init_world); [reflexivity|].
  apply passing_nil.
Defined.

(** ** Runs that do not reach the tests *)

(** The events of a run before the first test: what [run_all_tests] and
    [start_server] print, the spawn, and the events of stopping. *)
Definition early (e : event) : bool :=
  match e with
  | Print m =>
      match m with
      | StartingTests | Rule | JarNotFound | RunMvnFirst
      | FailedToStartServer _ | ServerFailedToStart _ | ServerStarted
      | ServerStopped | TestInterrupted => true
      | _ => false
      end
  | Spawn _ | Kill _ | ReadStderr => true
  | SendLine _ => false
  end.

Lemma stop_events_early E w : Forall (fun e => early e = true) (stop_events E w).
Proof.
  unfold stop_events, after_sigterm.
  destruct (server_process w) as [[[c|]]|]; repeat constructor;
    destruct (child w); repeat constructor;
    destruct (later_exit E); repeat constructor;
    destruct (term_exit E); repeat constructor.
Qed.

Lemma interrupted_world_early E w :
  Forall (fun e => early e = true) (log w) ->
  Forall (fun e => early e = true) (log (interrupted_world E w)).
Proof.
  intros H. unfold interrupted_world. rewrite stop_quiet_log.
  apply Forall_app. split; [apply stop_events_early|].
  constructor; [reflexivity | exact H].
Qed.

Lemma interrupted_world_unspawned E w :
  server_process w = None ->
  log (interrupted_world E w) = Print TestInterrupted :: log w /\
  server_process (interrupted_world E w) = None /\
  child (interrupted_world E w) = child w.
Proof.
  intros Hp. unfold interrupted_world.
  rewrite stop_quiet_log. unfold stop_events. cbn [server_process logged].
  rewrite Hp. split; [reflexivity|]. split.
  - apply (stop_quiet_frame E (logged [Print TestInterrupted] w)). exact Hp.
  - destruct w as [sp ch n lg sc]. cbn in Hp. subst sp. reflexivity.
Qed.

Section Unstarted.

Variable json_loads : string -> option json.
Variable strip : string -> string.
Variable E : Env.

Local Abbreviation run := (run json_loads strip E).

Lemma unstarted_log :
  help_requested E = false -> reaches_tests E = false ->
  Forall (fun e => early e = true) (log (snd run)).
Proof.
  intros Hh Hr. unfold reaches_tests in Hr. rewrite Hh in Hr. cbn [negb andb] in Hr.
  rewrite run_cases. unfold main_cases. rewrite Hh.
  destruct (delivered E AtEntry).
  { apply interrupted_world_early. constructor. }
  cbn [negb andb] in Hr. unfold run_all_tests_cases, start_server_cases.
  unfold starts in Hr.
  destruct (jar_exists E); cbn [negb andb] in *.
  2:{ destruct (delivered E AtReturn); cbn [snd];
        [apply interrupted_world_early|]; repeat constructor. }
  destruct (popen_fails E); cbn [negb andb] in *.
  { destruct (delivered E AtReturn); cbn [snd];
      [apply interrupted_world_early|]; repeat constructor. }
  destruct (delivered E AtSpawn); cbn [negb andb] in *.
  { cbn [snd]. apply (interrupted_world_early E (forked _)). repeat constructor. }
  destruct (delivered E AtSettle); cbn [negb andb] in *.
  { cbn [snd]. apply (interrupted_world_early E (spawned _)). repeat constructor. }
  destruct (early_exit E) as [c|]; [|discriminate].
  destruct (delivered E AtReturn); cbn [snd];
    [apply interrupted_world_early|]; repeat constructor.
Qed.

Lemma unstarted_pick {B} (f : event -> option B) :
  (forall e, early e = true -> f e = None) ->
  help_requested E = false -> reaches_tests E = false ->
  pick f (trace (snd run)) = [].
Proof.
  intros Hf Hh Hr. rewrite pick_trace, pick_none; [reflexivity|].
  eapply Forall_impl; [|exact (unstarted_log Hh Hr)]. exact Hf.
Qed.

(** X15. When the server does not start (the JAR is missing, the launch
    raises, the child exits during the settle interval, or the interrupt
    arrives before the server is up), the run ends by [sys.exit(1)]
    without beginning any step: no request is written and no tally is
    printed. When the JAR is missing or the launch raises, no process is
    spawned either and no signal is sent; with the JAR missing and no
    interrupt, the whole trace is the two opening lines and the two lines
    about the JAR. *)
Theorem launch_failure_aborts :
  help_requested E = false -> reaches_tests E = false ->
  fst run = Raise (SystemExit 1) /\
  exit_code json_loads strip E = 1%Z /\
  requests (snd run) = [] /\ headers (snd run) = [] /\ tallies (snd run) = [] /\
  (jar_exists E = false \/ popen_fails E = true ->
   spawns (snd run) = [] /\ signals (snd run) = [] /\ child (snd run) = NoChild) /\
  (jar_exists E = false -> interrupt E = None ->
   trace (snd run) =
   [Print StartingTests; Print Rule; Print JarNotFound; Print RunMvnFirst]).
Proof.
  intros Hh Hr.
  assert (Hres : fst run = Raise (SystemExit 1)).
  { rewrite run_result, Hh, Hr. reflexivity. }
  split; [exact Hres|]. split; [unfold exit_code; rewrite Hres; reflexivity|].
  split; [apply unstarted_pick; auto; intros [m| | | |]; try reflexivity; discriminate|].
  split; [apply unstarted_pick; auto; intros [m| | | |]; try reflexivity;
          destruct m; try reflexivity; discriminate|].
  split; [apply unstarted_pick; auto; intros [m| | | |]; try reflexivity;
          destruct m; try reflexivity; discriminate|].
  split.
  - intros Hfail.
    assert (Hw : exists w,
               snd run = w /\ server_process w = None /\ child w = NoChild /\
               Forall (fun e => match e with Print _ => True | _ => False end) (log w)).
    { rewrite run_cases. unfold main_cases. rewrite Hh.
      destruct (delivered E AtEntry).
      { destruct (interrupted_world_unspawned E init_world eq_refl) as (Hl & Hp & Hc).
        eexists. split; [reflexivity|]. cbn [snd]. rewrite Hl, Hp, Hc.
        repeat split. repeat constructor. }
      unfold run_all_tests_cases, start_server_cases.
      assert (Hcase : negb (jar_exists E) = true \/
                      (negb (jar_exists E) = false /\ popen_fails E = true)).
      { destruct Hfail as [-> | ->]; [left; reflexivity|].
        destruct (jar_exists E); auto. }
      destruct Hcase as [-> | [-> ->]].
      - destruct (delivered E AtReturn); cbn [snd].
        + match goal with |- context [interrupted_world E ?v] =>
            destruct (interrupted_world_unspawned E v eq_refl) as (Hl & Hp & Hc)
          end.
          eexists. split; [reflexivity|]. rewrite Hl, Hp, Hc.
          repeat split. repeat constructor.
        + eexists. split; [reflexivity|]. repeat split. repeat constructor.
      - destruct (delivered E AtReturn); cbn [snd].
        + match goal with |- context [interrupted_world E ?v] =>
            destruct (interrupted_world_unspawned E v eq_refl) as (Hl & Hp & Hc)
          end.
          eexists. split; [reflexivity|]. rewrite Hl, Hp, Hc.
          repeat split. repeat constructor.
        + eexists. split; [reflexivity|]. repeat split. repeat constructor. }
    destruct Hw as (w & -> & _ & Hc & Hl). split; [|split; [|exact Hc]].
    + unfold spawns. rewrite pick_trace, pick_none; [reflexivity|].
      eapply Forall_impl; [|exact Hl]. intros [m| | | |]; tauto.
    + unfold signals. rewrite pick_trace, pick_none; [reflexivity|].
      eapply Forall_impl; [|exact Hl]. intros [m| | | |]; tauto.
  - intros Hj Hi. rewrite run_cases. unfold main_cases, run_all_tests_cases,
      start_server_cases, delivered.
    rewrite Hh, Hi, Hj. reflexivity.
Qed.

End Unstarted.

Lemma launch_failure_aborts_witness :
  help_requested Sample.no_jar = false /\ reaches_tests Sample.no_jar = false /\
  exit_code Sample.json_loads Sample.strip Sample.no_jar = 1%Z /\
  requests (snd (run Sample.json_loads Sample.strip Sample.no_jar)) = [] /\
  spawns (snd (run Sample.json_loads Sample.strip Sample.no_jar)) = [].
Proof.
  split; [reflexivity|]. split; [reflexivity|].
  destruct (launch_failure_aborts Sample.json_loads Sample.strip Sample.no_jar
              eq_refl eq_refl) as (_ & H1 & H2 & _ & _ & H3 & _).
  split; [exact H1|]. split; [exact H2|]. apply H3. left. reflexivity.
Defined.

(** ** The loop over the steps *)

Section LoopFacts.

Variable json_loads : string -> option json.
Variable strip : string -> string.
Variable E : Env.

Local Abbreviation outcome := (outcome json_loads strip E).
Local Abbreviation loop_result := (loop_result json_loads strip E).
Local Abbreviation begun := (begun json_loads strip E).
Local Abbreviation loop_marks := (loop_marks json_loads strip E).

Lemma loop_result_ge l : forall n passed q,
  loop_result l n passed = Ok q -> passed <= q.
Proof.
  induction l as [|a l IH]; intros n passed q; cbn [loop_result].
  - intros H; inversion H; lia.
  - destruct (outcome a n) as [[|]|e].
    + intros H. apply IH in H. lia.
    + intros H; inversion H; lia.
    + discriminate.
Qed.

(** The steps before index [k] pass. *)
Definition leading (l : list step_spec) (n k : nat) : Prop :=
  forall i s, i < k -> nth_error l i = Some s -> outcome s (n + i) = Ok true.

Lemma leading_cons a l n k :
  leading (a :: l) n (S k) <-> outcome a n = Ok true /\ leading l (S n) k.
Proof.
  unfold leading. split.
  - intros H. split.
    + specialize (H 0 a). rewrite Nat.add_0_r in H. apply H; [lia | reflexivity].
    + intros i s Hi Hs. specialize (H (S i) s).
      replace (S n + i) with (n + S i) by lia. apply H; [lia | exact Hs].
  - intros [Ha H] i s Hi Hs. destruct i as [|i].
    + cbn in Hs. inversion Hs; subst. rewrite Nat.add_0_r. exact Ha.
    + replace (n + S i) with (S n + i) by lia. apply H; [lia | exact Hs].
Qed.

Lemma loop_result_ok l : forall n passed k,
  loop_result l n passed = Ok (passed + k) <->
  k <= List.length l /\ leading l n k /\
  (forall s, nth_error l k = Some s -> outcome s (n + k) = Ok false).
Proof.
  induction l as [|a l IH]; intros n passed k; cbn [loop_result List.length].
  - split.
    + intros H. inversion H. assert (k = 0) by lia. subst k.
      split; [lia|]. split; [intros i s Hi; lia | intros s Hs; discriminate].
    + intros (Hk & _). assert (k = 0) by lia. subst k.
      rewrite Nat.add_0_r. reflexivity.
  - destruct k as [|k].
    + rewrite !Nat.add_0_r. cbn [nth_error].
      destruct (outcome a n) as [[|]|e] eqn:Ho.
      * split.
        -- intros H. apply loop_result_ge in H. lia.
        -- intros (_ & _ & H). specialize (H a eq_refl). congruence.
      * split; [|reflexivity]. intros _.
        split; [lia|]. split; [intros i s Hi; lia|].
        intros s Hs. inversion Hs; subst. exact Ho.
      * split; [discriminate|].
        intros (_ & _ & H). specialize (H a eq_refl). congruence.
    + rewrite leading_cons. cbn [nth_error].
      replace (n + S k) with (S n + k) by lia.
      destruct (outcome a n) as [[|]|e] eqn:Ho.
      * replace (passed + S k) with (passed + 1 + k) by lia.
        rewrite IH. split; intros (H1 & H2 & H3); repeat split; auto; try lia;
          apply H2.
      * split; [intros H; inversion H; lia|].
        intros (_ & [H _] & _). congruence.
      * split; [discriminate|]. intros (_ & [H _] & _). congruence.
Qed.

Lemma loop_result_raise l : forall n passed k s e,
  nth_error l k = Some s -> leading l n k -> outcome s (n + k) = Raise e ->
  loop_result l n passed = Raise e.
Proof.
  induction l as [|a l IH]; intros n passed k s e Hs Hl Ho.
  - destruct k; discriminate.
  - cbn [loop_result]. destruct k as [|k].
    + cbn in Hs. inversion Hs; subst. rewrite Nat.add_0_r in Ho. rewrite Ho.
      reflexivity.
    + apply leading_cons in Hl. destruct Hl as [Ha Hl]. rewrite Ha.
      apply (IH (S n) _ k s e Hs Hl).
      replace (S n + k) with (n + S k) by lia. exact Ho.
Qed.

(** The steps begun are the leading steps that pass and the one after
    them. *)
Lemma begun_stop l : forall n k s,
  nth_error l k = Some s -> leading l n k -> outcome s (n + k) <> Ok true ->
  begun l n = firstn (S k) l.
Proof.
  induction l as [|a l IH]; intros n k s Hs Hl Ho.
  - destruct k; discriminate.
  - cbn [begun firstn]. f_equal. destruct k as [|k].
    + cbn in Hs. inversion Hs; subst. rewrite Nat.add_0_r in Ho.
      destruct (outcome s n) as [[|]|e]; try reflexivity. congruence.
    + apply leading_cons in Hl. destruct Hl as [Ha Hl]. rewrite Ha.
      apply (IH (S n) k s Hs Hl).
      replace (S n + k) with (n + S k) by lia. exact Ho.
Qed.

Lemma begun_all l : forall n,
  leading l n (List.length l) -> begun l n = l.
Proof.
  induction l as [|a l IH]; intros n Hl; [reflexivity|].
  cbn [List.length] in Hl. apply leading_cons in Hl. destruct Hl as [Ha Hl].
  cbn [begun]. rewrite Ha, (IH (S n) Hl). reflexivity.
Qed.

Lemma begun_prefix l : forall n,
  begun l n = firstn (List.length (begun l n)) l.
Proof.
  induction l as [|a l IH]; intros n; [reflexivity|].
  cbn [begun List.length firstn]. f_equal.
  destruct (outcome a n) as [[|]|e]; try reflexivity. apply IH.
Qed.

Lemma begun_length l n : List.length (begun l n) <= List.length l.
Proof.
  rewrite (begun_prefix l n) at 1. rewrite length_firstn. lia.
Qed.

(** The requests written are those of the steps begun, but for the last
    when its write hits a broken pipe. *)
Lemma loop_marks_requests l :
  (forall s, In s l -> snd (check s JNull) = Ok false) ->
  forall n, exists m,
    pick request_of (loop_marks l n) = rev (map request (firstn m l)) /\
    (m = List.length (begun l n) \/
     (S m = List.length (begun l n) /\ exchanges E (n + m) = BrokenPipe)).
Proof.
  induction l as [|a l IH]; intros Hnone n.
  - exists 0. split; [reflexivity | left; reflexivity].
  - cbn [loop_marks begun List.length]. rewrite pick_app.
    destruct (outcome a n) as [[|]|e] eqn:Ho.
    + destruct (IH (fun s H => Hnone s (or_intror H)) (S n)) as (m & Hm & Hlen).
      exists (S m). split.
      * cbn [firstn map rev]. rewrite Hm. f_equal.
        unfold step_marks. unfold outcome, interrupted_at, answer in Ho.
        destruct (exchanges E n); [|reflexivity].
        rewrite (Hnone a (or_introl eq_refl)) in Ho. discriminate.
      * replace (n + S m) with (S n + m) by lia.
        destruct Hlen as [-> | [Hl Hx]]; [left; reflexivity|].
        right. split; [lia | exact Hx].
    + unfold step_marks. destruct (exchanges E n) eqn:Hx.
      * exists 0. split; [reflexivity|]. right. rewrite Nat.add_0_r. auto.
      * exists 1. split; [reflexivity|]. left. reflexivity.
    + unfold step_marks. destruct (exchanges E n) eqn:Hx.
      * exists 0. split; [reflexivity|]. right. rewrite Nat.add_0_r. auto.
      * exists 1. split; [reflexivity|]. left. reflexivity.
Qed.

End LoopFacts.

(** The line after the tally: [Some true] for "All tests passed",
    [Some false] for "Some tests failed". *)
Definition verdict_of (e : event) : option bool :=
  match e with
  | Print AllTestsPassed => Some true
  | Print SomeTestsFailed => Some false
  | _ => None
  end.

Definition verdicts (w : World) : list bool := pick verdict_of (trace w).

Lemma verdict_of_background e : background e = true -> verdict_of e = None.
Proof.
  destruct e as [m| | | |]; try reflexivity. destruct m; try reflexivity; discriminate.
Qed.

Section Tally.

Variable json_loads : string -> option json.
Variable strip : string -> string.
Variable E : Env.

Local Abbreviation outcome := (outcome json_loads strip E).
Local Abbreviation loop_result := (loop_result json_loads strip E).
Local Abbreviation loop_marks := (loop_marks json_loads strip E).
Local Abbreviation begun := (begun json_loads strip E).
Local Abbreviation run := (run json_loads strip E).

Lemma loop_marks_none {B} (f : event -> option B) l :
  (forall r, f (SendLine r) = None) ->
  Forall (fun s => f (Print (header s)) = None) l ->
  forall n, pick f (loop_marks l n) = [].
Proof.
  intros Hr. induction 1 as [|s l Hs _ IH]; intros n; [reflexivity|].
  cbn [loop_marks]. rewrite pick_app.
  assert (Hm : pick f (step_marks E s n) = []).
  { unfold step_marks. destruct (exchanges E n); cbn; rewrite ?Hr, Hs; reflexivity. }
  rewrite Hm, app_nil_r.
  destruct (outcome s n) as [[|]|e]; try reflexivity. apply IH.
Qed.

Lemma run_verdicts :
  reaches_tests E = true ->
  verdicts (snd run) =
  match loop_result steps 0 0 with
  | Ok passed => [Nat.eqb passed 4]
  | Raise _ => []
  end.
Proof.
  intros Hr. unfold verdicts. rewrite pick_trace.
  rewrite (run_pick_started json_loads strip E verdict_of verdict_of_background Hr).
  rewrite (loop_marks_none verdict_of steps (fun r => eq_refl))
    by (repeat constructor).
  destruct (loop_result steps 0 0) as [passed|e]; [|reflexivity].
  unfold summary. destruct (Nat.eqb passed 4); reflexivity.
Qed.

Lemma reaches_tests_stops :
  reaches_tests E = true -> 1 <= stop_calls (snd run).
Proof.
  intros Hr. apply reaches_tests_iff in Hr.
  destruct Hr as (Hh & (Hj & Hp & Hx) & He & Hfk & Hs).
  rewrite run_cases. unfold main_cases, run_all_tests_cases.
  rewrite Hh, He.
  rewrite (start_cases_started E _)
    by (unfold starts; rewrite Hj, Hp, Hfk, Hs, Hx; reflexivity).
  assert (Hge : forall (x : result bool) v,
            1 <= stop_calls (snd match finally_stop E x v with
                                 | (Ok success, v') =>
                                     if delivered E AtReturn
                                     then (Raise (SystemExit 1), interrupted_world E v')
                                     else (Raise (SystemExit (if success then 0 else 1)), v')
                                 | (Raise e, v') => (@Raise unit e, v')
                                 end)).
  { intros x v.
    pose proof (finally_stop_calls E x v) as Hf.
    destruct (finally_stop E x v) as [[success|e] v']; cbn [snd] in *; [|exact Hf].
    destruct (delivered E AtReturn); cbn [snd]; [|exact Hf].
    apply interrupted_world_calls. }
  destruct (loop_result steps _ 0) as [passed|e]; apply Hge.
Qed.

(** X16. In a run that reaches the tests at most one tally is printed,
    and it reads [k] of 4 exactly when the first [k] steps passed and step
    [k+1], if there is one, returned [False]: the count is that of the
    leading steps that passed, never more than 4. No tally is printed
    when a step raised. The line after the tally agrees with it: "All
    tests passed" for 4 of 4 and "Some tests failed" otherwise. *)
Theorem tally_counts_leading_passes :
  reaches_tests E = true ->
  let w := snd run in
  (tallies w = [] \/ exists k, k <= 4 /\ tallies w = [(k, 4)]) /\
  (forall k, tallies w = [(k, 4)] <->
     k <= 4 /\
     (forall i s, i < k -> nth_error steps i = Some s -> outcome s i = Ok true) /\
     (forall s, nth_error steps k = Some s -> outcome s k = Ok false)) /\
  (forall k s e, nth_error steps k = Some s ->
     (forall i s', i < k -> nth_error steps i = Some s' -> outcome s' i = Ok true) ->
     outcome s k = Raise e -> tallies w = []) /\
  verdicts w = map (fun t => Nat.eqb (fst t) (snd t)) (tallies w).
Proof.
  intros Hr. cbv zeta.
  rewrite (run_tallies json_loads strip E Hr), (run_verdicts Hr).
  split; [|split; [|split]].
  - destruct (loop_result steps 0 0) as [passed|e] eqn:Hl; [|left; reflexivity].
    right. exists passed. split; [|reflexivity].
    apply (proj1 (loop_result_ok json_loads strip E steps 0 0 passed)) in Hl.
    apply Hl.
  - intros k.
    pose proof (loop_result_ok json_loads strip E steps 0 0 k) as Hk.
    cbn [Nat.add List.length steps] in Hk. unfold leading in Hk.
    cbn [Nat.add] in Hk. rewrite <- Hk.
    destruct (loop_result steps 0 0) as [passed|e].
    + split; intros H; inversion H; reflexivity.
    + split; discriminate.
  - intros k s e Hs Hl Ho.
    rewrite (loop_result_raise json_loads strip E steps 0 0 k s e Hs Hl Ho).
    reflexivity.
  - destruct (loop_result steps 0 0) as [passed|e]; reflexivity.
Qed.

(** X17. The steps of a run are begun in the fixed order, from the
    first, each at most once: the headers printed are the first [k] of the
    four, and the requests written are the first [k] requests, or the
    first [k-1] when the write of the last step begun hit a broken pipe.
    [k] is zero exactly when the run does not reach the tests. *)
Theorem steps_run_in_order :
  let w := snd run in
  exists k m,
    k <= 4 /\
    headers w = firstn k (map header steps) /\
    requests w = firstn m (map request steps) /\
    (m = k \/ (S m = k /\ exchanges E m = BrokenPipe)) /\
    (k = 0 <-> reaches_tests E = false).
Proof.
  cbv zeta. rewrite (run_headers json_loads strip E), (run_requests json_loads strip E).
  destruct (reaches_tests E).
  - destruct (loop_marks_requests json_loads strip E steps
                (check_none) 0) as (m & Hm & Hlen).
    exists (List.length (begun steps 0)), m.
    split; [apply (begun_length json_loads strip E steps 0)|].
    split; [|split; [|split]].
    + rewrite (begun_prefix json_loads strip E steps 0) at 1.
      symmetry. apply firstn_map.
    + rewrite Hm, rev_involutive. symmetry. apply firstn_map.
    + exact Hlen.
    + split; [|discriminate]. cbn [begun steps List.length]. discriminate.
  - exists 0, 0. repeat split; auto.
Qed.

(** X18. When a step raises an exception (its check meets a reply it
    cannot take apart), the loop is left at once: the later steps are not
    begun, no tally and no verdict is printed, [stop_server] is still
    called through the [finally], and the exception leaves [main]
    uncaught, so that the exit status is 1. *)
Theorem raising_step_ends_run k s e :
  reaches_tests E = true ->
  nth_error steps k = Some s ->
  (forall i s', i < k -> nth_error steps i = Some s' -> outcome s' i = Ok true) ->
  interrupted_at E k = false ->
  snd (check s (answer json_loads strip E k)) = Raise e ->
  let w := snd run in
  exit_code json_loads strip E = 1%Z /\
  (delivered E AtCleanup = false ->
   fst run = Raise e /\ unhandled (fst run) = true) /\
  tallies w = [] /\ verdicts w = [] /\
  headers w = firstn (S k) (map header steps) /\
  1 <= stop_calls w.
Proof.
  intros Hr Hs Hl Hi Hc. cbv zeta.
  assert (Ho : outcome s k = Raise e).
  { unfold outcome. rewrite Hi. exact Hc. }
  assert (He : is_Exception e = true).
  { apply (check_raises_exception s _ e (in_steps k s Hs) Hc). }
  assert (Hloop : loop_result steps 0 0 = Raise e).
  { apply (loop_result_raise json_loads strip E steps 0 0 k s e Hs Hl Ho). }
  assert (Hh : help_requested E = false).
  { apply reaches_tests_iff in Hr. apply Hr. }
  split; [|split; [|split; [|split; [|split]]]].
  - unfold exit_code. rewrite (run_result json_loads strip E), Hh, Hr, Hloop.
    destruct (delivered E AtCleanup); [reflexivity|].
    destruct e; try reflexivity. discriminate.
  - intros Hq. rewrite (run_result json_loads strip E), Hh, Hr, Hq, Hloop.
    split; [reflexivity | exact He].
  - rewrite (run_tallies json_loads strip E Hr), Hloop. reflexivity.
  - rewrite (run_verdicts Hr), Hloop. reflexivity.
  - rewrite (run_headers json_loads strip E), Hr.
    rewrite (begun_stop json_loads strip E steps 0 k s Hs Hl)
      by (cbn [Nat.add]; rewrite Ho; discriminate).
    symmetry. apply firstn_map.
  - apply reaches_tests_stops, Hr.
Qed.

End Tally.

Lemma tally_counts_leading_passes_witness :
  reaches_tests Sample.garbled = true /\
  tallies (snd (run Sample.json_loads Sample.strip Sample.garbled)) = [(1, 4)] /\
  verdicts (snd (run Sample.json_loads Sample.strip Sample.garbled)) = [false].
Proof.
  split; [reflexivity|].
  destruct (tally_counts_leading_passes Sample.json_loads Sample.strip
              Sample.garbled eq_refl) as (_ & H & _ & Hv).
  assert (Ht : tallies (snd (run Sample.json_loads Sample.strip Sample.garbled))
               = [(1, 4)]).
  { apply (proj2 (H 1)). split; [lia|]. split.
    - intros i s Hi Hs. destruct i; [|lia]. inversion Hs. reflexivity.
    - intros s Hs. inversion Hs. reflexivity. }
  split; [exact Ht|]. rewrite Hv, Ht. reflexivity.
Defined.

Lemma raising_step_ends_run_witness :
  reaches_tests Scenario.nameless_tool = true /\
  fst (run Scenario.json_loads Sample.strip Scenario.nameless_tool) = Raise KeyError /\
  exit_code Scenario.json_loads Sample.strip Scenario.nameless_tool = 1%Z /\
  headers (snd (run Scenario.json_loads Sample.strip Scenario.nameless_tool)) =
    [TestingInitialization; TestingToolsListing] /\
  1 <= stop_calls (snd (run Scenario.json_loads Sample.strip Scenario.nameless_tool)).
Proof.
  split; [reflexivity|].
  assert (Hl : forall i s', i < 1 -> nth_error steps i = Some s' ->
                 outcome Scenario.json_loads Sample.strip Scenario.nameless_tool s' i
                 = Ok true).
  { intros i s Hi Hs. destruct i; [|lia]. inversion Hs. reflexivity. }
  destruct (raising_step_ends_run Scenario.json_loads Sample.strip
              Scenario.nameless_tool 1 step_list_tools KeyError
              eq_refl eq_refl Hl eq_refl eq_refl) as (H1 & H2 & _ & _ & H3 & H4).
  split; [apply (H2 eq_refl)|]. split; [exact H1|]. split; [exact H3 | exact H4].
Defined.

(** ** The run in which every step passes *)

(** What a step that reads its reply adds to the trace. *)
Definition step_trace json_loads strip E (s : step_spec) (n : nat) : list event :=
  Print (header s) :: SendLine (request s) ::
  map Print (fst (check s (answer json_loads strip E n))).

Section PassingRun.

Variable json_loads : string -> option json.
Variable strip : string -> string.
Variable E : Env.

Local Abbreviation outcome := (outcome json_loads strip E).
Local Abbreviation answer := (answer json_loads strip E).
Local Abbreviation step_world := (step_world json_loads strip E).
Local Abbreviation step_trace := (step_trace json_loads strip E).
Local Abbreviation run := (run json_loads strip E).

Lemma passed_events s n :
  In s steps -> snd (check s (answer n)) = Ok true ->
  exchange_events json_loads strip E (request s) n = [SendLine (request s)].
Proof.
  intros Hs. unfold answer, exchange_events.
  destruct (exchanges E n) as [|line].
  { rewrite (check_none s Hs). discriminate. }
  destruct (String.eqb line ""); [reflexivity|].
  destruct (json_loads (strip line)); [reflexivity|].
  rewrite (check_none s Hs). discriminate.
Qed.

Lemma uninterrupted_at n : interrupt E = None -> interrupted_at E n = false.
Proof.
  intros Hi. unfold interrupted_at, delivered. rewrite Hi.
  destruct (exchanges E n); reflexivity.
Qed.

Lemma passed_step s w :
  In s steps -> interrupt E = None ->
  snd (check s (answer (calls w))) = Ok true ->
  outcome s (calls w) = Ok true /\
  step_world s w =
  logged (rev (step_trace s (calls w))) (called w).
Proof.
  intros Hs Hi Hc. unfold outcome, step_world.
  rewrite (uninterrupted_at _ Hi). split; [exact Hc|].
  rewrite (passed_events s _ Hs Hc). unfold step_trace.
  cbn [rev]. rewrite <- !app_assoc. reflexivity.
Qed.

End PassingRun.

(** X19. The run in which the server starts, no interrupt arrives and
    every step passes on the reply it gets: the harness exits with status
    0, and its trace is the two opening lines, the spawn and the start
    message; for each of the four steps in order its header, its request
    and what its check says; the rule, the tally 4 of 4 and "All tests
    passed"; and at last the signals of one stop (none when the child has
    exited by itself, SIGTERM, or SIGTERM and SIGKILL) and "Server
    stopped". [stop_server] is called once and the child has exited. *)
Theorem passing_run_trace json_loads strip E :
  help_requested E = false -> launches E -> interrupt E = None ->
  all_steps_pass json_loads strip E ->
  let r := run json_loads strip E in
  fst r = Raise (SystemExit 0) /\
  trace (snd r) =
    [Print StartingTests; Print Rule; Spawn cmd; Print ServerStarted] ++
    step_trace json_loads strip E step_initialize 0 ++
    step_trace json_loads strip E step_list_tools 1 ++
    step_trace json_loads strip E step_list_resources 2 ++
    step_trace json_loads strip E step_tool_execution 3 ++
    [Print ResultsRule; Print (TestResults 4 4); Print AllTestsPassed] ++
    map Kill (signals_on_stop E) ++ [Print ServerStopped] /\
  child (snd r) = Exited (exit_on_stop E) /\
  stop_calls (snd r) = 1.
Proof.
  intros Hh (Hj & Hp & Hx) Hi Hall. cbv zeta.
  assert (Hd : forall p, delivered E p = false).
  { intros p. unfold delivered. rewrite Hi. reflexivity. }
  rewrite run_cases. unfold main_cases, run_all_tests_cases.
  rewrite Hh, (Hd AtEntry), (Hd AtReturn).
  rewrite (start_cases_started E _)
    by (unfold starts; rewrite Hj, Hp, (Hd AtSpawn), (Hd AtSettle), Hx; reflexivity).
  set (w1 := started_world (logged [Print Rule; Print StartingTests] init_world)).
  destruct (passed_step json_loads strip E step_initialize w1
              (or_introl eq_refl) Hi (Hall 0 _ eq_refl)) as [O0 W0].
  set (w2 := logged (rev (step_trace json_loads strip E step_initialize (calls w1)))
                    (called w1)) in *.
  destruct (passed_step json_loads strip E step_list_tools w2
              (or_intror (or_introl eq_refl)) Hi (Hall 1 _ eq_refl)) as [O1 W1].
  set (w3 := logged (rev (step_trace json_loads strip E step_list_tools (calls w2)))
                    (called w2)) in *.
  destruct (passed_step json_loads strip E step_list_resources w3
              (or_intror (or_intror (or_introl eq_refl))) Hi (Hall 2 _ eq_refl))
    as [O2 W2].
  set (w4 := logged (rev (step_trace json_loads strip E step_list_resources (calls w3)))
                    (called w3)) in *.
  destruct (passed_step json_loads strip E step_tool_execution w4
              (or_intror (or_intror (or_intror (or_introl eq_refl)))) Hi
              (Hall 3 _ eq_refl)) as [O3 W3].
  set (w5 := logged (rev (step_trace json_loads strip E step_tool_execution (calls w4)))
                    (called w4)) in *.
  assert (Hres : loop_result json_loads strip E steps (calls w1) 0 = Ok 4).
  { cbn [loop_result steps]. rewrite O0.
    change (S (calls w1)) with (calls w2). rewrite O1.
    change (S (calls w2)) with (calls w3). rewrite O2.
    change (S (calls w3)) with (calls w4). rewrite O3. reflexivity. }
  assert (Hw : loop_world json_loads strip E steps w1 = w5).
  { cbn [loop_world steps]. rewrite O0, W0, O1, W1, O2, W2, O3, W3. reflexivity. }
  rewrite Hres, Hw. unfold finally_stop. rewrite (Hd AtCleanup).
  cbn [Nat.eqb fst snd].
  set (v := logged (summary 4) w5).
  destruct (stop_quiet_running E v eq_refl eq_refl) as [Hc He].
  pose proof (stop_quiet_log E v) as Hl. rewrite He in Hl.
  split; [reflexivity|]. split; [|split; [exact Hc|]].
  - assert (Hv : log v =
                 summary 4 ++
                 rev (step_trace json_loads strip E step_tool_execution 3) ++
                 rev (step_trace json_loads strip E step_list_resources 2) ++
                 rev (step_trace json_loads strip E step_list_tools 1) ++
                 rev (step_trace json_loads strip E step_initialize 0) ++
                 [Print ServerStarted; Spawn cmd; Print Rule; Print StartingTests]).
    { clear. reflexivity. }
    unfold trace. rewrite Hl, Hv. clear.
    repeat (rewrite rev_app_distr || rewrite rev_involutive).
    cbn [rev summary Nat.eqb app]. rewrite rev_involutive.
    rewrite <- !app_assoc. reflexivity.
  - rewrite stopped_once. reflexivity.
Qed.

Lemma passing_run_trace_witness :
  help_requested Sample.all_pass = false /\ launches Sample.all_pass /\
  interrupt Sample.all_pass = None /\
  exit_code Sample.json_loads Sample.strip Sample.all_pass = 0%Z /\
  stop_calls (snd (run Sample.json_loads Sample.strip Sample.all_pass)) = 1.
Proof.
  assert (Hall : all_steps_pass Sample.json_loads Sample.strip Sample.all_pass).
  { intros n s Hn. destruct n as [|[|[|[|n]]]]; cbn in Hn; inversion Hn; subst;
      try reflexivity. destruct n; discriminate. }
  assert (Hl : launches Sample.all_pass) by (repeat split).
  split; [reflexivity|]. split; [exact Hl|]. split; [reflexivity|].
  destruct (passing_run_trace Sample.json_loads Sample.strip Sample.all_pass
              eq_refl Hl eq_refl Hall) as (H1 & _ & _ & H2).
  split; [|exact H2]. unfold exit_code. rewrite H1. reflexivity.
Defined.

(** ** The signals of a run *)

Definition signal_of (e : event) : option signal :=
  match e with
  | Kill s => Some s
  | _ => None
  end.

Lemma signals_logged new w :
  signals (logged new w) = signals w ++ rev (pick signal_of new).
Proof. exact (pick_trace_app signal_of w (logged new w) new eq_refl). Qed.

Lemma signal_of_prints ms : pick signal_of (map Print ms) = [].
Proof. induction ms as [|m ms IH]; [reflexivity | exact IH]. Qed.

Section Signals.

Variable json_loads : string -> option json.
Variable strip : string -> string.
Variable E : Env.

Local Abbreviation stop_quiet := (stop_server_with E (ret tt)).
Local Abbreviation outcome := (outcome json_loads strip E).
Local Abbreviation step_world := (step_world json_loads strip E).
Local Abbreviation loop_world := (loop_world json_loads strip E).
Local Abbreviation run := (run json_loads strip E).

Lemma stop_idle_signals w :
  wf w = true -> running w = false -> signals (snd (stop_quiet w)) = signals w.
Proof.
  intros Hw Hr. pose proof (stop_events_idle E w Hw Hr) as He.
  destruct (stop_events_prints_only E w) with (w' := snd (stop_quiet w))
    as (H & _ & _); auto using stop_quiet_log.
  rewrite He. destruct (server_process w); auto.
Qed.

Lemma stop_running_signals w :
  wf w = true -> running w = true ->
  signals (snd (stop_quiet w)) = signals w ++ signals_on_stop E.
Proof.
  intros Hw Hr. destruct (stop_quiet_running E w Hw Hr) as [_ He].
  pose proof (stop_quiet_log E w) as Hl. rewrite He in Hl.
  unfold signals. rewrite (pick_trace_app _ w _ _ Hl). f_equal.
  unfold signals_on_stop.
  destruct (later_exit E); [reflexivity|]. destruct (term_exit E); reflexivity.
Qed.

Lemma stop_signals w :
  wf w = true ->
  signals (snd (stop_quiet w)) =
  signals w ++ (if running w then signals_on_stop E else []).
Proof.
  intros Hw. destruct (running w) eqn:Hr.
  - apply stop_running_signals; assumption.
  - rewrite app_nil_r. apply stop_idle_signals; assumption.
Qed.

Lemma interrupted_world_signals w :
  wf w = true ->
  signals (interrupted_world E w) =
  signals w ++ (if running w then signals_on_stop E else []).
Proof.
  intros Hw. unfold interrupted_world.
  rewrite (stop_signals (logged [Print TestInterrupted] w) Hw).
  rewrite signals_logged. cbn [pick signal_of rev]. rewrite app_nil_r. reflexivity.
Qed.

(** [terminate()] on a child that runs. *)
Lemma terminate_running w :
  wf w = true -> running w = true ->
  let w' := snd (send_signal (later_exit E) SIGTERM w) in
  wf w' = true /\
  match later_exit E with
  | Some _ => running w' = false /\ signals w' = signals w
  | None => running w' = true /\ signals w' = signals w ++ [SIGTERM]
  end.
Proof.
  destruct w as [[[[c|]]|] ch n lg sc]; unfold wf, running; cbn;
    destruct ch; try discriminate.
  intros _ _. unfold send_signal, poll, with_process. cbn.
  destruct (later_exit E) as [c|]; cbn.
  - rewrite Z.eqb_refl. auto.
  - repeat split. unfold signals, trace. cbn. rewrite pick_app. reflexivity.
Qed.

Lemma step_world_state s w :
  wf w = true -> running w = true ->
  wf (step_world s w) = true /\
  (if interrupted_at E (calls w)
   then running (step_world s w) = false /\
        signals (step_world s w) = signals w ++ signals_on_stop E
   else running (step_world s w) = true /\
        signals (step_world s w) = signals w).
Proof.
  intros Hw Hr. split; [apply step_world_wf, Hw|].
  unfold step_world. destruct (interrupted_at E (calls w)).
  - match goal with |- context [stop_quiet ?v] =>
      destruct (stop_quiet_child E v Hw) as (_ & H2 & _);
      pose proof (stop_running_signals v Hw Hr) as H3
    end.
    split; [exact H2|]. rewrite H3, signals_logged.
    cbn [pick signal_of rev]. rewrite app_nil_r. reflexivity.
  - split; [exact Hr|]. rewrite signals_logged, !pick_app, pick_rev, signal_of_prints.
    replace (pick signal_of (exchange_events json_loads strip E (request s) (calls w)))
      with (@nil signal).
    + cbn. apply app_nil_r.
    + unfold exchange_events. destruct (exchanges E (calls w)) as [|line];
        [reflexivity|].
      destruct (String.eqb line ""); [reflexivity|].
      destruct (json_loads (strip line)); reflexivity.
Qed.

Lemma loop_world_state l : forall w,
  wf w = true -> running w = true ->
  wf (loop_world l w) = true /\
  ((running (loop_world l w) = true /\ signals (loop_world l w) = signals w) \/
   (running (loop_world l w) = false /\
    signals (loop_world l w) = signals w ++ signals_on_stop E /\
    exists n, delivered E (AtReadline n) = true)).
Proof.
  induction l as [|s l IH]; intros w Hw Hr; [auto|].
  cbn [loop_world].
  destruct (step_world_state s w Hw Hr) as [Hw' Hs].
  assert (Ho : outcome s (calls w) =
               if interrupted_at E (calls w) then Raise (SystemExit 1)
               else snd (check s (answer json_loads strip E (calls w))))
    by reflexivity.
  rewrite Ho. clear Ho.
  destruct (interrupted_at E (calls w)) eqn:Hi.
  - split; [exact Hw'|]. right. destruct Hs as [H1 H2].
    split; [exact H1|]. split; [exact H2|]. exists (calls w).
    unfold interrupted_at in Hi. destruct (exchanges E (calls w)); [discriminate|].
    exact Hi.
  - destruct Hs as [H1 H2].
    destruct (snd (check s (answer json_loads strip E (calls w)))) as [[|]|e];
      try (split; [exact Hw' | left; split; assumption]).
    destruct (IH _ Hw' H1) as [Hw'' [[H3 H4] | (H3 & H4 & H5)]].
    + split; [exact Hw''|]. left. split; [exact H3|]. rewrite H4. exact H2.
    + split; [exact Hw''|]. right. split; [exact H3|]. split; [|exact H5].
      rewrite H4, H2. reflexivity.
Qed.

End Signals.

Lemma ipoint_eqb_eq p q : ipoint_eqb p q = true -> p = q.
Proof.
  destruct p, q; cbn; try discriminate; try reflexivity.
  intros H. apply Nat.eqb_eq in H. subst. reflexivity.
Qed.

(** The interrupt is delivered at one point only. *)
Lemma delivered_unique E p q :
  delivered E p = true -> delivered E q = true -> p = q.
Proof.
  unfold delivered. destruct (interrupt E) as [r|]; [|discriminate].
  intros H1 H2. apply ipoint_eqb_eq in H1. apply ipoint_eqb_eq in H2. congruence.
Qed.

Lemma delivered_elsewhere E p q :
  delivered E p = true -> p <> q -> delivered E q = false.
Proof.
  intros Hp Hne. destruct (delivered E q) eqn:Hq; [|reflexivity].
  elim Hne. apply (delivered_unique E p q Hp Hq).
Qed.

(** A child is spawned, its handle is assigned, and it still runs when
    the harness first stops it. *)
Definition child_stopped (E : Env) : bool :=
  negb (help_requested E) && negb (delivered E AtEntry) &&
  jar_exists E && negb (popen_fails E) && negb (delivered E AtSpawn) &&
  (delivered E AtSettle ||
   match early_exit E with None => true | Some _ => false end).

(** The signals of the final [stop_server] on a child that runs. *)
Definition signals_at_cleanup (E : Env) : list signal :=
  if delivered E AtCleanup then
    match later_exit E with
    | None => SIGTERM :: signals_on_stop E
    | Some _ => []
    end
  else signals_on_stop E.

Section RunSignals.

Variable json_loads : string -> option json.
Variable strip : string -> string.
Variable E : Env.

Local Abbreviation stop_quiet := (stop_server_with E (ret tt)).
Local Abbreviation run := (run json_loads strip E).

(** [terminate()] in any state. *)
Lemma terminate_state w :
  wf w = true ->
  let w' := snd (send_signal (later_exit E) SIGTERM w) in
  wf w' = true /\
  (if running w then
     match later_exit E with
     | Some _ => running w' = false /\ signals w' = signals w
     | None => running w' = true /\ signals w' = signals w ++ [SIGTERM]
     end
   else running w' = false /\ signals w' = signals w).
Proof.
  intros Hw. destruct (running w) eqn:Hr.
  - apply terminate_running; assumption.
  - split; [apply send_signal_wf, Hw|].
    destruct w as [[[[c|]]|] ch n lg sc]; unfold wf, running in *; cbn in *;
      destruct ch; try discriminate;
      unfold send_signal, poll, with_process; cbn; auto.
Qed.

Lemma stop_interrupted_signals w :
  wf w = true ->
  wf (stop_interrupted_world E w) = true /\
  running (stop_interrupted_world E w) = false /\
  signals (stop_interrupted_world E w) =
  signals w ++
  (if running w then
     match later_exit E with
     | None => SIGTERM :: signals_on_stop E
     | Some _ => []
     end
   else []).
Proof.
  intros Hw. unfold stop_interrupted_world.
  assert (Hw0 : wf (snd (enter_stop w)) = true) by exact Hw.
  destruct (terminate_state (snd (enter_stop w)) Hw0) as [Hw1 Hs].
  change (running (snd (enter_stop w))) with (running w) in Hs.
  change (signals (snd (enter_stop w))) with (signals w) in Hs.
  set (w1 := snd (send_signal (later_exit E) SIGTERM (snd (enter_stop w)))) in *.
  destruct (interrupted_world_child E w1 Hw1) as [Hw2 Hr2].
  pose proof (interrupted_world_signals E w1 Hw1) as Hs2.
  unfold interrupted_world in Hw2, Hr2, Hs2.
  split; [exact Hw2|]. split; [exact Hr2|]. rewrite Hs2.
  destruct (running w).
  - destruct (later_exit E); destruct Hs as [-> ->].
    + reflexivity.
    + rewrite <- app_assoc. reflexivity.
  - destruct Hs as [-> ->]. reflexivity.
Qed.

(** The end of a run from the [finally] of [run_all_tests] on. *)
Lemma tail_signals (x : result bool) v :
  wf v = true ->
  signals (snd match finally_stop E x v with
               | (Ok success, v') =>
                   if delivered E AtReturn
                   then (Raise (SystemExit 1), interrupted_world E v')
                   else (Raise (SystemExit (if success then 0 else 1)), v')
               | (Raise e, v') => (@Raise unit e, v')
               end) =
  signals v ++ (if running v then signals_at_cleanup E else []).
Proof.
  intros Hv. unfold finally_stop, signals_at_cleanup.
  destruct (delivered E AtCleanup).
  - cbn [snd]. apply stop_interrupted_signals, Hv.
  - destruct (stop_quiet_child E v Hv) as (Hw1 & Hr1 & _).
    pose proof (stop_signals E v Hv) as Hs.
    destruct x as [success|e]; cbn [snd]; [|exact Hs].
    destruct (delivered E AtReturn); cbn [snd]; [|exact Hs].
    rewrite (interrupted_world_signals E _ Hw1), Hr1, app_nil_r. exact Hs.
Qed.

Lemma run_signals :
  signals (snd run) = if child_stopped E then signals_at_cleanup E else [].
Proof.
  rewrite run_cases. unfold main_cases, child_stopped.
  destruct (help_requested E); [reflexivity|]. cbn [negb andb].
  destruct (delivered E AtEntry).
  { cbn [snd negb andb]. rewrite interrupted_world_signals by reflexivity.
    reflexivity. }
  cbn [negb andb]. unfold run_all_tests_cases, start_server_cases.
  destruct (jar_exists E); cbn [negb andb].
  2:{ destruct (delivered E AtReturn); cbn [snd]; [|reflexivity].
      rewrite interrupted_world_signals by reflexivity. reflexivity. }
  destruct (popen_fails E); cbn [negb andb].
  { destruct (delivered E AtReturn); cbn [snd]; [|reflexivity].
    rewrite interrupted_world_signals by reflexivity. reflexivity. }
  destruct (delivered E AtSpawn); cbn [negb andb snd].
  { match goal with |- context [stop_quiet (logged _ ?v)] =>
      fold (interrupted_world E v);
      destruct (interrupted_world_unspawned E v eq_refl) as (Hl & _)
    end.
    unfold signals. rewrite (pick_trace_app _ _ _ [Print TestInterrupted] Hl).
    reflexivity. }
  destruct (delivered E AtSettle) eqn:Hs; cbn [orb snd].
  { fold (interrupted_world E
            (spawned (logged [Print Rule; Print StartingTests] init_world))).
    rewrite interrupted_world_signals by reflexivity.
    unfold signals_at_cleanup.
    rewrite (delivered_elsewhere E AtSettle AtCleanup Hs) by discriminate.
    reflexivity. }
  destruct (early_exit E) as [c|].
  { destruct (delivered E AtReturn); cbn [snd]; [|reflexivity].
    rewrite interrupted_world_signals by (unfold wf; cbn; apply Z.eqb_refl).
    reflexivity. }
  set (w1 := logged [Print ServerStarted]
               (spawned (logged [Print Rule; Print StartingTests] init_world))).
  destruct (loop_world_state json_loads strip E steps w1 eq_refl eq_refl)
    as [Hw [[Hr Hsig] | (Hr & Hsig & n & Hn)]].
  - destruct (loop_result json_loads strip E steps (calls w1) 0) as [passed|e].
    + rewrite tail_signals by exact Hw.
      change (running (logged (summary passed) (loop_world json_loads strip E steps w1)))
        with (running (loop_world json_loads strip E steps w1)).
      rewrite Hr, signals_logged, Hsig.
      unfold summary. destruct (Nat.eqb passed 4); reflexivity.
    + rewrite tail_signals by exact Hw. rewrite Hr, Hsig. reflexivity.
  - assert (Hc : signals_at_cleanup E = signals_on_stop E).
    { unfold signals_at_cleanup.
      rewrite (delivered_elsewhere E (AtReadline n) AtCleanup Hn) by discriminate.
      reflexivity. }
    rewrite Hc.
    destruct (loop_result json_loads strip E steps (calls w1) 0) as [passed|e].
    + rewrite tail_signals by exact Hw.
      change (running (logged (summary passed) (loop_world json_loads strip E steps w1)))
        with (running (loop_world json_loads strip E steps w1)).
      rewrite Hr, signals_logged, Hsig, app_nil_r.
      unfold summary. destruct (Nat.eqb passed 4); cbn; rewrite app_nil_r;
        reflexivity.
    + rewrite tail_signals by exact Hw. rewrite Hr, Hsig, app_nil_r. reflexivity.
Qed.

(** X20. The signals a run sends to its child. None is sent unless a
    child has been spawned, its handle assigned, and it still runs when the
    harness first stops it.
    When the interrupt does not arrive during the wait of the final
    [stop_server], the signals of the run are those of one stop: none when
    the child has exited by itself, SIGTERM, or SIGTERM and then SIGKILL
    when the child does not exit within the wait. In every run the first
    signal, if any, is SIGTERM, and SIGKILL is only sent as the last
    signal, after SIGTERM, to a child that did not exit in time. *)
Theorem signals_of_a_run :
  let w := snd run in
  (child_stopped E = false -> signals w = []) /\
  (child_stopped E = true -> delivered E AtCleanup = false ->
   signals w = signals_on_stop E) /\
  (signals w = [] \/ exists rest, signals w = SIGTERM :: rest) /\
  (In SIGKILL (signals w) ->
   later_exit E = None /\ term_exit E = None /\
   exists before, signals w = SIGTERM :: before ++ [SIGKILL]).
Proof.
  cbv zeta. rewrite run_signals.
  unfold signals_at_cleanup, signals_on_stop.
  destruct (child_stopped E), (delivered E AtCleanup), (later_exit E), (term_exit E);
    cbn; repeat split; eauto; try discriminate;
    try (intros; intuition discriminate).
  - exists [SIGTERM]. reflexivity.
  - exists []. reflexivity.
Qed.

End RunSignals.

(** ** The order of what is done to the child *)

(** The events that act on the child. *)
Definition acts_on_child (e : event) : option event :=
  match e with
  | Spawn _ | SendLine _ | Kill _ => Some e
  | _ => None
  end.

(** A log, newest event first, in which every signal is newer than every
    request, and every request newer than every spawn. *)
Definition staged (l : list event) : Prop :=
  pick acts_on_child l =
  map Kill (pick signal_of l) ++ map SendLine (pick request_of l) ++
  map Spawn (pick spawn_of l).

(** A staged log to which no signal has been sent yet. *)
Definition calm (l : list event) : Prop :=
  staged l /\ pick signal_of l = [].

Lemma staged_nil : staged [].
Proof. reflexivity. Qed.

Lemma staged_passive e l :
  acts_on_child e = None -> staged l -> staged (e :: l).
Proof.
  unfold staged. intros He Hl. destruct e; try discriminate; cbn; exact Hl.
Qed.

Lemma staged_kill s l : staged l -> staged (Kill s :: l).
Proof. unfold staged. intros Hl. cbn. rewrite Hl. reflexivity. Qed.

Lemma staged_background new l :
  Forall (fun e => background e = true) new -> staged l -> staged (new ++ l).
Proof.
  induction 1 as [|e new He _ IH]; intros Hl; [exact Hl|].
  cbn [app]. destruct e as [m| |s| |]; try discriminate.
  - apply staged_passive; [reflexivity | apply IH, Hl].
  - apply staged_kill, IH, Hl.
Qed.

Lemma calm_passive e l :
  acts_on_child e = None -> calm l -> calm (e :: l).
Proof.
  intros He [Hl Hs]. split; [apply staged_passive; assumption|].
  destruct e; try discriminate; exact Hs.
Qed.

Lemma calm_prints ms l : calm l -> calm (map Print ms ++ l).
Proof.
  intros Hl. induction ms as [|m ms IH]; [exact Hl|].
  cbn [map app]. apply calm_passive; [reflexivity | exact IH].
Qed.

Lemma calm_request r l : calm l -> calm (SendLine r :: l).
Proof.
  unfold calm, staged. intros [Hl Hs]. cbn. rewrite Hs in *. cbn in *.
  rewrite Hl. auto.
Qed.

Lemma calm_spawn c l :
  calm l -> pick request_of l = [] -> calm (Spawn c :: l).
Proof.
  unfold calm, staged. intros [Hl Hs] Hr. cbn. rewrite Hs, Hr in *. cbn in *.
  rewrite Hl. auto.
Qed.

Lemma calm_staged l : calm l -> staged l.
Proof. intros [H _]. exact H. Qed.

Lemma extends_staged w w' : extends w w' -> staged (log w) -> staged (log w').
Proof.
  intros (new & Hl & Hn) Hs. rewrite Hl. apply staged_background; assumption.
Qed.

Section Lifecycle.

Variable json_loads : string -> option json.
Variable strip : string -> string.
Variable E : Env.

Local Abbreviation outcome := (outcome json_loads strip E).
Local Abbreviation step_world := (step_world json_loads strip E).
Local Abbreviation loop_world := (loop_world json_loads strip E).
Local Abbreviation run := (run json_loads strip E).

Lemma step_world_staged s w :
  calm (log w) ->
  staged (log (step_world s w)) /\
  (interrupted_at E (calls w) = false -> calm (log (step_world s w))).
Proof.
  intros Hw. unfold step_world. destruct (interrupted_at E (calls w)).
  - split; [|discriminate].
    apply (extends_staged _ _ (stop_quiet_extends E _)).
    cbn [log logged called app].
    apply staged_passive; [reflexivity|]. apply calm_staged, calm_request.
    apply calm_passive; [reflexivity | exact Hw].
  - assert (Hc : calm (log (logged
                    (rev (map Print (fst (check s (answer json_loads strip E (calls w))))) ++
                     exchange_events json_loads strip E (request s) (calls w) ++
                     [Print (header s)]) (called w)))).
    { cbn [log logged called]. rewrite <- map_rev, <- app_assoc. apply calm_prints.
      assert (Hh : calm ([Print (header s)] ++ log w)).
      { apply calm_passive; [reflexivity | exact Hw]. }
      unfold exchange_events. destruct (exchanges E (calls w)) as [|line].
      - apply calm_passive; [reflexivity | exact Hh].
      - destruct (String.eqb line ""); [apply calm_request, Hh|].
        destruct (json_loads (strip line)); [apply calm_request, Hh|].
        apply calm_passive; [reflexivity|]. apply calm_request, Hh. }
    split; [apply calm_staged, Hc | intros _; exact Hc].
Qed.

Lemma loop_world_staged l : forall w,
  calm (log w) -> staged (log (loop_world l w)).
Proof.
  induction l as [|s l IH]; intros w Hw; [apply calm_staged, Hw|].
  cbn [loop_world]. destruct (step_world_staged s w Hw) as [Hs Hc].
  assert (Ho : outcome s (calls w) =
               if interrupted_at E (calls w) then Raise (SystemExit 1)
               else snd (check s (answer json_loads strip E (calls w))))
    by reflexivity.
  rewrite Ho. clear Ho.
  destruct (interrupted_at E (calls w)); [exact Hs|].
  destruct (snd (check s (answer json_loads strip E (calls w)))) as [[|]|e];
    try exact Hs.
  apply IH, Hc. reflexivity.
Qed.

Lemma run_staged : staged (log (snd run)).
Proof.
  rewrite run_cases. unfold main_cases.
  destruct (help_requested E).
  { cbn [snd]. unfold usage_world. cbn [log logged init_world].
    rewrite app_nil_r, <- map_rev.
    apply calm_staged. rewrite <- (app_nil_r (map _ _)).
    apply (calm_prints (map Usage (rev usage)) []).
    - split; reflexivity. }
  destruct (delivered E AtEntry).
  { cbn [snd]. apply (extends_staged _ _ (interrupted_world_extends E init_world)).
    reflexivity. }
  set (w0 := logged [Print Rule; Print StartingTests] init_world).
  assert (H0 : calm (log w0)) by (split; reflexivity).
  assert (Htail : forall (x : result bool) v,
            staged (log v) ->
            staged (log (snd match x, v with
                             | Ok success, v' =>
                                 if delivered E AtReturn
                                 then (Raise (SystemExit 1), interrupted_world E v')
                                 else (Raise (SystemExit (if success then 0 else 1)), v')
                             | Raise e, v' => (@Raise unit e, v')
                             end))).
  { intros x v Hv. destruct x as [success|e]; [|exact Hv].
    destruct (delivered E AtReturn); cbn [snd]; [|exact Hv].
    apply (extends_staged _ _ (interrupted_world_extends E v)), Hv. }
  unfold run_all_tests_cases, start_server_cases. fold w0.
  destruct (negb (jar_exists E)).
  { apply (Htail (Ok false)). cbn [log logged app].
    repeat (apply staged_passive; [reflexivity|]). apply calm_staged, H0. }
  destruct (popen_fails E).
  { apply (Htail (Ok false)). cbn [log logged app].
    repeat (apply staged_passive; [reflexivity|]). apply calm_staged, H0. }
  assert (H1 : calm (log (spawned w0))) by (split; reflexivity).
  destruct (delivered E AtSpawn).
  { cbn [snd]. apply (extends_staged _ _ (interrupted_world_extends E (forked w0))).
    apply calm_staged, H1. }
  destruct (delivered E AtSettle).
  { cbn [snd]. apply (extends_staged _ _ (interrupted_world_extends E (spawned w0))).
    apply calm_staged, H1. }
  destruct (early_exit E) as [c|].
  { apply (Htail (Ok false)). cbn [log logged reaped app].
    repeat (apply staged_passive; [reflexivity|]). apply calm_staged, H1. }
  set (w1 := logged [Print ServerStarted] (spawned w0)).
  assert (H2 : calm (log w1)) by (split; reflexivity).
  pose proof (loop_world_staged steps w1 H2) as Hl.
  destruct (loop_result json_loads strip E steps (calls w1) 0) as [passed|e].
  - match goal with |- context [finally_stop E ?x ?v] =>
      pose proof (finally_stop_extends E x v) as Hx;
      assert (Hv : staged (log v))
    end.
    { cbn [log logged]. unfold summary. cbn [app].
      repeat (apply staged_passive;
              [destruct (Nat.eqb passed 4); reflexivity|]).
      exact Hl. }
    pose proof (extends_staged _ _ Hx Hv) as Hf.
    match goal with |- context [finally_stop E ?x ?v] =>
      destruct (finally_stop E x v) as [r v']
    end.
    apply (Htail r v'), Hf.
  - match goal with |- context [finally_stop E ?x ?v] =>
      pose proof (finally_stop_extends E x v) as Hx
    end.
    pose proof (extends_staged _ _ Hx Hl) as Hf.
    match goal with |- context [finally_stop E ?x ?v] =>
      destruct (finally_stop E x v) as [r v']
    end.
    apply (Htail r v'), Hf.
Qed.

(** A child is spawned in the run. *)
Definition spawned_in_run : bool :=
  negb (help_requested E) && negb (delivered E AtEntry) &&
  jar_exists E && negb (popen_fails E).

Lemma run_spawns : spawns (snd run) = if spawned_in_run then [cmd] else [].
Proof.
  unfold spawns, spawned_in_run.
  change (fun e => match e with Spawn c => Some c | _ => None end) with spawn_of.
  destruct (reaches_tests E) eqn:Hr.
  - rewrite pick_trace,
      (run_pick_started json_loads strip E spawn_of spawn_of_background Hr).
    rewrite (loop_marks_none json_loads strip E spawn_of steps (fun r => eq_refl))
      by (repeat constructor).
    apply reaches_tests_iff in Hr. destruct Hr as (-> & (-> & -> & _) & -> & _ & _).
    destruct (loop_result json_loads strip E steps 0 0) as [passed|e];
      [|reflexivity].
    unfold summary. destruct (Nat.eqb passed 4); reflexivity.
  - unfold reaches_tests, starts in Hr.
    rewrite run_cases. unfold main_cases.
    destruct (help_requested E); [reflexivity|].
    destruct (delivered E AtEntry).
    { cbn [snd negb andb].
      rewrite (pick_trace_extends spawn_of init_world _ spawn_of_background
                 (interrupted_world_extends E init_world)).
      reflexivity. }
    cbn [negb andb] in *. unfold run_all_tests_cases, start_server_cases.
    destruct (jar_exists E); cbn [negb andb] in *.
    2:{ destruct (delivered E AtReturn); cbn [snd]; [|reflexivity].
        erewrite (pick_trace_extends spawn_of _ _ spawn_of_background
                    (interrupted_world_extends E _)).
        reflexivity. }
    destruct (popen_fails E); cbn [negb andb] in *.
    { destruct (delivered E AtReturn); cbn [snd]; [|reflexivity].
      erewrite (pick_trace_extends spawn_of _ _ spawn_of_background
                  (interrupted_world_extends E _)).
      reflexivity. }
    destruct (delivered E AtSpawn); cbn [negb andb] in *.
    { cbn [snd].
      fold (interrupted_world E
              (forked (logged [Print Rule; Print StartingTests] init_world))).
      rewrite (pick_trace_extends spawn_of _ _ spawn_of_background
                 (interrupted_world_extends E _)).
      reflexivity. }
    destruct (delivered E AtSettle); cbn [negb andb] in *.
    { cbn [snd].
      fold (interrupted_world E
              (spawned (logged [Print Rule; Print StartingTests] init_world))).
      rewrite (pick_trace_extends spawn_of _ _ spawn_of_background
                 (interrupted_world_extends E _)).
      reflexivity. }
    destruct (early_exit E) as [c|]; [|discriminate].
    destruct (delivered E AtReturn); cbn [snd]; [|reflexivity].
    erewrite (pick_trace_extends spawn_of _ _ spawn_of_background
                (interrupted_world_extends E _)).
    reflexivity.
Qed.

(** X21. In every run what the harness does to the child comes in this
    order: the spawn, then the requests, then the signals. At most one
    child is spawned, with the fixed command line; a request is written or
    a signal sent only in a run that has spawned the child, and then only
    after the spawn; and once a signal has been sent no request is written
    and nothing is spawned. *)
Theorem lifecycle_order :
  let w := snd run in
  pick acts_on_child (trace w) =
    map Spawn (spawns w) ++ map SendLine (requests w) ++ map Kill (signals w) /\
  spawns w = (if spawned_in_run then [cmd] else []) /\
  (requests w <> [] -> spawns w = [cmd]) /\
  (signals w <> [] -> spawns w = [cmd]).
Proof.
  cbv zeta. split; [|split; [exact run_spawns|split]].
  - unfold spawns, requests, signals.
    change (fun e => match e with Spawn c => Some c | _ => None end) with spawn_of.
    change (fun e => match e with SendLine r => Some r | _ => None end)
      with request_of.
    change (fun e => match e with Kill s => Some s | _ => None end) with signal_of.
    rewrite !pick_trace, run_staged, !rev_app_distr, !map_rev, app_assoc.
    reflexivity.
  - rewrite run_spawns, (run_requests json_loads strip E). unfold spawned_in_run.
    destruct (reaches_tests E) eqn:Hr; [|congruence].
    apply reaches_tests_iff in Hr. destruct Hr as (-> & (-> & -> & _) & -> & _ & _).
    reflexivity.
  - rewrite run_spawns, (run_signals json_loads strip E).
    unfold spawned_in_run, child_stopped.
    destruct (help_requested E), (delivered E AtEntry), (jar_exists E),
      (popen_fails E), (delivered E AtSpawn); cbn; congruence.
Qed.

End Lifecycle.

(** ** An interrupt while a step waits for its reply *)

Section Interrupted.

Variable json_loads : string -> option json.
Variable strip : string -> string.
Variable E : Env.

Local Abbreviation outcome := (outcome json_loads strip E).
Local Abbreviation step_world := (step_world json_loads strip E).
Local Abbreviation loop_world := (loop_world json_loads strip E).
Local Abbreviation run := (run json_loads strip E).

Lemma loop_world_interrupted l : forall w k s,
  nth_error l k = Some s -> leading json_loads strip E l (calls w) k ->
  interrupted_at E (calls w + k) = true ->
  stop_calls (loop_world l w) = S (stop_calls w).
Proof.
  induction l as [|a l IH]; intros w k s Hs Hl Hi.
  - destruct k; discriminate.
  - cbn [loop_world]. destruct k as [|k].
    + rewrite Nat.add_0_r in Hi.
      assert (Ho : outcome a (calls w) = Raise (SystemExit 1)).
      { unfold outcome. rewrite Hi. reflexivity. }
      rewrite Ho. unfold step_world. rewrite Hi, stopped_once. reflexivity.
    + apply leading_cons in Hl. destruct Hl as [Ha Hl]. rewrite Ha.
      destruct (step_world_frame json_loads strip E a w (or_introl Ha))
        as (_ & _ & Hsc & Hc).
      rewrite <- Hsc. apply (IH _ k s Hs).
      * rewrite Hc. exact Hl.
      * rewrite Hc. replace (S (calls w) + k) with (calls w + S k) by lia. exact Hi.
Qed.

(** X22. The interrupt arrives while step [n+1] waits for its reply, the
    steps before it having passed: the request of that step has been
    written; the handler stops the server and calls [sys.exit(1)], which
    [send_request] does not catch; on the way out the [finally] of
    [run_all_tests] calls [stop_server] a second time, which sends
    nothing more. The run exits with status 1, the later steps are not
    begun, and neither tally nor verdict is printed. *)
Theorem interrupt_during_request n s line :
  reaches_tests E = true ->
  nth_error steps n = Some s ->
  (forall i s', i < n -> nth_error steps i = Some s' -> outcome s' i = Ok true) ->
  exchanges E n = Readline line ->
  delivered E (AtReadline n) = true ->
  let w := snd run in
  fst run = Raise (SystemExit 1) /\
  headers w = firstn (S n) (map header steps) /\
  requests w = firstn (S n) (map request steps) /\
  tallies w = [] /\ verdicts w = [] /\
  stop_calls w = 2 /\
  signals w = signals_on_stop E.
Proof.
  intros Hr Hs Hl Hx Hd. cbv zeta.
  assert (Hi : interrupted_at E n = true).
  { unfold interrupted_at. rewrite Hx. exact Hd. }
  assert (Ho : outcome s n = Raise (SystemExit 1)).
  { unfold outcome. rewrite Hi. reflexivity. }
  assert (Hloop : loop_result json_loads strip E steps 0 0 = Raise (SystemExit 1)).
  { apply (loop_result_raise json_loads strip E steps 0 0 n s _ Hs Hl Ho). }
  assert (Hc : delivered E AtCleanup = false).
  { apply (delivered_elsewhere E (AtReadline n) AtCleanup Hd). discriminate. }
  assert (Hbegun : begun json_loads strip E steps 0 = firstn (S n) steps).
  { apply (begun_stop json_loads strip E steps 0 n s Hs Hl).
    cbn [Nat.add]. rewrite Ho. discriminate. }
  assert (Hn : n < 4).
  { change 4 with (List.length steps). apply nth_error_Some. congruence. }
  pose proof Hr as Hr'. apply reaches_tests_iff in Hr'.
  destruct Hr' as (Hh & (Hj & Hp & He) & Hentry & Hfork & Hsettle).
  split; [|split; [|split; [|split; [|split; [|split]]]]].
  - rewrite (run_result json_loads strip E), Hh, Hr, Hc, Hloop. reflexivity.
  - rewrite (run_headers json_loads strip E), Hr, Hbegun. symmetry. apply firstn_map.
  - rewrite (run_requests json_loads strip E), Hr.
    destruct (loop_marks_requests json_loads strip E steps check_none 0)
      as (m & Hm & Hlen).
    rewrite Hbegun, length_firstn in Hlen. cbn [List.length steps] in Hlen.
    rewrite Hm, rev_involutive.
    assert (m = S n) as ->.
    { destruct Hlen as [-> | [Hm' Hb]]; [lia|].
      assert (m = n) by lia. subst m. cbn [Nat.add] in Hb. congruence. }
    symmetry. apply firstn_map.
  - rewrite (run_tallies json_loads strip E Hr), Hloop. reflexivity.
  - rewrite (run_verdicts json_loads strip E Hr), Hloop. reflexivity.
  - rewrite run_cases. unfold main_cases, run_all_tests_cases.
    rewrite Hh, Hentry.
    rewrite (start_cases_started E _)
      by (unfold starts; rewrite Hj, Hp, Hfork, Hsettle, He; reflexivity).
    set (w1 := started_world (logged [Print Rule; Print StartingTests] init_world)).
    change (calls w1) with 0. rewrite Hloop.
    unfold finally_stop. rewrite Hc. cbn [snd]. rewrite stopped_once.
    rewrite (loop_world_interrupted steps w1 n s Hs Hl Hi). reflexivity.
  - rewrite (run_signals json_loads strip E).
    unfold child_stopped, signals_at_cleanup.
    rewrite Hh, Hentry, Hj, Hp, Hfork, He, Hc, orb_true_r. reflexivity.
Qed.

End Interrupted.

Lemma interrupt_during_request_witness :
  let E := Sample.with_interrupt (AtReadline 1) Sample.all_pass in
  reaches_tests E = true /\
  exit_code Sample.json_loads Sample.strip E = 1%Z /\
  stop_calls (snd (run Sample.json_loads Sample.strip E)) = 2 /\
  signals (snd (run Sample.json_loads Sample.strip E)) = [SIGTERM] /\
  requests (snd (run Sample.json_loads Sample.strip E)) =
    [request_initialize; request_list_tools].
Proof.
  cbv zeta. split; [reflexivity|].
  assert (Hl : forall i s', i < 1 -> nth_error steps i = Some s' ->
                 outcome Sample.json_loads Sample.strip
                   (Sample.with_interrupt (AtReadline 1) Sample.all_pass) s' i
                 = Ok true).
  { intros i s Hi Hs. destruct i; [|lia]. inversion Hs. reflexivity. }
  destruct (interrupt_during_request Sample.json_loads Sample.strip
              (Sample.with_interrupt (AtReadline 1) Sample.all_pass)
              1 step_list_tools (Sample.line_of 1)
              eq_refl eq_refl Hl eq_refl eq_refl)
    as (H1 & _ & H2 & _ & _ & H3 & H4).
  split; [unfold exit_code; rewrite H1; reflexivity|].
  split; [exact H3|]. split; [exact H4 | exact H2].
Defined.

(** ** The exit status and the verdict printed *)

Lemma verdict_of_early e : early e = true -> verdict_of e = None.
Proof.
  destruct e as [m| | | |]; try reflexivity. destruct m; try reflexivity; discriminate.
Qed.

(** X23. The exit status agrees with what was printed. In a run without
    the help flag the status is 0 exactly when the verdict "All tests
    passed" was printed and no interrupt arrived afterwards (while the
    server was stopped, or after [run_all_tests] had returned); in every
    other case it is 1. At most one verdict is printed, and none when the
    tests are not reached or a step raises. *)
Theorem exit_status_agrees_with_verdict json_loads strip E :
  help_requested E = false ->
  let w := snd (run json_loads strip E) in
  let code := exit_code json_loads strip E in
  (code = 0%Z <->
   verdicts w = [true] /\ delivered E AtCleanup = false /\
   delivered E AtReturn = false) /\
  (code = 0 \/ code = 1)%Z /\
  (verdicts w = [] \/ verdicts w = [true] \/ verdicts w = [false]) /\
  (reaches_tests E = false -> verdicts w = []).
Proof.
  intros Hh. cbv zeta. unfold exit_code.
  rewrite (run_result json_loads strip E), Hh.
  destruct (reaches_tests E) eqn:Hr.
  - rewrite (run_verdicts json_loads strip E Hr).
    destruct (loop_result_steps json_loads strip E) as (_ & _ & Hraise).
    destruct (loop_result json_loads strip E steps 0 0) as [passed|e].
    + destruct (delivered E AtCleanup), (delivered E AtReturn),
        (Nat.eqb passed 4); cbn; repeat split; auto;
        try discriminate; try (intros (? & ? & ?); discriminate);
        try (intros; discriminate).
    + specialize (Hraise e eq_refl).
      destruct (delivered E AtCleanup); cbn [exit_status];
        [|rewrite Hraise]; repeat split; auto; try discriminate;
        try (intros (? & ? & ?); discriminate).
  - rewrite (unstarted_pick json_loads strip E verdict_of verdict_of_early Hh Hr
             : verdicts _ = []).
    cbn. repeat split; auto; try discriminate.
    intros (? & ? & ?); discriminate.
Qed.

Lemma exit_status_agrees_with_verdict_witness :
  help_requested Sample.all_pass = false /\
  exit_code Sample.json_loads Sample.strip Sample.all_pass = 0%Z /\
  verdicts (snd (run Sample.json_loads Sample.strip Sample.all_pass)) = [true].
Proof.
  split; [reflexivity|].
  assert (H0 : exit_code Sample.json_loads Sample.strip Sample.all_pass = 0%Z)
    by reflexivity.
  split; [exact H0|].
  apply (proj1 (proj1 (exit_status_agrees_with_verdict Sample.json_loads
                         Sample.strip Sample.all_pass eq_refl)) H0).
Defined.

(** ** Which run leaves a child *)

(** The run is interrupted inside [Popen], when the child exists and its
    handle is not yet assigned to the tester. *)
Definition orphaned (E : Env) : bool :=
  negb (help_requested E) && jar_exists E && negb (popen_fails E) &&
  delivered E AtSpawn.

(** X1. A run leaves a child process running in one case only: the
    interrupt arrives inside [Popen], after the child has been created and
    before its handle is assigned to the tester. The handler then finds no
    handle: [stop_server] is called once and does nothing, no signal is
    sent, and the run ends by [sys.exit(1)] with the child running. After
    every other run, whether it ends normally, by a failed step, by an
    exception of a step or by an interrupt at any other point, no child is
    left running and the handle agrees with the state of the child. *)
Theorem child_left_only_by_interrupted_launch json_loads strip E :
  let r := run json_loads strip E in
  running (snd r) = orphaned E /\
  wf (snd r) = negb (orphaned E) /\
  (orphaned E = true ->
   fst r = Raise (SystemExit 1) /\ server_process (snd r) = None /\
   stop_calls (snd r) = 1 /\ spawns (snd r) = [cmd] /\
   signals (snd r) = [] /\ requests (snd r) = []).
Proof.
  cbv zeta. unfold orphaned.
  destruct (delivered E AtSpawn) eqn:Hs.
  2:{ rewrite andb_false_r.
      destruct (run_child_with_handle json_loads strip E Hs) as [Hw Hr].
      rewrite Hw, Hr. repeat split; discriminate. }
  rewrite andb_true_r.
  assert (He : delivered E AtEntry = false).
  { apply (delivered_elsewhere E AtSpawn); [exact Hs|discriminate]. }
  assert (Hret : delivered E AtReturn = false).
  { apply (delivered_elsewhere E AtSpawn); [exact Hs|discriminate]. }
  rewrite run_cases. unfold main_cases.
  destruct (help_requested E); [cbn; repeat split; discriminate|].
  rewrite He. unfold run_all_tests_cases, start_server_cases. rewrite Hs.
  destruct (jar_exists E); cbn [negb andb].
  2:{ rewrite Hret. cbn. repeat split; discriminate. }
  destruct (popen_fails E); cbn [negb andb].
  { rewrite Hret. cbn. repeat split; discriminate. }
  set (w0 := forked (logged [Print Rule; Print StartingTests] init_world)).
  destruct (interrupted_world_unspawned E w0 eq_refl) as (Hl & Hp & Hc).
  unfold interrupted_world in Hl, Hp, Hc. cbn [fst snd].
  split; [unfold running; rewrite Hc; reflexivity|].
  split; [unfold wf; rewrite Hp, Hc; reflexivity|].
  intros _. split; [reflexivity|]. split; [exact Hp|].
  split; [rewrite stopped_once; reflexivity|].
  unfold spawns, signals, requests, trace. rewrite Hl. repeat split.
Qed.

Lemma child_left_only_by_interrupted_launch_witness :
  let r := run Sample.json_loads Sample.strip
             (Sample.with_interrupt AtSpawn Sample.all_pass) in
  orphaned (Sample.with_interrupt AtSpawn Sample.all_pass) = true /\
  running (snd r) = true /\ fst r = Raise (SystemExit 1) /\
  stop_calls (snd r) = 1 /\ signals (snd r) = [] /\
  running (snd (run Sample.json_loads Sample.strip
                  (Sample.with_interrupt AtSettle Sample.all_pass))) = false.
Proof.
  cbv zeta.
  destruct (child_left_only_by_interrupted_launch Sample.json_loads Sample.strip
              (Sample.with_interrupt AtSpawn Sample.all_pass)) as (H1 & _ & H2).
  destruct (H2 eq_refl) as (H3 & _ & H4 & _ & H5 & _).
  split; [reflexivity|]. split; [exact H1|]. split; [exact H3|].
  split; [exact H4|]. split; [exact H5|].
  apply (child_left_only_by_interrupted_launch Sample.json_loads Sample.strip
           (Sample.with_interrupt AtSettle Sample.all_pass)).
Defined.
